(** * Schema inference and caching core of the dashboard application

    A shallow embedding of the inference-and-caching engine of [app.py]:
    [CacheManager] (the TTL cache and its key derivation),
    [JSONSchemaAnalyzer] (data-type detection, metric classification,
    visualization suggestions, confidence score) and
    [DynamicDashboardGenerator._detect_data_pattern] (the rendering-time
    pattern router), followed by the properties proved about them. *)

From Stdlib Require Import ZArith QArith Ascii String List Bool Lia.
From Stdlib Require Import Floats.PrimFloat Floats.SpecFloat Floats.FloatOps DecimalString.
From stdpp Require Import base option list gmap strings.

Local Set Warnings "-register-all".

(** ** Python strings

    Column names and keywords are modelled as [string]s of 8-bit
    characters.  [lower] is [str.lower] on the ASCII range (bytes outside
    ['A'..'Z'] are left alone), [str_in t s] is the substring test
    [t in s], and [join sep l] is [sep.join(l)]. *)

Module PyStr.

Definition lower_ascii (c : ascii) : ascii :=
  let n := nat_of_ascii c in
  if (65 <=? n)%nat && (n <=? 90)%nat then ascii_of_nat (n + 32) else c.

Fixpoint lower (s : string) : string :=
  match s with
  | EmptyString => EmptyString
  | String c s' => String (lower_ascii c) (lower s')
  end.

(** [s.startswith(t)] *)
Fixpoint startswith (s t : string) {struct t} : bool :=
  match t, s with
  | EmptyString, _ => true
  | String c t', String d s' => Ascii.eqb c d && startswith s' t'
  | String _ _, EmptyString => false
  end.

(** [str_in t s] is Python's [t in s]: [t] occurs as a contiguous
    substring of [s]. *)
Fixpoint str_in (t s : string) : bool :=
  startswith s t ||
  match s with
  | EmptyString => false
  | String _ s' => str_in t s'
  end.

Definition join (sep : string) (l : list string) : string :=
  String.concat sep l.

(** [any(term in s for term in terms)] *)
Definition any_in (terms : list string) (s : string) : bool :=
  existsb (fun term => str_in term s) terms.

(** The characters of a string, used to say that a keyword has no blank. *)
Fixpoint chars (s : string) : list ascii :=
  match s with
  | EmptyString => []
  | String c s' => c :: chars s'
  end.

Definition has_no_space (t : string) : bool :=
  forallb (fun c => negb (Ascii.eqb c " "%char)) (chars t).

(** A search term: not empty and without a blank, like every term the
    detectors look for. *)
Definition keyword (t : string) : Prop := has_no_space t = true /\ t <> "".

End PyStr.
Import PyStr.

(** ** Decoded JSON

    [json.load] yields [None], booleans, integers, IEEE-754 doubles,
    strings, lists and dicts.  A [record] is a dict in insertion order
    (a well-formed record has distinct keys).  The top-level document
    [json_data] is either an array of records (a dataset), a single
    object, or a scalar; [isinstance(json_data, list)] holds exactly for
    [JArray]. *)

Inductive value : Type :=
| VNone
| VBool (b : bool)
| VInt (z : Z)
| VFloat (f : PrimFloat.float)
| VStr (s : string)
| VList (l : list value)
| VDict (d : list (string * value)).

Definition record : Type := list (string * value).

Inductive json_data : Type :=
| JArray (rs : list record)
| JObject (r : record)
| JNone
| JBool (b : bool)
| JInt (z : Z)
| JFloat (f : PrimFloat.float)
| JStr (s : string).

Definition to_value (d : json_data) : value :=
  match d with
  | JArray rs => VList (map VDict rs)
  | JObject r => VDict r
  | JNone => VNone
  | JBool b => VBool b
  | JInt z => VInt z
  | JFloat f => VFloat f
  | JStr s => VStr s
  end.

(** Python truthiness of the document, as tested by [if not json_data]. *)
Definition truthy (d : json_data) : bool :=
  match d with
  | JArray rs => negb (bool_decide (rs = []))
  | JObject r => negb (bool_decide (r = []))
  | JNone => false
  | JBool b => b
  | JInt z => negb (z =? 0)%Z
  | JFloat f => negb (PrimFloat.eqb f PrimFloat.zero)
  | JStr s => negb (String.eqb s "")
  end.

(** [isinstance(json_data, list)] *)
Definition is_array (d : json_data) : bool :=
  match d with JArray _ => true | _ => false end.

(** [isnull]: [None] and NaN are the missing values of pandas. *)
Definition is_null (v : value) : bool :=
  match v with
  | VNone => true
  | VFloat f => PrimFloat.is_nan f
  | _ => false
  end.

(** ** Library behaviour taken as a parameter

    [hashlib], [str] and the dtype machinery of pandas are not part of
    the repository.  The analyzer is modelled over any implementation of
    them; [Reference.lib] further down is one implementation, used to run
    the definitions on examples.

    - [md5_hexdigest b] is [hashlib.md5(b).hexdigest()];
    - [py_str v] is [str(v)], [py_str_tuple args] is [str(args)] for the
      tuple of extra arguments;
    - [is_numeric_dtype cells] is
      [pd.api.types.is_numeric_dtype(df[col].dropna())] and
      [nunique cells] is [df[col].dropna().nunique()] for a column whose
      cells (with [VNone] where a record lacks the key) are [cells];
      [nunique] is [None] when pandas raises (unhashable cells). *)

Class Library : Type := {
  md5_hexdigest : string -> string;
  py_str : value -> string;
  py_str_tuple : list value -> string;
  is_numeric_dtype : list value -> bool;
  nunique : list value -> option nat;
}.

(** [str(n)] for a length. *)
Definition str_nat (n : nat) : string :=
  DecimalString.NilEmpty.string_of_uint (Nat.to_uint n).

(** ** pandas.DataFrame built from a list of records

    The columns are the union of the records' keys in order of first
    appearance; a record that lacks a key has a missing cell there. *)

Module pd.

Record DataFrame : Type := {
  columns : list string;
  rows : list record;
}.

Fixpoint add_keys (seen ks : list string) : list string :=
  match ks with
  | [] => seen
  | k :: ks' => add_keys (if bool_decide (k ∈ seen) then seen else seen ++ [k]) ks'
  end.

Definition union_keys (rs : list record) : list string :=
  fold_left (fun seen r => add_keys seen (map fst r)) rs [].

Definition mk (rs : list record) : DataFrame :=
  {| columns := union_keys rs; rows := rs |}.

(** [len(df)] *)
Definition len (df : DataFrame) : nat := length (rows df).

(** [r.get(k)], with [None] for a missing key. *)
Fixpoint cell (k : string) (r : record) : value :=
  match r with
  | [] => VNone
  | (k', v) :: r' => if String.eqb k k' then v else cell k r'
  end.

(** [df[col]] as the list of its cells. *)
Definition col (df : DataFrame) (c : string) : list value :=
  map (cell c) (rows df).

(** [df[col].dropna()] *)
Definition dropna (cells : list value) : list value :=
  filter (fun v => is_null v = false) cells.

End pd.

(** ** CacheManager

    Each of the three caches is a dict from key to
    [{'data': ..., 'timestamp': ...}].  Time is a [datetime] reading in
    microseconds; [(now - timestamp).total_seconds() < cache_ttl] compares
    a microsecond difference against [cache_ttl] seconds.  Stored data and
    returned results are Python objects or [None], modelled by [option]. *)

Record cached_item (A : Type) : Type := {
  data : option A;
  timestamp : Z;
}.
Arguments data {A} _.
Arguments timestamp {A} _.

(** [(now - ts).total_seconds() < ttl] *)
Definition total_seconds_lt (now ts ttl : Z) : bool :=
  (now - ts <? ttl * 1000000)%Z.

(** The schema that [analyze_json_schema] assembles. *)
Record analysis_t : Type := {
  name : string;
  non_null_count : nat;
  null_count : nat;
  unique_count : nat;
  is_numeric : bool;
}.

Record metrics_t : Type := {
  revenue_columns : list string;
  date_columns : list string;
  categorical_columns : list string;
  percentage_columns : list string;
  id_columns : list string;
}.

Record structure_t : Type := {
  s_type : string;
  s_count : nat;
  s_sample_keys : option (list string);
}.

Record schema_t : Type := {
  data_type : string;
  structure : structure_t;
  columns : list (string * analysis_t);
  metrics : metrics_t;
  suggested_visualizations : list string;
  confidence_score : Z;
}.

Record CacheManager : Type := {
  analysis_cache : gmap string (cached_item json_data);
  visualization_cache : gmap string (cached_item json_data);
  schema_cache : gmap string (cached_item schema_t);
  cache_ttl : Z;
}.

Module Cache.

(** [CacheManager.__init__] *)
Definition init : CacheManager :=
  {| analysis_cache := ∅; visualization_cache := ∅; schema_cache := ∅;
     cache_ttl := 300 |}.

Definition with_analysis (cm : CacheManager) (c : gmap string (cached_item json_data)) :=
  {| analysis_cache := c; visualization_cache := visualization_cache cm;
     schema_cache := schema_cache cm; cache_ttl := cache_ttl cm |}.

Definition with_schema (cm : CacheManager) (c : gmap string (cached_item schema_t)) :=
  {| analysis_cache := analysis_cache cm; visualization_cache := visualization_cache cm;
     schema_cache := c; cache_ttl := cache_ttl cm |}.

(** The body shared by [get_analysis_cache] and [get_schema_cache]: the
    result and the dict after the call at time [now]. *)
Definition lookup_fresh {A} (c : gmap string (cached_item A)) (ttl : Z)
    (cache_key : string) (now : Z) : option A * gmap string (cached_item A) :=
  match c !! cache_key with
  | Some cached =>
      if total_seconds_lt now (timestamp cached) ttl
      then (data cached, c)
      else (None, delete cache_key c)
  | None => (None, c)
  end.

Definition get_analysis_cache (cm : CacheManager) (cache_key : string) (now : Z)
    : option json_data * CacheManager :=
  let '(r, c) := lookup_fresh (analysis_cache cm) (cache_ttl cm) cache_key now in
  (r, with_analysis cm c).

Definition set_analysis_cache (cm : CacheManager) (cache_key : string)
    (d : option json_data) (now : Z) : CacheManager :=
  with_analysis cm (<[cache_key := {| data := d; timestamp := now |}]> (analysis_cache cm)).

Definition get_schema_cache (cm : CacheManager) (cache_key : string) (now : Z)
    : option schema_t * CacheManager :=
  let '(r, c) := lookup_fresh (schema_cache cm) (cache_ttl cm) cache_key now in
  (r, with_schema cm c).

Definition set_schema_cache (cm : CacheManager) (cache_key : string)
    (d : option schema_t) (now : Z) : CacheManager :=
  with_schema cm (<[cache_key := {| data := d; timestamp := now |}]> (schema_cache cm)).

Definition clear_cache (cm : CacheManager) : CacheManager :=
  {| analysis_cache := ∅; visualization_cache := ∅; schema_cache := ∅;
     cache_ttl := cache_ttl cm |}.

(** [get_cache_key(data, *args)] *)
Definition get_cache_key `{Library} (d : json_data) (args : list value) : string :=
  let content_hash :=
    match d with
    | JArray (first :: rest) =>
        String.substring 0 8
          (md5_hexdigest (str_nat (length (first :: rest)) +:+ py_str (VDict first)))
    | _ => String.substring 0 8 (md5_hexdigest (py_str (to_value d)))
    end in
  let args_hash := String.substring 0 8 (md5_hexdigest (py_str_tuple args)) in
  content_hash +:+ "_" +:+ args_hash.

End Cache.

(** ** JSONSchemaAnalyzer *)

Module JSONSchemaAnalyzer.

Definition nonempty {A} (l : list A) : bool :=
  match l with [] => false | _ :: _ => true end.

(** [_detect_data_type].  On an array of records neither the DataFrame
    construction nor [col.lower()] raises, so the [except] branch is not
    reached from a [JArray]. *)
Definition _detect_data_type (json_data : json_data) : string :=
  match json_data with
  | JArray [] => "unknown"
  | JArray rs =>
      let sample_size := Nat.min 5 (length rs) in
      let sample_data := take sample_size rs in
      let df := pd.mk sample_data in
      let columns := map lower (pd.columns df) in
      if any_in ["quarter"; "q3"; "q4"; "qoq"] (join " " columns) then "quarterly"
      else if any_in ["churn"; "expansion"; "bridge"] (join " " columns) then "bridge"
      else if any_in ["country"; "region"; "geographic"] (join " " columns) then "geographic"
      else if any_in ["customer"; "client"; "concentration"] (join " " columns) then "customer"
      else if any_in ["month"; "monthly"; "mom"] (join " " columns) then "monthly"
      else "general"
  | _ => "unknown"
  end.

(** [_analyze_structure] *)
Definition _analyze_structure (json_data : json_data) : structure_t :=
  match json_data with
  | JArray rs =>
      {| s_type := "array_of_objects";
         s_count := length rs;
         s_sample_keys := Some (match rs with r :: _ => map fst r | [] => [] end) |}
  | _ => {| s_type := "single_object"; s_count := 1; s_sample_keys := None |}
  end.

Section WithLibrary.
Context `{Library}.

(** One iteration of the loop of [_analyze_columns]: [None] when pandas
    raises, [Some None] when the column is skipped ([continue]), and
    [Some (Some entry)] for a profiled column.  The entries [data_type],
    [is_datetime], [sample_values] and the floating-point summaries
    ([min_value], [max_value], [mean_value], [has_negative]) of the
    analysis dict are read by no function of the analyzer and are left
    out of [analysis_t]. *)
Definition analyze_column (df : pd.DataFrame) (col : string)
    : option (option (string * analysis_t)) :=
  let cells := pd.col df col in
  let col_data := pd.dropna cells in
  if bool_decide (col_data = []) then Some None
  else
    match nunique cells with
    | None => None
    | Some u =>
        Some (Some (col,
          {| name := col;
             non_null_count := length col_data;
             null_count := length (filter (fun v => is_null v = true) cells);
             unique_count := u;
             is_numeric := is_numeric_dtype cells |}))
    end.

(** The [for col in df.columns] loop; [column_analysis[col] = analysis]
    appends, the columns of a DataFrame being distinct. *)
Fixpoint analyze_columns_loop (df : pd.DataFrame) (cols : list string)
    (column_analysis : list (string * analysis_t))
    : option (list (string * analysis_t)) :=
  match cols with
  | [] => Some column_analysis
  | col :: cols' =>
      match analyze_column df col with
      | None => None
      | Some None => analyze_columns_loop df cols' column_analysis
      | Some (Some entry) => analyze_columns_loop df cols' (column_analysis ++ [entry])
      end
  end.

(** [_analyze_columns]: any exception inside the [try] yields [{}]. *)
Definition _analyze_columns (json_data : json_data) : list (string * analysis_t) :=
  match json_data with
  | JArray [] => []
  | JArray rs =>
      let df := pd.mk rs in
      match analyze_columns_loop df (pd.columns df) [] with
      | Some column_analysis => column_analysis
      | None => []
      end
  | _ => []
  end.

Definition empty_metrics : metrics_t :=
  {| revenue_columns := []; date_columns := []; categorical_columns := [];
     percentage_columns := []; id_columns := [] |}.

(** [len(json_data)] where the loop of [_identify_metrics] reads it: the
    loop runs only for a non-empty [JArray]. *)
Definition len_json (json_data : json_data) : nat :=
  match json_data with JArray rs => length rs | _ => 0 end.

(** [unique_count < n * 0.5]; the product is exact in double precision, so
    the comparison is that of [2 * unique_count] with [n]. *)
Definition lt_half (unique_count n : nat) : bool :=
  (2 * unique_count <? n)%nat.

(** The body of the loop of [_identify_metrics]. *)
Definition metrics_step (n : nat) (metrics : metrics_t)
    (item : string * analysis_t) : metrics_t :=
  let '(col, analysis) := item in
  let col_lower := lower col in
  if any_in ["revenue"; "amount"; "value"; "price"; "cost"] col_lower then
    if is_numeric analysis then
      {| revenue_columns := revenue_columns metrics ++ [col];
         date_columns := date_columns metrics;
         categorical_columns := categorical_columns metrics;
         percentage_columns := percentage_columns metrics;
         id_columns := id_columns metrics |}
    else metrics
  else if any_in ["date"; "month"; "quarter"; "year"; "time"] col_lower then
    {| revenue_columns := revenue_columns metrics;
       date_columns := date_columns metrics ++ [col];
       categorical_columns := categorical_columns metrics;
       percentage_columns := percentage_columns metrics;
       id_columns := id_columns metrics |}
  else if any_in ["percent"; "%"; "rate"; "ratio"] col_lower then
    {| revenue_columns := revenue_columns metrics;
       date_columns := date_columns metrics;
       categorical_columns := categorical_columns metrics;
       percentage_columns := percentage_columns metrics ++ [col];
       id_columns := id_columns metrics |}
  else if any_in ["id"; "name"; "customer"; "client"] col_lower then
    {| revenue_columns := revenue_columns metrics;
       date_columns := date_columns metrics;
       categorical_columns := categorical_columns metrics;
       percentage_columns := percentage_columns metrics;
       id_columns := id_columns metrics ++ [col] |}
  else if negb (is_numeric analysis) && lt_half (unique_count analysis) n then
    {| revenue_columns := revenue_columns metrics;
       date_columns := date_columns metrics;
       categorical_columns := categorical_columns metrics ++ [col];
       percentage_columns := percentage_columns metrics;
       id_columns := id_columns metrics |}
  else metrics.

(** [_identify_metrics] *)
Definition _identify_metrics (json_data : json_data) : metrics_t :=
  let columns := _analyze_columns json_data in
  fold_left (metrics_step (len_json json_data)) columns empty_metrics.

End WithLibrary.

(** [_suggest_visualizations] *)
Definition _suggest_visualizations (schema : schema_t) : list string :=
  let suggestions : list string := [] in
  let metrics := metrics schema in
  let data_type := data_type schema in
  let suggestions :=
    if nonempty (revenue_columns metrics)
    then (suggestions ++ ["bar_chart"; "line_chart"; "metric_cards"])%list else suggestions in
  let suggestions :=
    if String.eqb data_type "geographic"
    then (suggestions ++ ["pie_chart"; "treemap"; "bar_chart"])%list else suggestions in
  let suggestions :=
    if nonempty (date_columns metrics)
    then (suggestions ++ ["line_chart"; "area_chart"])%list else suggestions in
  let suggestions :=
    if String.eqb data_type "customer" || nonempty (id_columns metrics)
    then (suggestions ++ ["treemap"; "pareto_chart"; "concentration_analysis"])%list
    else suggestions in
  let suggestions :=
    if String.eqb data_type "bridge"
    then (suggestions ++ ["waterfall_chart"; "sankey_diagram"])%list else suggestions in
  if nonempty suggestions then suggestions
  else ["table"; "bar_chart"; "summary_metrics"].

(** [sum(len(v) for v in metrics.values())] *)
Definition total_metrics (metrics : metrics_t) : Z :=
  (Z.of_nat (length (revenue_columns metrics))
   + Z.of_nat (length (date_columns metrics))
   + Z.of_nat (length (categorical_columns metrics))
   + Z.of_nat (length (percentage_columns metrics))
   + Z.of_nat (length (id_columns metrics)))%Z.

(** [_calculate_confidence] *)
Definition _calculate_confidence (schema : schema_t) : Z :=
  let score := 0%Z in
  let score :=
    if negb (String.eqb (data_type schema) "unknown") then (score + 30)%Z else score in
  let columns := columns schema in
  let score :=
    if nonempty columns
    then (score + Z.min 20 (Z.of_nat (length columns) * 2))%Z else score in
  let score := (score + Z.min 30 (total_metrics (metrics schema) * 5))%Z in
  let score :=
    if nonempty (suggested_visualizations schema) then (score + 20)%Z else score in
  Z.min 100 score.

Section Analyze.
Context `{Library}.

(** The schema assembled on a cache miss. *)
Definition assemble (json_data : json_data) : schema_t :=
  let schema :=
    {| data_type := _detect_data_type json_data;
       structure := _analyze_structure json_data;
       columns := _analyze_columns json_data;
       metrics := _identify_metrics json_data;
       suggested_visualizations := [];
       confidence_score := 0 |} in
  let schema :=
    {| data_type := data_type schema; structure := structure schema;
       columns := columns schema; metrics := metrics schema;
       suggested_visualizations := _suggest_visualizations schema;
       confidence_score := confidence_score schema |} in
  {| data_type := data_type schema; structure := structure schema;
     columns := columns schema; metrics := metrics schema;
     suggested_visualizations := suggested_visualizations schema;
     confidence_score := _calculate_confidence schema |}.

(** [analyze_json_schema(json_data, data_key)] against the global
    [cache_manager]; [t_get] and [t_set] are the readings of
    [datetime.now()] in [get_schema_cache] and [set_schema_cache].  The
    result is [None] or the schema, together with the cache afterwards. *)
Definition analyze_json_schema (cache_manager : CacheManager)
    (json_data : json_data) (data_key : value) (t_get t_set : Z)
    : option schema_t * CacheManager :=
  if negb (truthy json_data) then (None, cache_manager)
  else
    let cache_key := Cache.get_cache_key json_data [data_key] in
    let '(cached_schema, cache_manager) :=
      Cache.get_schema_cache cache_manager cache_key t_get in
    match cached_schema with
    | Some cached => (Some cached, cache_manager)
    | None =>
        let schema := assemble json_data in
        (Some schema, Cache.set_schema_cache cache_manager cache_key (Some schema) t_set)
    end.

End Analyze.

End JSONSchemaAnalyzer.

(** ** DynamicDashboardGenerator: the pattern router *)

Module DynamicDashboardGenerator.

(** The term lists of [_detect_data_pattern]. *)
Definition bridge_terms : list string :=
  ["expansion"; "contraction"; "churn"; "new"; "bridge"; "starting"; "ending"].
Definition customer_terms : list string := ["customer"; "client"; "company"].
Definition revenue_terms : list string := ["revenue"; "amount"; "value"].
Definition geo_terms : list string := ["country"; "region"; "geographic"; "location"].
Definition quarterly_terms : list string := ["q3"; "q4"; "quarter"; "qoq"].
Definition monthly_terms : list string :=
  ["month"; "monthly"; "jan"; "feb"; "mar"; "apr"; "may"; "jun";
   "jul"; "aug"; "sep"; "oct"; "nov"; "dec"].
Definition time_terms : list string := ["date"; "time"; "period"].

(** [_detect_data_pattern(df, analysis_type)] *)
Definition _detect_data_pattern (df : pd.DataFrame) (analysis_type : string) : string :=
  let columns := map lower (pd.columns df) in
  if any_in bridge_terms (join " " columns) then "revenue_bridge"
  else if any_in customer_terms (join " " columns)
          && any_in revenue_terms (join " " columns)
  then "customer_analysis"
  else if any_in geo_terms (join " " columns) then "geographic"
  else if any_in quarterly_terms (join " " columns) then "quarterly"
  else if any_in monthly_terms (join " " columns) then "monthly_trends"
  else if str_in "month_label" (join " " columns)
          && any_in ["revenue"; "amount"; "value"] (join " " columns)
  then "monthly_trends"
  else if str_in "variance" (join " " columns)
          && any_in ["revenue"; "amount"] (join " " columns)
  then "monthly_trends"
  else if any_in time_terms (join " " columns)
          && any_in ["revenue"; "amount"; "value"] (join " " columns)
  then
    if (pd.len df <=? 24)%nat then "monthly_trends" else "default"
  else "default".

End DynamicDashboardGenerator.

Import JSONSchemaAnalyzer DynamicDashboardGenerator.


(** ** A reference implementation of the library parameters

    [Reference.lib] implements [Library] for decoded JSON: MD5 as in
    RFC 1321, [str]/[repr] of CPython 3 (shortest round-trip [repr] of
    doubles), and the dtype inference of pandas on the cells of one
    column.  It serves to evaluate the analyzer on concrete datasets; the
    general theorems do not depend on it. *)

Module MD5.
Local Open Scope Z_scope.

Definition w32 (x : Z) : Z := Z.land x 0xffffffff.

Definition leftrotate (x c : Z) : Z :=
  w32 (Z.lor (Z.shiftl x c) (Z.shiftr x (32 - c))).

Definition s : list Z :=
  [7; 12; 17; 22; 7; 12; 17; 22; 7; 12; 17; 22; 7; 12; 17; 22;
   5; 9; 14; 20; 5; 9; 14; 20; 5; 9; 14; 20; 5; 9; 14; 20;
   4; 11; 16; 23; 4; 11; 16; 23; 4; 11; 16; 23; 4; 11; 16; 23;
   6; 10; 15; 21; 6; 10; 15; 21; 6; 10; 15; 21; 6; 10; 15; 21].

Definition K : list Z :=
  [0xd76aa478; 0xe8c7b756; 0x242070db; 0xc1bdceee; 0xf57c0faf; 0x4787c62a;
   0xa8304613; 0xfd469501; 0x698098d8; 0x8b44f7af; 0xffff5bb1; 0x895cd7be;
   0x6b901122; 0xfd987193; 0xa679438e; 0x49b40821; 0xf61e2562; 0xc040b340;
   0x265e5a51; 0xe9b6c7aa; 0xd62f105d; 0x02441453; 0xd8a1e681; 0xe7d3fbc8;
   0x21e1cde6; 0xc33707d6; 0xf4d50d87; 0x455a14ed; 0xa9e3e905; 0xfcefa3f8;
   0x676f02d9; 0x8d2a4c8a; 0xfffa3942; 0x8771f681; 0x6d9d6122; 0xfde5380c;
   0xa4beea44; 0x4bdecfa9; 0xf6bb4b60; 0xbebfbc70; 0x289b7ec6; 0xeaa127fa;
   0xd4ef3085; 0x04881d05; 0xd9d4d039; 0xe6db99e5; 0x1fa27cf8; 0xc4ac5665;
   0xf4292244; 0x432aff97; 0xab9423a7; 0xfc93a039; 0x655b59c3; 0x8f0ccc92;
   0xffeff47d; 0x85845dd1; 0x6fa87e4f; 0xfe2ce6e0; 0xa3014314; 0x4e0811a1;
   0xf7537e82; 0xbd3af235; 0x2ad7d2bb; 0xeb86d391].

Fixpoint bytes_of_string (m : string) : list Z :=
  match m with
  | EmptyString => []
  | String c m' => Z.of_nat (nat_of_ascii c) :: bytes_of_string m'
  end.

(** [n] bytes of [x], least significant first. *)
Fixpoint le_bytes (n : nat) (x : Z) : list Z :=
  match n with
  | O => []
  | S n' => Z.land x 0xff :: le_bytes n' (Z.shiftr x 8)
  end.

Definition pad (msg : list Z) : list Z :=
  let len := Z.of_nat (length msg) in
  (msg ++ [0x80] ++ repeat 0 (Z.to_nat ((55 - len) mod 64)) ++ le_bytes 8 (len * 8))%list.

(** The little-endian 32-bit words of a byte list. *)
Fixpoint words (fuel : nat) (bs : list Z) : list Z :=
  match fuel, bs with
  | S fuel', b0 :: b1 :: b2 :: b3 :: bs' =>
      (b0 + Z.shiftl b1 8 + Z.shiftl b2 16 + Z.shiftl b3 24) :: words fuel' bs'
  | _, _ => []
  end.

Definition step (M : list Z) (st : Z * Z * Z * Z) (i : nat) : Z * Z * Z * Z :=
  let '(A, B, C, D) := st in
  let iz := Z.of_nat i in
  let '(F, g) :=
    if iz <? 16 then (Z.lor (Z.land B C) (Z.land (Z.lxor B 0xffffffff) D), iz)
    else if iz <? 32 then
      (Z.lor (Z.land D B) (Z.land (Z.lxor D 0xffffffff) C), (5 * iz + 1) mod 16)
    else if iz <? 48 then (Z.lxor B (Z.lxor C D), (3 * iz + 5) mod 16)
    else (Z.lxor C (Z.lor B (Z.lxor D 0xffffffff)), (7 * iz) mod 16) in
  let F := w32 (F + A + nth i K 0 + nth (Z.to_nat g) M 0) in
  (D, w32 (B + leftrotate F (nth i s 0)), B, C).

Definition chunk (st : Z * Z * Z * Z) (M : list Z) : Z * Z * Z * Z :=
  let '(a0, b0, c0, d0) := st in
  let '(A, B, C, D) := fold_left (step M) (seq 0 64) st in
  (w32 (a0 + A), w32 (b0 + B), w32 (c0 + C), w32 (d0 + D)).

Fixpoint chunks (fuel : nat) (ws : list Z) (st : Z * Z * Z * Z) : Z * Z * Z * Z :=
  match fuel, ws with
  | S fuel', _ :: _ => chunks fuel' (skipn 16 ws) (chunk st (firstn 16 ws))
  | _, _ => st
  end.

Definition hex_digit (x : Z) : ascii :=
  nth (Z.to_nat x)
    ["0"; "1"; "2"; "3"; "4"; "5"; "6"; "7"; "8"; "9"; "a"; "b"; "c"; "d"; "e"; "f"]%char
    "0"%char.

Fixpoint hex_bytes (bs : list Z) : string :=
  match bs with
  | [] => EmptyString
  | b :: bs' =>
      String (hex_digit (Z.shiftr b 4)) (String (hex_digit (Z.land b 15)) (hex_bytes bs'))
  end.

Definition hexdigest (m : string) : string :=
  let bs := pad (bytes_of_string m) in
  let ws := words (length bs) bs in
  let '(a0, b0, c0, d0) :=
    chunks (length ws) ws (0x67452301, 0xefcdab89, 0x98badcfe, 0x10325476) in
  hex_bytes (le_bytes 4 a0 ++ le_bytes 4 b0 ++ le_bytes 4 c0 ++ le_bytes 4 d0)%list.

End MD5.

Module PyRepr.
Local Open Scope Z_scope.

Definition str_Z (z : Z) : string := NilEmpty.string_of_int (Z.to_int z).

(** Comparisons of [c * 10^p] with the positive rational [n / d]. *)
Definition dec_le (c p n d : Z) : bool :=
  if 0 <=? p then c * 10 ^ p * d <=? n else c * d <=? n * 10 ^ (- p).

Definition dec_lt (c p n d : Z) : bool :=
  if 0 <=? p then c * 10 ^ p * d <? n else c * d <? n * 10 ^ (- p).

(** [floor ((n / d) / 10^p)] *)
Definition dec_floor (p n d : Z) : Z :=
  if 0 <=? p then n / (d * 10 ^ p) else (n * 10 ^ (- p)) / d.

(** The least [k >= k0] with [n / d < 10^k]. *)
Fixpoint dec_exponent (fuel : nat) (k n d : Z) : Z :=
  match fuel with
  | O => k
  | S fuel' => if negb (dec_le 1 k n d) then k else dec_exponent fuel' (k + 1) n d
  end.

(** The shortest decimal [c * 10^p] inside the rounding interval
    [ln / d .. hn / d] of the double [vn / d], nearest to it among the
    decimals of that length: digit counts [ndig], [ndig + 1], ... are
    tried in turn. *)
Fixpoint shortest (fuel : nat) (ndig k vn ln hn d : Z) (closed : bool) : Z * Z :=
  let p := k - ndig in
  let lo := dec_floor p vn d in
  let hi := lo + 1 in
  let inside c :=
    (if closed then negb (dec_lt c p ln d) else negb (dec_le c p ln d))
    && (if closed then dec_le c p hn d else dec_lt c p hn d) in
  let lo_ok := inside lo && (0 <? lo) in
  let hi_ok := inside hi in
  let lo_nearer := negb (dec_lt (lo + hi) p (2 * vn) d) in
  match fuel with
  | O => (lo, p)
  | S fuel' =>
      if lo_ok && hi_ok then (if lo_nearer then (lo, p) else (hi, p))
      else if lo_ok then (lo, p)
      else if hi_ok then (hi, p)
      else shortest fuel' (ndig + 1) k vn ln hn d closed
  end.

Fixpoint strip_zeros (fuel : nat) (c p : Z) : Z * Z :=
  match fuel with
  | O => (c, p)
  | S fuel' =>
      if (c mod 10 =? 0) && negb (c =? 0) then strip_zeros fuel' (c / 10) (p + 1)
      else (c, p)
  end.

Fixpoint zeros (n : nat) : string :=
  match n with O => "" | S n' => String "0" (zeros n') end.

(** Format code ['r'] of [PyOS_double_to_string]: exponent notation for
    values below [1e-4] or from [1e16] on. *)
Definition format_r (digits : string) (decpt : Z) : string :=
  let nd := Z.of_nat (String.length digits) in
  if (decpt <=? -4) || (16 <? decpt) then
    let e := decpt - 1 in
    let mant :=
      match digits with
      | String c rest => if String.eqb rest "" then String c "" else String c ("." +:+ rest)
      | EmptyString => ""
      end in
    let ea := str_Z (Z.abs e) in
    mant +:+ "e" +:+ (if e <? 0 then "-" else "+")
         +:+ (if Z.abs e <? 10 then "0" +:+ ea else ea)
  else if decpt <=? 0 then "0." +:+ zeros (Z.to_nat (- decpt)) +:+ digits
  else if nd <=? decpt then digits +:+ zeros (Z.to_nat (decpt - nd)) +:+ ".0"
  else String.substring 0 (Z.to_nat decpt) digits +:+ "."
       +:+ String.substring (Z.to_nat decpt) (Z.to_nat (nd - decpt)) digits.

(** [repr] of the positive double [m * 2^e]. *)
Definition repr_finite (m : positive) (e : Z) : string :=
  let mz := Z.pos m in
  let boundary := (mz =? 2 ^ 52) && (-1074 <? e) in
  let E := e - 2 in
  let sc := if 0 <=? E then 2 ^ E else 1 in
  let d := if 0 <=? E then 1 else 2 ^ (- E) in
  let vn := 4 * mz * sc in
  let hn := (4 * mz + 2) * sc in
  let ln := (if boundary then 4 * mz - 1 else 4 * mz - 2) * sc in
  let k0 := ((Z.log2 vn - Z.log2 d) * 30103) / 100000 - 1 in
  let k := dec_exponent 8 k0 vn d in
  let '(c, p) := shortest 17 1 k vn ln hn d (Z.even mz) in
  let '(c, p) := strip_zeros 20 c p in
  let digits := str_Z c in
  format_r digits (p + Z.of_nat (String.length digits)).

Definition repr_float (f : float) : string :=
  match Prim2SF f with
  | S754_zero sg => if sg then "-0.0" else "0.0"
  | S754_infinity sg => if sg then "-inf" else "inf"
  | S754_nan => "nan"
  | S754_finite sg m e => (if sg then "-" else "") +:+ repr_finite m e
  end.

(** [repr] of a [str]: single quotes unless the text has a single quote
    and no double quote; backslash, the quote and control characters are
    escaped.  Bytes from 128 on stand for printable UTF-8 text. *)
Definition hex2 (n : nat) : string :=
  String (MD5.hex_digit (Z.of_nat n / 16)) (String (MD5.hex_digit (Z.of_nat n mod 16)) "").

Definition repr_char (quote c : ascii) : string :=
  let n := nat_of_ascii c in
  if Ascii.eqb c quote || Ascii.eqb c "\"%char then String "\"%char (String c "")
  else if (n =? 9)%nat then "\t"
  else if (n =? 10)%nat then "\n"
  else if (n =? 13)%nat then "\r"
  else if (n <? 32)%nat || (n =? 127)%nat then "\x" +:+ hex2 n
  else String c "".

Fixpoint repr_chars (quote : ascii) (t : string) : string :=
  match t with
  | EmptyString => EmptyString
  | String c t' => repr_char quote c +:+ repr_chars quote t'
  end.

Definition double_quote : ascii := ascii_of_nat 34.

Definition repr_str (t : string) : string :=
  let quote :=
    if existsb (Ascii.eqb "'"%char) (chars t)
       && negb (existsb (Ascii.eqb double_quote) (chars t))
    then double_quote else "'"%char in
  String quote (repr_chars quote t +:+ String quote "").

Fixpoint repr (v : value) : string :=
  match v with
  | VNone => "None"
  | VBool b => if b then "True" else "False"
  | VInt z => str_Z z
  | VFloat f => repr_float f
  | VStr t => repr_str t
  | VList l => "[" +:+ join ", " (map repr l) +:+ "]"
  | VDict d =>
      "{" +:+ join ", " (map (fun kv => repr_str (fst kv) +:+ ": " +:+ repr (snd kv)) d)
      +:+ "}"
  end.

(** [str(v)] *)
Definition str (v : value) : string :=
  match v with
  | VStr t => t
  | _ => repr v
  end.

(** [str(args)] for a tuple *)
Definition str_tuple (args : list value) : string :=
  match args with
  | [a] => "(" +:+ repr a +:+ ",)"
  | _ => "(" +:+ join ", " (map repr args) +:+ ")"
  end.

End PyRepr.

Module Pandas.
Local Open Scope Z_scope.

Inductive dtype : Type := Bool | Int64 | UInt64 | Float64 | Object.

Definition is_nested (v : value) : bool :=
  match v with VList _ | VDict _ => true | _ => false end.

(** A cell that forces the object dtype: text, a container, or an
    integer outside the 64-bit ranges. *)
Definition is_object_cell (v : value) : bool :=
  match v with
  | VStr _ | VList _ | VDict _ => true
  | VInt z => (z <? - 2 ^ 63) || (2 ^ 64 <=? z)
  | _ => false
  end.

(** The dtype pandas infers for a column of decoded JSON cells, where
    [None] and missing cells become NaN in a numeric column. *)
Definition infer_dtype (cells : list value) : dtype :=
  let seen_bool := existsb (fun v => match v with VBool _ => true | _ => false end) cells in
  let all_bool := forallb (fun v => match v with VBool _ => true | _ => false end) cells in
  let seen_none := existsb (fun v => match v with VNone => true | _ => false end) cells in
  let seen_float := existsb (fun v => match v with VFloat _ => true | _ => false end) cells in
  let seen_uint := existsb (fun v => match v with VInt z => 2 ^ 63 <=? z | _ => false end) cells in
  let seen_sint := existsb (fun v => match v with VInt z => z <? 0 | _ => false end) cells in
  if existsb is_object_cell cells then Object
  else if seen_bool then (if all_bool then Bool else Object)
  else if seen_uint && (seen_none || seen_sint) then Object
  else if seen_none || seen_float then Float64
  else if seen_uint then UInt64
  else Int64.

Definition is_numeric_dtype (cells : list value) : bool :=
  match infer_dtype cells with Object => false | _ => true end.

(** Conversion of an integer to the nearest double. *)
Definition float_of_Z (z : Z) : float :=
  SF2Prim (binary_normalize prec emax z 0 false).

(** Exact comparison of an integer with a double, as Python does it. *)
Definition Z_eq_float (z : Z) (f : float) : bool :=
  match Prim2SF f with
  | S754_zero _ => z =? 0
  | S754_finite sg m e =>
      let sm := if sg then Z.neg m else Z.pos m in
      if 0 <=? e then z =? sm * 2 ^ e
      else (Z.pos m mod 2 ^ (- e) =? 0) && (z =? sm / 2 ^ (- e))
  | _ => false
  end.

(** Python's [==] on the hashable scalars of a column. *)
Definition py_eq (a b : value) : bool :=
  let num v :=
    match v with
    | VBool b => Some (inl (if b then 1 else 0))
    | VInt z => Some (inl z)
    | VFloat f => Some (inr f)
    | _ => None
    end in
  match num a, num b with
  | Some (inl x), Some (inl y) => x =? y
  | Some (inl x), Some (inr g) => Z_eq_float x g
  | Some (inr f), Some (inl y) => Z_eq_float y f
  | Some (inr f), Some (inr g) => PrimFloat.eqb f g
  | _, _ =>
      match a, b with
      | VStr s, VStr t => String.eqb s t
      | VNone, VNone => true
      | _, _ => false
      end
  end.

(** The cell as stored in a column of dtype [dt]. *)
Definition as_dtype (dt : dtype) (v : value) : value :=
  match dt, v with
  | Float64, VInt z => VFloat (float_of_Z z)
  | _, _ => v
  end.

Fixpoint count_distinct (seen vs : list value) : nat :=
  match vs with
  | [] => length seen
  | v :: vs' =>
      count_distinct (if existsb (py_eq v) seen then seen else v :: seen) vs'
  end.

(** [df[col].dropna().nunique()]; hashing a list or a dict raises. *)
Definition nunique (cells : list value) : option nat :=
  let col_data := pd.dropna cells in
  if existsb is_nested col_data then None
  else Some (count_distinct [] (map (as_dtype (infer_dtype cells)) col_data)).

End Pandas.

Module Reference.

#[export] Instance lib : Library := {|
  md5_hexdigest := MD5.hexdigest;
  py_str := PyRepr.str;
  py_str_tuple := PyRepr.str_tuple;
  is_numeric_dtype := Pandas.is_numeric_dtype;
  nunique := Pandas.nunique;
|}.

End Reference.

(** ** The specification's wording, for comparison with the code *)

Module Spec.

(** Some column name contains one of the keywords, ignoring case. *)
Definition mentions (terms cols : list string) : bool :=
  existsb (fun c => any_in terms (lower c)) cols.

(** detectDataType: the union of the column names of the (at most) five
    leading records, tested for the category keywords in priority order;
    [unknown] for an empty or non-array input. *)
Definition detectDataType (d : json_data) : string :=
  match d with
  | JArray (r :: rs) =>
      let names := pd.union_keys (take 5 (r :: rs)) in
      if mentions ["quarter"; "q3"; "q4"; "qoq"] names then "quarterly"
      else if mentions ["churn"; "expansion"; "bridge"] names then "bridge"
      else if mentions ["country"; "region"; "geographic"] names then "geographic"
      else if mentions ["customer"; "client"; "concentration"] names then "customer"
      else if mentions ["month"; "monthly"; "mom"] names then "monthly"
      else "general"
  | _ => "unknown"
  end.

(** The five metric groups. *)
Inductive group : Type := Revenue | Date | Percentage | Id | Categorical.

Definition members (g : group) (m : metrics_t) : list string :=
  match g with
  | Revenue => revenue_columns m
  | Date => date_columns m
  | Percentage => percentage_columns m
  | Id => id_columns m
  | Categorical => categorical_columns m
  end.

(** Case-insensitive substring match of a column name against the
    tokens of a group. *)
Definition has_token (g : group) (col : string) : bool :=
  match g with
  | Revenue => any_in ["revenue"; "amount"; "value"; "price"; "cost"] (lower col)
  | Date => any_in ["date"; "month"; "quarter"; "year"; "time"] (lower col)
  | Percentage => any_in ["percent"; "%"; "rate"; "ratio"] (lower col)
  | Id => any_in ["id"; "name"; "customer"; "client"] (lower col)
  | Categorical => false
  end.

(** The group a profiled column is appended to by the loop of
    [_identify_metrics], if any; [placed_in] lists the columns that go to
    one group, and [add_to] appends a column to it. *)
Definition placed (n : nat) (col : string) (a : analysis_t) : option group :=
  if has_token Revenue col then (if is_numeric a then Some Revenue else None)
  else if has_token Date col then Some Date
  else if has_token Percentage col then Some Percentage
  else if has_token Id col then Some Id
  else if negb (is_numeric a) && JSONSchemaAnalyzer.lt_half (unique_count a) n then Some Categorical
  else None.

Definition group_eqb (g h : group) : bool :=
  match g, h with
  | Revenue, Revenue | Date, Date | Percentage, Percentage | Id, Id
  | Categorical, Categorical => true
  | _, _ => false
  end.

(** The columns of [cols] placed in group [g], in order. *)
Fixpoint placed_in (n : nat) (g : group) (cols : list (string * analysis_t)) : list string :=
  match cols with
  | [] => []
  | (col, a) :: cols' =>
      match placed n col a with
      | Some h => if group_eqb g h then col :: placed_in n g cols' else placed_in n g cols'
      | None => placed_in n g cols'
      end
  end.

Definition add_to (g : option group) (col : string) (m : metrics_t) : metrics_t :=
  match g with
  | Some Revenue =>
      {| revenue_columns := revenue_columns m ++ [col];
         date_columns := date_columns m;
         categorical_columns := categorical_columns m;
         percentage_columns := percentage_columns m;
         id_columns := id_columns m |}
  | Some Date =>
      {| revenue_columns := revenue_columns m;
         date_columns := date_columns m ++ [col];
         categorical_columns := categorical_columns m;
         percentage_columns := percentage_columns m;
         id_columns := id_columns m |}
  | Some Percentage =>
      {| revenue_columns := revenue_columns m;
         date_columns := date_columns m;
         categorical_columns := categorical_columns m;
         percentage_columns := percentage_columns m ++ [col];
         id_columns := id_columns m |}
  | Some Id =>
      {| revenue_columns := revenue_columns m;
         date_columns := date_columns m;
         categorical_columns := categorical_columns m;
         percentage_columns := percentage_columns m;
         id_columns := id_columns m ++ [col] |}
  | Some Categorical =>
      {| revenue_columns := revenue_columns m;
         date_columns := date_columns m;
         categorical_columns := categorical_columns m ++ [col];
         percentage_columns := percentage_columns m;
         id_columns := id_columns m |}
  | None => m
  end.

(** No name of [l1] occurs in [l2]. *)
Definition disjoint (l1 l2 : list string) : Prop :=
  forall c, c ∈ l1 -> c ∉ l2.

(** [unique_count < 0.5 * n] over the rationals. *)
Definition below_half (unique_count n : nat) : Prop :=
  (inject_Z (Z.of_nat unique_count) < (1 # 2) * inject_Z (Z.of_nat n))%Q.

(** deriveKey on a non-empty array: a function of the length, the first
    element and the context arguments only, made of two digest prefixes
    joined by an underscore. *)
Definition deriveKey_array `{Library} (n : nat) (first : record) (args : list value) : string :=
  String.substring 0 8 (md5_hexdigest (str_nat n +:+ py_str (VDict first)))
  +:+ "_" +:+ String.substring 0 8 (md5_hexdigest (py_str_tuple args)).

(** The same key from the text of the first element: what the key can
    tell of the first element is how it prints. *)
Definition deriveKey_text `{Library} (n : nat) (first_text : string) (args : list value)
    : string :=
  String.substring 0 8 (md5_hexdigest (str_nat n +:+ first_text))
  +:+ "_" +:+ String.substring 0 8 (md5_hexdigest (py_str_tuple args)).

(** Python's [==] on decoded JSON: numbers by value, lists element by
    element, dicts as mappings, whatever the order of their keys. *)
Fixpoint py_equal (a b : value) {struct a} : bool :=
  match a, b with
  | VList l, VList m =>
      (fix go (l m : list value) {struct l} : bool :=
         match l, m with
         | [], [] => true
         | x :: l', y :: m' => py_equal x y && go l' m'
         | _, _ => false
         end) l m
  | VDict d, VDict e =>
      (length d =? length e)%nat
      && (fix all (d : list (string * value)) {struct d} : bool :=
            match d with
            | [] => true
            | (k, v) :: d' =>
                match List.find (fun p => String.eqb k (fst p)) e with
                | Some (_, w) => py_equal v w
                | None => false
                end && all d'
            end) d
  | _, _ => Pandas.py_eq a b
  end.

Definition is_hex (c : ascii) : bool :=
  existsb (Ascii.eqb c)
    ["0"; "1"; "2"; "3"; "4"; "5"; "6"; "7"; "8"; "9"; "a"; "b"; "c"; "d"; "e"; "f"]%char.

(** A fragment of [n] hexadecimal digits. *)
Definition hex_fragment (n : nat) (t : string) : Prop :=
  String.length t = n /\ forallb is_hex (chars t) = true.

(** What [hashlib] guarantees of a digest: 32 hexadecimal digits. *)
Definition md5_contract `{Library} : Prop :=
  forall m, hex_fragment 32 (md5_hexdigest m).


End Spec.

(** ** Datasets used in the examples *)

Module Examples.

Definition bridge_df : pd.DataFrame :=
  pd.mk [[("customer_name", VStr "Acme"); ("revenue", VInt 1200); ("churn_amount", VInt 0)];
         [("customer_name", VStr "Beta"); ("revenue", VInt 800); ("churn_amount", VInt 150)]].

Definition bridge_df2 : pd.DataFrame :=
  pd.mk [[("customer_name", VStr "Gamma"); ("revenue", VInt 5); ("churn_amount", VNone)];
         [("customer_name", VStr "Delta"); ("revenue", VInt 7); ("churn_amount", VInt 3)]].

Definition month_row (label : string) (revenue : Z) : record :=
  [("Month_Label", VStr label); ("Revenue", VInt revenue)].

Definition monthly_df : pd.DataFrame :=
  pd.mk [month_row "Jan-24" 100; month_row "Feb-24" 110; month_row "Mar-24" 120;
         month_row "Apr-24" 115; month_row "May-24" 130; month_row "Jun-24" 140;
         month_row "Jul-24" 135; month_row "Aug-24" 150; month_row "Sep-24" 160;
         month_row "Oct-24" 155; month_row "Nov-24" 170; month_row "Dec-24" 180].

(** Revenue exported as formatted text. *)
Definition text_revenue : json_data :=
  JArray [[("Customer", VStr "Acme"); ("Revenue", VStr "1,200")];
          [("Customer", VStr "Beta"); ("Revenue", VStr "800")]].

Definition sales : json_data :=
  JArray [[("Customer Name", VStr "Acme"); ("Quarter 3 Revenue", VInt 100);
           ("Quarter 4 Revenue", VInt 150); ("Segment", VStr "SMB")];
          [("Customer Name", VStr "Beta"); ("Quarter 3 Revenue", VInt 200);
           ("Quarter 4 Revenue", VInt 180); ("Segment", VStr "SMB")];
          [("Customer Name", VStr "Gamma"); ("Quarter 3 Revenue", VInt 50);
           ("Quarter 4 Revenue", VInt 75); ("Segment", VStr "SMB")]].

Definition segment_analysis : analysis_t :=
  {| name := "Segment"; non_null_count := 3; null_count := 0; unique_count := 1;
     is_numeric := false |}.

(** A record with a nested list, which pandas cannot hash. *)
Definition tagged : json_data :=
  JArray [[("name", VStr "A"); ("tags", VList [VStr "x"; VStr "y"])];
          [("name", VStr "B"); ("tags", VList [])]].

Definition acme : record := [("customer", VStr "Acme"); ("revenue", VInt 1200)].
Definition beta : record := [("customer", VStr "Beta"); ("revenue", VInt 800)].
Definition gamma : record := [("customer", VStr "Gamma"); ("revenue", VInt 15)].

End Examples.

(** ** More of Python's [str]

    [endswith], [split] and [replace] as the S3 helpers use them.  The
    separators passed to [split] and [strip] in the application are
    one-character strings, so they are typed as characters here. *)

Module PyStrOps.

(** [s.endswith(t)]: some suffix of [s] is [t]. *)
Fixpoint endswith (s t : string) : bool :=
  String.eqb s t ||
  match s with
  | EmptyString => false
  | String _ s' => endswith s' t
  end.

(** [s.split(sep)] for a one-character [sep]; never the empty list. *)
Fixpoint split (sep : ascii) (s : string) : list string :=
  match s with
  | EmptyString => [EmptyString]
  | String c s' =>
      if Ascii.eqb c sep then EmptyString :: split sep s'
      else match split sep s' with
           | [] => [String c EmptyString]
           | w :: ws => String c w :: ws
           end
  end.

(** [l[-1]] of a list of strings that is not empty. *)
Definition last_part (l : list string) : string := List.last l EmptyString.

(** [l[:-1]] *)
Definition but_last (l : list string) : list string := removelast l.

(** [s.replace(old, new)] for a non-empty [old]: the occurrences are
    replaced from the left and do not overlap; [skip] counts the
    characters of the occurrence just replaced that are still to pass. *)
Fixpoint replace_from (old new : string) (skip : nat) (s : string) : string :=
  match s with
  | EmptyString => EmptyString
  | String c s' =>
      match skip with
      | S k => replace_from old new k s'
      | O =>
          if startswith s old
          then new +:+ replace_from old new (String.length old - 1) s'
          else String c (replace_from old new 0 s')
      end
  end.

Definition replace (old new s : string) : string := replace_from old new 0 s.

(** [s.lstrip(c)], [s.rstrip(c)] and [s.strip(c)] for one character. *)
Fixpoint lstrip (c : ascii) (s : string) : string :=
  match s with
  | EmptyString => EmptyString
  | String d s' => if Ascii.eqb d c then lstrip c s' else s
  end.

Fixpoint rstrip (c : ascii) (s : string) : string :=
  match s with
  | EmptyString => EmptyString
  | String d s' =>
      match rstrip c s' with
      | EmptyString => if Ascii.eqb d c then EmptyString else String d EmptyString
      | r => String d r
      end
  end.

Definition strip (c : ascii) (s : string) : string := rstrip c (lstrip c s).

End PyStrOps.
Import PyStrOps.

(** ** Python dicts in insertion order

    [d[k] = v] replaces the value of an existing key in place and
    appends a new key at the end. *)

Module PyDict.

Fixpoint set {V} (d : list (string * V)) (k : string) (v : V) : list (string * V) :=
  match d with
  | [] => [(k, v)]
  | (k', v') :: d' => if String.eqb k k' then (k, v) :: d' else (k', v') :: set d' k v
  end.

Fixpoint get {V} (d : list (string * V)) (k : string) : option V :=
  match d with
  | [] => None
  | (k', v') :: d' => if String.eqb k k' then Some v' else get d' k
  end.

Definition keys {V} (d : list (string * V)) : list string := map fst d.

End PyDict.

(** ** S3DataDiscovery *)

Module S3DataDiscovery.

(** An entry of a [list_objects_v2] page. *)
Record s3_object : Type := {
  Key : string;
  Size : Z;
  LastModified : Z;
  ETag : string;
}.

(** The [file_info] dict that [discover_json_files] builds. *)
Record file_info : Type := {
  key : string;
  size : Z;
  last_modified : Z;
  etag : string;
  file_name : string;
  folder_path : string;
}.

(** [{**file_info, 'original_key': key}] *)
Record categorized_file : Type := {
  info : file_info;
  original_key : string;
}.

(** [S3DataDiscovery]'s own state: [_file_cache] and [_last_scan]. *)
Record t : Type := {
  _file_cache : list (string * file_info);
  _last_scan : option Z;
}.

Definition slash : ascii := "/"%char.

(** The test on a listed key. *)
Definition is_json_key (key : string) : bool :=
  endswith (lower key) ".json" && negb (endswith key "/").

Definition mk_file_info (obj : s3_object) : file_info :=
  let key := Key obj in
  {| key := key;
     size := Size obj;
     last_modified := LastModified obj;
     etag := strip (ascii_of_nat 34) (ETag obj);
     file_name := last_part (split slash key);
     folder_path :=
       if str_in "/" key then join "/" (but_last (split slash key)) else EmptyString |}.

(** The inner loop over [page['Contents']]. *)
Definition scan_contents (discovered_files : list (string * file_info))
    (contents : list s3_object) : list (string * file_info) :=
  fold_left
    (fun files obj =>
       if is_json_key (Key obj) then PyDict.set files (Key obj) (mk_file_info obj)
       else files)
    contents discovered_files.

(** The loop over the pages; a page without ['Contents'] is [None]. *)
Definition scan_pages (pages : list (option (list s3_object))) : list (string * file_info) :=
  fold_left
    (fun files page =>
       match page with
       | None => files
       | Some contents => scan_contents files contents
       end)
    pages [].

(** [(now - last).total_seconds() / 60 < minutes] *)
Definition minutes_lt (now last minutes : Z) : bool :=
  (now - last <? minutes * 60 * 1000000)%Z.

(** [discover_json_files(force_refresh)].  [s3_client] tells whether a
    client exists, [refresh_interval] is the configured number of
    minutes, [listing] is what the paginator delivers ([None] when the
    listing raises), [t_check] and [t_scan] are the two readings of
    [datetime.now()]. *)
Definition discover_json_files (self : t) (s3_client : bool)
    (refresh_interval : Z) (force_refresh : bool)
    (listing : option (list (option (list s3_object)))) (t_check t_scan : Z)
    : list (string * file_info) * t :=
  if negb s3_client then ([], self)
  else
    let cached :=
      match _last_scan self with
      | Some last =>
          negb force_refresh && nonempty (_file_cache self)
          && minutes_lt t_check last refresh_interval
      | None => false
      end in
    if cached then (_file_cache self, self)
    else
      match listing with
      | Some pages =>
          let discovered_files := scan_pages pages in
          (discovered_files,
           {| _file_cache := discovered_files; _last_scan := Some t_scan |})
      | None => ([], self)
      end.

(** [load_json_from_s3(file_key)] against the global [cache_manager].
    [s3_fs] tells whether a filesystem exists; [read] is the outcome of
    opening and decoding the file ([None] when that raises); the result
    [JNone] is Python's [None]. *)
Definition load_json_from_s3 `{Library} (s3_fs : bool) (cache_manager : CacheManager)
    (file_key : string) (read : option json_data) (t_get t_set : Z)
    : json_data * CacheManager :=
  if negb s3_fs then (JNone, cache_manager)
  else
    let cache_key := Cache.get_cache_key (JStr file_key) [VStr "s3_data"] in
    let '(cached_data, cache_manager) :=
      Cache.get_analysis_cache cache_manager cache_key t_get in
    if truthy (default JNone cached_data) then (default JNone cached_data, cache_manager)
    else
      match read with
      | Some data => (data, Cache.set_analysis_cache cache_manager cache_key (Some data) t_set)
      | None => (JNone, cache_manager)
      end.

(** The category chosen for one file. *)
Definition category_of (file_info : file_info) : string :=
  let file_name := lower (file_name file_info) in
  let folder_path := lower (folder_path file_info) in
  if any_in ["quarterly"; "qoq"; "quarter"] file_name then "quarterly"
  else if any_in ["bridge"; "churn"; "retention"] file_name then "bridge"
  else if any_in ["country"; "geographic"; "region"] file_name then "geographic"
  else if any_in ["customer"; "concentration"; "client"] file_name then "customer"
  else if any_in ["monthly"; "month"; "mom"] file_name then "monthly"
  else if negb (String.eqb folder_path EmptyString) then
    let folder := last_part (split slash folder_path) in
    if String.eqb folder EmptyString then "general" else folder
  else "general".

(** [categories[category].append(...)], creating the list first when the
    category is new. *)
Definition append_to (categories : list (string * list categorized_file))
    (category : string) (f : categorized_file) : list (string * list categorized_file) :=
  match PyDict.get categories category with
  | Some files => PyDict.set categories category (files ++ [f])
  | None => PyDict.set categories category [f]
  end.

(** [get_file_categories(discovered_files)] *)
Definition get_file_categories (discovered_files : list (string * file_info))
    : list (string * list categorized_file) :=
  fold_left
    (fun categories '(key, file_info) =>
       append_to categories (category_of file_info)
         {| info := file_info; original_key := key |})
    discovered_files [].

End S3DataDiscovery.

(** ** S3JSONReader *)

Module S3JSONReader.
Import S3DataDiscovery.

(** [S3JSONReader]'s own state: [_data_cache], from cache key to the
    company's data by data type, and the single [_last_cache_time]. *)
Record t : Type := {
  _data_cache : list (string * list (string * json_data));
  _last_cache_time : option Z;
}.

Definition underscore : ascii := "_"%char.

(** The test of [_filter_company_files] on one file: the company name
    occurs in the folder path or in the file name, or a part of the name
    occurs in the folder path, or the folder path mentions neither
    company nor client. *)
Definition belongs (company_name_lower : string) (file_info : file_info) : bool :=
  let folder_path := lower (folder_path file_info) in
  let file_name := lower (file_name file_info) in
  str_in company_name_lower folder_path
  || str_in company_name_lower file_name
  || existsb (fun part => str_in part folder_path) (split underscore company_name_lower)
  || (negb (str_in "company" folder_path) && negb (str_in "client" folder_path)).

(** [_filter_company_files(discovered_files, company_name)] *)
Definition _filter_company_files (discovered_files : list (string * file_info))
    (company_name : string) : list (string * file_info) :=
  let company_name_lower := replace "-" "_" (replace " " "_" (lower company_name)) in
  fold_left
    (fun company_files '(file_key, file_info) =>
       if belongs company_name_lower file_info
       then PyDict.set company_files file_key file_info
       else company_files)
    discovered_files [].

(** [_determine_data_type(file_info)] *)
Definition _determine_data_type (file_info : file_info) : string :=
  let file_name_lower := lower (file_name file_info) in
  if any_in ["quarterly"; "qoq"; "quarter"] file_name_lower then "quarterly_revenue"
  else if any_in ["bridge"; "churn"; "retention"] file_name_lower then "revenue_bridge"
  else if any_in ["country"; "geographic"; "region"] file_name_lower then "country_wise"
  else if any_in ["customer"; "concentration"; "client"] file_name_lower
  then "customer_concentration"
  else if any_in ["monthly"; "month"; "mom"] file_name_lower then "monthly_revenue"
  else lower (replace ".json" EmptyString (file_name file_info)).

(** [(now - last).total_seconds() > minutes * 60] *)
Definition minutes_gt (now last minutes : Z) : bool :=
  (minutes * 60 * 1000000 <? now - last)%Z.

(** [_is_cache_valid(cache_key)] at time [now] *)
Definition _is_cache_valid (self : t) (refresh_interval : Z) (cache_key : string)
    (now : Z) : bool :=
  match PyDict.get (_data_cache self) cache_key, _last_cache_time self with
  | Some _, Some last => negb (minutes_gt now last refresh_interval)
  | _, _ => false
  end.

(** The loop of [get_company_data_from_s3] over the company's files;
    [load file_key] is what [load_json_from_s3] answers. *)
Definition read_files (load : string -> json_data)
    (company_files : list (string * file_info)) : list (string * json_data) :=
  fold_left
    (fun company_data '(file_key, file_info) =>
       let data := load file_key in
       if truthy data
       then PyDict.set company_data (_determine_data_type file_info) data
       else company_data)
    company_files [].

(** [get_company_data_from_s3(company_name)].  The two collaborators'
    answers are arguments: [discovered_files] is the result of
    [discover_json_files()] and [load] that of [load_json_from_s3];
    neither call raises, both handle their own exceptions.  [t_valid] and
    [t_store] are the readings of [datetime.now()]. *)
Definition get_company_data_from_s3 (self : t) (s3_client : bool)
    (refresh_interval : Z) (company_name : string)
    (discovered_files : list (string * file_info)) (load : string -> json_data)
    (t_valid t_store : Z) : list (string * json_data) * t :=
  if negb s3_client then ([], self)
  else
    let cache_key := "company_" +:+ company_name in
    if _is_cache_valid self refresh_interval cache_key t_valid
    then (default [] (PyDict.get (_data_cache self) cache_key), self)
    else
      let company_files := _filter_company_files discovered_files company_name in
      let company_data := read_files load company_files in
      (company_data,
       {| _data_cache := PyDict.set (_data_cache self) cache_key company_data;
          _last_cache_time := Some t_store |}).

End S3JSONReader.

(** ** S3FileStorageManager.generate_file_key *)

Module S3FileStorageManager.

(** The file name without blanks and parentheses. *)
Definition clean_filename (filename : string) : string :=
  replace ")" EmptyString (replace "(" EmptyString (replace " " "_" filename)).

(** [generate_file_key(company_id, filename)]; [prefix] is the
    configured prefix, [company_id] the formatted id and [timestamp] the
    formatted date. *)
Definition generate_file_key (prefix company_id timestamp filename : string) : string :=
  if negb (String.eqb prefix EmptyString)
  then prefix +:+ "/company_" +:+ company_id +:+ "/" +:+ timestamp +:+ "/"
       +:+ clean_filename filename
  else "company_" +:+ company_id +:+ "/" +:+ timestamp +:+ "/" +:+ clean_filename filename.

End S3FileStorageManager.

(** ** ConfigValidator.validate_s3_config *)

Module ConfigValidator.

Record s3_config : Type := {
  aws_access_key : string;
  aws_secret_key : string;
  bucket_name : string;
}.

(** What the connection test does: no client could be created, or the
    client's [head_bucket] returns, or an exception with a message is
    raised on the way. *)
Inductive connection : Type :=
| NoClient
| BucketReached
| Raised (message : string).

Record validation_results : Type := {
  is_valid : bool;
  missing_configs : list string;
  warnings : list string;
  recommendations : list string;
}.

Definition validate_s3_config (s3_config : s3_config) (test : connection)
    : validation_results :=
  let missing_configs : list string := [] in
  let missing_configs :=
    if String.eqb (aws_access_key s3_config) EmptyString
    then missing_configs ++ ["AWS_ACCESS_KEY_ID"] else missing_configs in
  let missing_configs :=
    if String.eqb (aws_secret_key s3_config) EmptyString
    then missing_configs ++ ["AWS_SECRET_ACCESS_KEY"] else missing_configs in
  let missing_configs :=
    if String.eqb (bucket_name s3_config) EmptyString
    then missing_configs ++ ["S3_BUCKET_NAME"] else missing_configs in
  let '(is_valid, warnings) :=
    if nonempty missing_configs then (false, [])
    else
      match test with
      | BucketReached => (true, [])
      | NoClient => (false, ["Unable to create S3 client"])
      | Raised message => (false, ["S3 connection test failed: " +:+ message])
      end in
  let recommendations : list string := [] in
  let recommendations :=
    if nonempty missing_configs
    then recommendations
           ++ ["Set missing environment variables or add them to Streamlit secrets"]
    else recommendations in
  let recommendations :=
    if negb is_valid && negb (nonempty missing_configs)
    then recommendations ++ ["Check AWS credentials and bucket permissions"]
    else recommendations in
  {| is_valid := is_valid; missing_configs := missing_configs;
     warnings := warnings; recommendations := recommendations |}.

End ConfigValidator.

(** ** Question suggestions and summary patterns *)

(** [generate_schema_based_suggestions(metrics, analysis_type)] *)
Definition generate_schema_based_suggestions (metrics : metrics_t)
    (analysis_type : string) : list string :=
  let suggestions : list string := [] in
  let suggestions :=
    if nonempty (revenue_columns metrics)
    then suggestions ++ ["What's the total revenue across all segments?";
                         "Which entities have the highest revenue?"]
    else suggestions in
  let suggestions :=
    match categorical_columns metrics with
    | first :: _ =>
        suggestions ++ ["Break down performance by " +:+ first;
                        "What are the key segment differences?"]
    | [] => suggestions
    end in
  let suggestions :=
    if nonempty (date_columns metrics)
    then suggestions ++ ["What trends do you see over time?";
                         "Identify any seasonal patterns"]
    else suggestions in
  let suggestions :=
    if negb (nonempty suggestions)
    then ["What are the key insights?"; "Show me the top performers";
          "Any recommendations?"; "What patterns do you notice?"]
    else suggestions in
  take 4 suggestions.

(** [detect_business_patterns(json_data, schema, tab_name)] *)
Definition detect_business_patterns (json_data : json_data) (schema : option schema_t)
    (tab_name : string) : list string :=
  match json_data with
  | JArray (r :: rs) =>
      let df := pd.mk (r :: rs) in
      let columns := map lower (pd.columns df) in
      let tab_lower := lower tab_name in
      if any_in ["new revenue"; "expansion"; "churn"; "contraction"] (join " " columns)
         || str_in "bridge" tab_lower
      then ["revenue_bridge"]
      else if any_in ["customer name"; "customer"; "client"] (join " " columns)
              || str_in "customer" tab_lower
      then ["customer_analysis"]
      else if any_in ["country"; "region"; "state"; "location"] (join " " columns)
              || str_in "country" tab_lower || str_in "geographic" tab_lower
      then ["geographic"]
      else if any_in ["quarter 3"; "quarter 4"; "q3"; "q4"] (join " " columns)
              || str_in "quarterly" tab_lower
      then ["quarterly"]
      else if any_in ["month"; "date"; "time"; "year"] (join " " columns)
              || str_in "monthly" tab_lower
      then ["time_series"]
      else []
  | _ => []
  end.

(** ** Conditions used in the statements *)

Definition fallback_suggestions : list string := ["table"; "bar_chart"; "summary_metrics"].

Definition no_rule_fires (s : schema_t) : Prop :=
  revenue_columns (metrics s) = [] /\ date_columns (metrics s) = []
  /\ id_columns (metrics s) = []
  /\ data_type s <> "geographic" /\ data_type s <> "customer" /\ data_type s <> "bridge".


(** ** Further datasets used in the examples *)

Module Scenarios.

Definition gamma_region : record :=
  [("customer", VStr "Gamma"); ("revenue", VInt 15); ("region", VStr "EMEA")].

(** The [note] column has no value in any record. *)
Definition with_empty_column : json_data :=
  JArray [[("item", VInt 1); ("note", VNone)]; [("item", VInt 2)]].

End Scenarios.

(** The last character of a string, used to compare suffixes. *)
Fixpoint last_char (s : string) : option ascii :=
  match s with
  | EmptyString => None
  | String c EmptyString => Some c
  | String _ s' => last_char s'
  end.

(** The objects of a listing, page after page. *)
Definition listed (pages : list (option (list S3DataDiscovery.s3_object)))
    : list S3DataDiscovery.s3_object :=
  concat (map (default []) pages).

(** A discovered file with its key, as [get_file_categories] files it. *)
Definition categorized (entry : string * S3DataDiscovery.file_info)
    : S3DataDiscovery.categorized_file :=
  {| S3DataDiscovery.info := snd entry; S3DataDiscovery.original_key := fst entry |}.

(** The invariant of a scan: distinct keys, each entry built from an
    accepted object among [objs]. *)
Definition scanned_from (objs : list S3DataDiscovery.s3_object) (files : list (string * S3DataDiscovery.file_info)) : Prop :=
  NoDup (PyDict.keys files)
  /\ forall k fi, (k, fi) ∈ files ->
       S3DataDiscovery.is_json_key k = true /\ exists obj, obj ∈ objs /\ S3DataDiscovery.Key obj = k /\ fi = S3DataDiscovery.mk_file_info obj.


(** The invariant of the categories: distinct names, no empty category,
    every file under the category chosen for it. *)
Definition filed (categories : list (string * list S3DataDiscovery.categorized_file)) : Prop :=
  NoDup (PyDict.keys categories)
  /\ forall c fs, (c, fs) ∈ categories ->
       fs <> [] /\ forall f, f ∈ fs -> S3DataDiscovery.category_of (S3DataDiscovery.info f) = c.


(** Datasets for the S3 reader. *)
Module Bucket.
Import S3DataDiscovery.

Definition obj (key : string) : s3_object :=
  {| Key := key; Size := 10; LastModified := 0; ETag := "e" |}.

Definition acme_q3 : file_info := mk_file_info (obj "data/acme/quarterly_q3.json").
Definition acme_q4 : file_info := mk_file_info (obj "data/acme/quarterly_q4.json").
Definition client_beta : file_info := mk_file_info (obj "client_beta/bridge.json").
Definition shared : file_info := mk_file_info (obj "shared/countries.json").

Definition files : list (string * file_info) :=
  [("data/acme/quarterly_q3.json", acme_q3); ("data/acme/quarterly_q4.json", acme_q4);
   ("client_beta/bridge.json", client_beta); ("shared/countries.json", shared)].

(** What the files hold. *)
Definition load (file_key : string) : json_data :=
  if String.eqb file_key "data/acme/quarterly_q3.json" then JArray [Examples.acme]
  else if String.eqb file_key "data/acme/quarterly_q4.json" then JArray [Examples.beta]
  else JArray [Examples.gamma].

End Bucket.

(** * Properties *)

Import Reference Spec.

(** ** Evaluation of the model on small inputs *)

Example lower_ex : lower "Quarter 3 Revenue" = "quarter 3 revenue".
Proof. reflexivity. Qed.

Example str_in_ex : str_in "q3" "fy q3 total" = true /\ str_in "q4" "fy q3 total" = false.
Proof. split; reflexivity. Qed.

Example join_ex : join " " ["a"; "b c"; "d"] = "a b c d".
Proof. reflexivity. Qed.

Example str_nat_ex : str_nat 120 = "120" /\ str_nat 0 = "0".
Proof. split; reflexivity. Qed.

Example union_keys_ex :
  pd.union_keys [[("b", VInt 1); ("a", VNone)]; [("a", VInt 2); ("c", VStr "x")]]
  = ["b"; "a"; "c"].
Proof. reflexivity. Qed.

(** RFC 1321 test suite. *)
Example md5_test_suite :
  MD5.hexdigest "" = "d41d8cd98f00b204e9800998ecf8427e"
  /\ MD5.hexdigest "a" = "0cc175b9c0f1b6a831c399e269772661"
  /\ MD5.hexdigest "abc" = "900150983cd24fb0d6963f7d28e17f72"
  /\ MD5.hexdigest "message digest" = "f96b697d7cb7938d525a2f31aaf161d0"
  /\ MD5.hexdigest "abcdefghijklmnopqrstuvwxyz" = "c3fcd3d76192e4007dfb496cca67e13b"
  /\ MD5.hexdigest "12345678901234567890123456789012345678901234567890123456789012345678901234567890"
     = "57edf4a22be3c955ac49da2e2107b67a".
Proof. vm_compute. repeat split. Qed.

Example repr_float_ex :
  map PyRepr.repr_float [1.5; 150; 1e16; 1e15; 0.5; 0.125; (-2.5); 1e22; 0x1p-20]%float
  = ["1.5"; "150.0"; "1e+16"; "1000000000000000.0"; "0.5"; "0.125"; "-2.5"; "1e+22";
     "9.5367431640625e-07"].
Proof. vm_compute. reflexivity. Qed.

Example py_str_ex :
  py_str (VDict [("Customer Name", VStr "Acme"); ("Quarter 3 Revenue", VInt 100);
                 ("share", VFloat 0.25); ("ok", VBool true); ("n", VNone);
                 ("tags", VList [VStr "a"; VDict [("b", VInt (-2))]])])
  = "{'Customer Name': 'Acme', 'Quarter 3 Revenue': 100, 'share': 0.25, 'ok': True, 'n': None, 'tags': ['a', {'b': -2}]}"
  /\ py_str_tuple [VStr "s3_data"] = "('s3_data',)"
  /\ py_str_tuple [VNone] = "(None,)"
  /\ py_str (VStr "folder/file.json") = "folder/file.json".
Proof. vm_compute. repeat split. Qed.

Example get_cache_key_ex :
  Cache.get_cache_key (JStr "folder/file.json") [VStr "s3_data"] = "3317f120_1f480523"
  /\ Cache.get_cache_key (JObject [("a", VInt 1)]) [VStr "k"] = "5268827f_2f532d91"
  /\ Cache.get_cache_key (JArray []) [VStr "k"] = "d7517139_2f532d91".
Proof. vm_compute. repeat split. Qed.

Example detect_pattern_bridge :
  _detect_data_pattern
    (pd.mk [[("churn_amount", VInt 5); ("customer_name", VStr "Acme"); ("revenue", VInt 10)]])
    "customer" = "revenue_bridge".
Proof. reflexivity. Qed.

Example detect_data_type_quarterly :
  _detect_data_type
    (JArray [[("Customer Name", VStr "Acme"); ("Quarter 3 Revenue", VInt 100);
              ("Quarter 4 Revenue", VInt 150)];
             [("Customer Name", VStr "Beta"); ("Quarter 3 Revenue", VInt 200);
              ("Quarter 4 Revenue", VInt 180)]])
  = "quarterly".
Proof. reflexivity. Qed.


(** ** Substrings and joins *)

Section Strings.

Lemma app_nil_s (s : string) : "" +:+ s = s.
Proof. reflexivity. Qed.

Lemma app_cons_s (c : ascii) (a b : string) : String c a +:+ b = String c (a +:+ b).
Proof. reflexivity. Qed.

Lemma app_assoc_s (a b c : string) : (a +:+ b) +:+ c = a +:+ b +:+ c.
Proof.
  induction a as [|x a IH]; [reflexivity |].
  rewrite !app_cons_s. by f_equal.
Qed.

Lemma startswith_spec (s t : string) :
  startswith s t = true <-> exists b, s = t +:+ b.
Proof.
  revert s. induction t as [|c t IH]; intros s; simpl.
  - split; [intros _; exists s; reflexivity | reflexivity].
  - destruct s as [|d s].
    + split; [discriminate | intros [b Hb]; discriminate].
    + rewrite andb_true_iff, Ascii.eqb_eq, IH. split.
      * intros [-> [b ->]]. by exists b.
      * intros [b Hb]. rewrite app_cons_s in Hb. injection Hb as -> ->.
        split; [done | by exists b].
Qed.

Lemma str_in_spec (t s : string) :
  str_in t s = true <-> exists a b, s = a +:+ t +:+ b.
Proof.
  induction s as [|c s IH]; simpl.
  - rewrite orb_false_r, startswith_spec. split.
    + intros [b Hb]. by exists "", b.
    + intros [a [b Hab]]. destruct a; [by exists b | discriminate].
  - rewrite orb_true_iff, startswith_spec, IH. split.
    + intros [[b Hb] | [a [b Hab]]].
      * by exists "", b.
      * exists (String c a), b. by rewrite app_cons_s, Hab.
    + intros [a [b Hab]]. destruct a as [|c' a].
      * left. by exists b.
      * right. rewrite app_cons_s in Hab. injection Hab as _ Hab. by exists a, b.
Qed.

Lemma str_in_app_l (t x y : string) : str_in t x = true -> str_in t (x +:+ y) = true.
Proof.
  rewrite !str_in_spec. intros [a [b ->]]. exists a, (b +:+ y).
  by rewrite !app_assoc_s.
Qed.

Lemma str_in_app_r (t x y : string) : str_in t y = true -> str_in t (x +:+ y) = true.
Proof.
  rewrite !str_in_spec. intros [a [b ->]]. exists (x +:+ a), b.
  by rewrite !app_assoc_s.
Qed.

(** A keyword without a blank that starts inside [x] and fits in
    [x ++ " " ++ y] ends inside [x]. *)
Lemma startswith_sep (t x y : string) :
  has_no_space t = true ->
  startswith (x +:+ " " +:+ y) t = true -> startswith x t = true.
Proof.
  revert x. induction t as [|c t IH]; intros x Hns; simpl; [done |].
  simpl in Hns. apply andb_true_iff in Hns as [Hc Hns].
  destruct x as [|d x].
  - change ("" +:+ " " +:+ y) with (String " " y).
    rewrite andb_true_iff. intros [Heq _]. apply Ascii.eqb_eq in Heq. subst c.
    by simpl in Hc.
  - rewrite (app_cons_s d x), !andb_true_iff.
    intros [Heq Hst]. split; [done | by apply IH].
Qed.

Lemma str_in_sep (t x y : string) :
  has_no_space t = true -> t <> "" ->
  str_in t (x +:+ " " +:+ y) = str_in t x || str_in t y.
Proof.
  intros Hns Hne. induction x as [|d x IH].
  - change ("" +:+ " " +:+ y) with (String " " y).
    destruct t as [|c t]; [done |]. simpl.
    simpl in Hns. apply andb_true_iff in Hns as [Hc _].
    destruct (Ascii.eqb c " ") eqn:E; [by simpl in Hc | done].
  - rewrite (app_cons_s d x). simpl str_in. rewrite IH.
    destruct (startswith (String d (x +:+ " " +:+ y)) t) eqn:E.
    + rewrite <- app_cons_s in E.
      apply (startswith_sep t (String d x) y Hns) in E. by rewrite E.
    + destruct (startswith (String d x) t) eqn:E'; [| done].
      apply startswith_spec in E' as [b Hb].
      assert (startswith (String d (x +:+ " " +:+ y)) t = true) as E''.
      { apply startswith_spec. exists (b +:+ " " +:+ y).
        by rewrite <- app_cons_s, Hb, app_assoc_s. }
      congruence.
Qed.

Lemma join_cons (sep c c' : string) (cols : list string) :
  join sep (c :: c' :: cols) = c +:+ sep +:+ join sep (c' :: cols).
Proof. reflexivity. Qed.

Lemma str_in_join (t : string) (cols : list string) :
  has_no_space t = true -> t <> "" ->
  str_in t (join " " cols) = existsb (str_in t) cols.
Proof.
  intros Hns Hne. induction cols as [|c cols IH].
  - destruct t; done.
  - destruct cols as [|c' cols].
    + simpl. by rewrite orb_false_r.
    + rewrite join_cons, str_in_sep, IH by done. reflexivity.
Qed.

Lemma any_in_join (terms cols : list string) :
  Forall keyword terms ->
  any_in terms (join " " cols) = existsb (any_in terms) cols.
Proof.
  intros Hk. unfold any_in. induction Hk as [|t terms [Hns Hne] _ IH]; simpl.
  - induction cols; [done | by simpl].
  - rewrite IH, str_in_join by done.
    clear. induction cols as [|c cols IHc]; simpl; [done |].
    rewrite <- IHc.
    destruct (str_in t c), (existsb (str_in t) cols),
      (existsb (λ term, str_in term c) terms); simpl; try done;
      by rewrite ?orb_true_r.
Qed.

End Strings.

(** ** Keyword lists *)

Lemma keyword_intro (t : string) :
  has_no_space t = true -> t <> "" -> keyword t.
Proof. by split. Qed.

Ltac keywords :=
  repeat first
    [ apply List.Forall_nil
    | apply List.Forall_cons; [apply keyword_intro; [reflexivity | discriminate] |] ].

Ltac case_if :=
  match goal with |- context [if ?b then _ else _] => destruct b end.

(** ** The pattern router *)

Section Router.

Lemma any_in_true (terms : list string) (term s : string) :
  term ∈ terms -> str_in term s = true -> any_in terms s = true.
Proof.
  intros Hin Hs. unfold any_in. apply existsb_exists. exists term.
  split; [by apply list_elem_of_In | done].
Qed.

(** A keyword found in one column name is found in the joined names. *)
Lemma any_in_joined (terms : list string) (term col : string) (cols : list string) :
  Forall keyword terms -> term ∈ terms -> col ∈ cols ->
  str_in term (lower col) = true ->
  any_in terms (join " " (map lower cols)) = true.
Proof.
  intros Hk Hterm Hcol Hin. rewrite any_in_join by done.
  apply existsb_exists. exists (lower col). split.
  - apply in_map. by apply list_elem_of_In.
  - by apply any_in_true with term.
Qed.

(** C7.  Bridge vocabulary outranks every other rule: a dataset whose
    columns include [churn_amount], [customer_name] and [revenue] is
    routed to [revenue_bridge], not to [customer_analysis], although the
    customer/client/company condition and the revenue/amount/value
    condition both hold as well. *)
Theorem detect_data_pattern_bridge_first (df : pd.DataFrame) (analysis_type : string) :
  "churn_amount" ∈ pd.columns df ->
  "customer_name" ∈ pd.columns df ->
  "revenue" ∈ pd.columns df ->
  let joined := join " " (map lower (pd.columns df)) in
  _detect_data_pattern df analysis_type = "revenue_bridge"
  /\ _detect_data_pattern df analysis_type <> "customer_analysis"
  /\ any_in customer_terms joined = true
  /\ any_in revenue_terms joined = true.
Proof.
  intros Hchurn Hcust Hrev joined.
  assert (any_in bridge_terms joined = true) as Hb.
  { apply any_in_joined with "churn" "churn_amount"; try done; [keywords | set_solver]. }
  assert (_detect_data_pattern df analysis_type = "revenue_bridge") as Hres.
  { unfold _detect_data_pattern. fold joined. by rewrite Hb. }
  split; [done |]. split; [by rewrite Hres |]. split.
  - apply any_in_joined with "customer" "customer_name"; try done; [keywords | set_solver].
  - apply any_in_joined with "revenue" "revenue"; try done; [keywords | set_solver].
Qed.

Lemma detect_data_pattern_bridge_first_witness :
  _detect_data_pattern Examples.bridge_df "customer" = "revenue_bridge"
  /\ _detect_data_pattern Examples.bridge_df "customer" <> "customer_analysis"
  /\ any_in customer_terms (join " " (map lower (pd.columns Examples.bridge_df))) = true
  /\ any_in revenue_terms (join " " (map lower (pd.columns Examples.bridge_df))) = true.
Proof.
  apply (detect_data_pattern_bridge_first Examples.bridge_df "customer"); vm_compute; set_solver.
Defined.

(** C8.  When none of the bridge, customer, geographic and quarterly
    rules matches, the router answers [monthly_trends] as soon as the
    joined column names contain [month_label] with a revenue term (for
    any number of records), or [variance] with revenue/amount, or a
    date/time/period term with revenue/amount/value and at most 24
    records. *)
Theorem detect_data_pattern_monthly_rules (df : pd.DataFrame) (analysis_type : string) :
  let joined := join " " (map lower (pd.columns df)) in
  any_in bridge_terms joined = false ->
  any_in customer_terms joined && any_in revenue_terms joined = false ->
  any_in geo_terms joined = false ->
  any_in quarterly_terms joined = false ->
  (str_in "month_label" joined = true /\ any_in ["revenue"; "amount"; "value"] joined = true)
  \/ (str_in "variance" joined = true /\ any_in ["revenue"; "amount"] joined = true)
  \/ (any_in time_terms joined = true
      /\ any_in ["revenue"; "amount"; "value"] joined = true
      /\ (pd.len df <= 24)%nat) ->
  _detect_data_pattern df analysis_type = "monthly_trends".
Proof.
  intros joined Hb Hc Hg Hq Hrule. unfold _detect_data_pattern. fold joined.
  rewrite Hb, Hc, Hg, Hq.
  destruct (any_in monthly_terms joined); [done |].
  destruct Hrule as [[Hm Hr] | [[Hv Hr] | [Ht [Hr Hlen]]]].
  - by rewrite Hm, Hr.
  - rewrite Hv, Hr. simpl. by case_if.
  - rewrite Ht, Hr. apply Nat.leb_le in Hlen. rewrite Hlen. simpl.
    by repeat case_if.
Qed.

Lemma detect_data_pattern_monthly_rules_witness :
  _detect_data_pattern Examples.monthly_df "monthly" = "monthly_trends".
Proof.
  apply (detect_data_pattern_monthly_rules Examples.monthly_df "monthly");
    [reflexivity | reflexivity | reflexivity | reflexivity |].
  left. split; reflexivity.
Defined.

(** The [Month_Label]/[Revenue] layout is monthly for any number of
    records. *)
Lemma month_label_revenue_any_length (df : pd.DataFrame) (analysis_type : string) :
  pd.columns df = ["Month_Label"; "Revenue"] ->
  _detect_data_pattern df analysis_type = "monthly_trends".
Proof. intros Hcols. unfold _detect_data_pattern. rewrite Hcols. reflexivity. Qed.

(** C10.  The result of [_detect_data_pattern] does not depend on its
    [analysis_type] argument: two frames with the same column names and
    the same number of records are classified alike, whatever the two
    declared categories are. *)
Theorem detect_data_pattern_ignores_category (df1 df2 : pd.DataFrame) (c1 c2 : string) :
  pd.columns df1 = pd.columns df2 ->
  pd.len df1 = pd.len df2 ->
  _detect_data_pattern df1 c1 = _detect_data_pattern df2 c2.
Proof.
  intros Hcols Hlen. unfold _detect_data_pattern. by rewrite Hcols, Hlen.
Qed.

Lemma detect_data_pattern_ignores_category_witness :
  _detect_data_pattern Examples.bridge_df "customer" = _detect_data_pattern Examples.bridge_df2 "bridge".
Proof.
  apply (detect_data_pattern_ignores_category Examples.bridge_df Examples.bridge_df2 "customer" "bridge");
    reflexivity.
Defined.

End Router.

(** ** Data type detection *)

Section DataType.

Lemma take_min_length {A} (n : nat) (l : list A) :
  take (Nat.min n (length l)) l = take n l.
Proof.
  destruct (Nat.le_ge_cases n (length l)) as [Hle | Hge].
  - by rewrite Nat.min_l.
  - rewrite Nat.min_r by done. by rewrite !take_ge.
Qed.

Lemma any_in_joined_mentions (terms cols : list string) :
  Forall keyword terms ->
  any_in terms (join " " (map lower cols)) = Spec.mentions terms cols.
Proof.
  intros Hk. rewrite any_in_join by done. unfold Spec.mentions.
  induction cols as [|c cols IH]; simpl; [done | by rewrite IH].
Qed.

Lemma detect_data_type_cons (r : record) (rs : list record) :
  _detect_data_type (JArray (r :: rs)) = Spec.detectDataType (JArray (r :: rs)).
Proof.
  unfold _detect_data_type, Spec.detectDataType.
  rewrite take_min_length.
  repeat match goal with
  | |- context [any_in ?ts (join " " (map lower ?cs))] =>
      rewrite (any_in_joined_mentions ts cs) by keywords
  end.
  reflexivity.
Qed.




End DataType.

(** ** Column profiles and metric groups *)

Section Columns.
Context `{Library}.

Lemma add_keys_NoDup (seen ks : list string) :
  NoDup seen -> NoDup (pd.add_keys seen ks).
Proof.
  revert seen. induction ks as [|k ks IH]; intros seen Hnd; simpl; [done |].
  apply IH. case_bool_decide as Hin; [done |].
  apply NoDup_app. split; [done |]. split; [| apply NoDup_singleton].
  intros x Hx Hxk. apply list_elem_of_singleton in Hxk. by subst.
Qed.

Lemma union_keys_NoDup (rs : list record) : NoDup (pd.union_keys rs).
Proof.
  unfold pd.union_keys.
  assert (forall seen, NoDup seen ->
    NoDup (fold_left (fun seen r => pd.add_keys seen (map fst r)) rs seen)) as Hgen.
  { induction rs as [|r rs IH]; intros seen Hnd; simpl; [done |].
    apply IH. by apply add_keys_NoDup. }
  apply Hgen. constructor.
Qed.

Lemma analyze_column_name (df : pd.DataFrame) (col : string) (entry : string * analysis_t) :
  analyze_column df col = Some (Some entry) -> fst entry = col.
Proof.
  unfold analyze_column. case_bool_decide; [discriminate |].
  destruct (nunique _); [| discriminate]. by intros [= <-].
Qed.

Lemma analyze_columns_loop_names (df : pd.DataFrame) (cols : list string)
    (acc res : list (string * analysis_t)) :
  analyze_columns_loop df cols acc = Some res ->
  exists new, res = acc ++ new /\ sublist (map fst new) cols.
Proof.
  revert acc. induction cols as [|col cols IH]; intros acc; simpl.
  - intros [= <-]. exists []. by rewrite app_nil_r.
  - destruct (analyze_column df col) as [[entry|]|] eqn:E; [| | discriminate].
    + intros Hres. apply IH in Hres as [new [-> Hsub]].
      exists (entry :: new). rewrite <- app_assoc. split; [done |].
      simpl. rewrite (analyze_column_name _ _ _ E). by constructor.
    + intros Hres. apply IH in Hres as [new [-> Hsub]].
      exists new. split; [done | by constructor].
Qed.

(** An exception in one column empties the whole profile. *)
Lemma analyze_columns_loop_raises (df : pd.DataFrame) (cols : list string)
    (acc : list (string * analysis_t)) (col : string) :
  col ∈ cols -> analyze_column df col = None ->
  analyze_columns_loop df cols acc = None.
Proof.
  intros Hin Hraise. revert acc.
  induction cols as [|c cols IH]; intros acc; [by apply elem_of_nil in Hin |].
  apply elem_of_cons in Hin as [<- | Hin]; simpl.
  - by rewrite Hraise.
  - destruct (analyze_column df c) as [[entry|]|]; auto.
Qed.

Lemma analyze_columns_raises (r : record) (rs : list record) (col : string) :
  col ∈ pd.union_keys (r :: rs) ->
  analyze_column (pd.mk (r :: rs)) col = None ->
  _analyze_columns (JArray (r :: rs)) = []
  /\ _identify_metrics (JArray (r :: rs)) = empty_metrics.
Proof.
  intros Hin Hraise.
  assert (_analyze_columns (JArray (r :: rs)) = []) as Hcols.
  { unfold _analyze_columns.
    change (pd.columns (pd.mk (r :: rs))) with (pd.union_keys (r :: rs)).
    by rewrite (analyze_columns_loop_raises _ _ [] col Hin Hraise). }
  split; [done |]. unfold _identify_metrics. by rewrite Hcols.
Qed.

Lemma analyze_columns_NoDup (d : json_data) :
  NoDup (map fst (_analyze_columns d)).
Proof.
  destruct d as [[|r rs] | | | | | |]; try apply NoDup_nil_2.
  unfold _analyze_columns.
  destruct (analyze_columns_loop _ _ _) as [res|] eqn:E; [| apply NoDup_nil_2].
  apply analyze_columns_loop_names in E as [new [-> Hsub]]. simpl.
  eapply sublist_NoDup; [| exact Hsub]. apply union_keys_NoDup.
Qed.

(** ** Metric groups *)

Lemma metrics_step_placed (n : nat) (m : metrics_t) (col : string) (a : analysis_t) :
  metrics_step n m (col, a) = add_to (placed n col a) col m.
Proof.
  unfold metrics_step, placed, has_token.
  repeat case_if; reflexivity.
Qed.

Lemma members_add_to (g : group) (h : option group) (col : string) (m : metrics_t) :
  members g (add_to h col m)
  = members g m ++ (if h is Some h' then if group_eqb g h' then [col] else [] else []).
Proof.
  destruct h as [[] |], g; simpl; by rewrite ?app_nil_r.
Qed.

Lemma members_fold (n : nat) (g : group) (cols : list (string * analysis_t)) (m : metrics_t) :
  members g (fold_left (metrics_step n) cols m) = members g m ++ placed_in n g cols.
Proof.
  revert m. induction cols as [|[col a] cols IH]; intros m.
  - simpl. by rewrite app_nil_r.
  - change (fold_left (metrics_step n) ((col, a) :: cols) m)
      with (fold_left (metrics_step n) cols (metrics_step n m (col, a))).
    rewrite IH, metrics_step_placed, members_add_to, <- app_assoc.
    cbn [placed_in].
    destruct (placed n col a) as [h|]; [destruct (group_eqb g h) |]; reflexivity.
Qed.

Lemma group_eqb_eq (g h : group) : group_eqb g h = true <-> g = h.
Proof. destruct g, h; simpl; split; (done || discriminate). Qed.

Lemma elem_of_placed_in (n : nat) (g : group) (cols : list (string * analysis_t)) (c : string) :
  c ∈ placed_in n g cols <-> exists a, (c, a) ∈ cols /\ placed n c a = Some g.
Proof.
  induction cols as [|[col a] cols IH]; simpl.
  - split; [by intros ?%elem_of_nil | by intros [a [?%elem_of_nil _]]].
  - assert (c ∈ placed_in n g cols ->
            exists a0, (c, a0) ∈ (col, a) :: cols /\ placed n c a0 = Some g) as Htail.
    { intros [a0 [Hin Hp]]%IH. exists a0. split; [by apply list_elem_of_further | done]. }
    assert ((exists a0, (c, a0) ∈ (col, a) :: cols /\ placed n c a0 = Some g) ->
            (c = col /\ placed n col a = Some g) \/ c ∈ placed_in n g cols) as Hinv.
    { intros [a0 [Hin Hp]]. apply elem_of_cons in Hin as [[= -> ->] | Hin].
      - by left.
      - right. apply IH. by exists a0. }
    destruct (placed n col a) as [h|] eqn:E.
    + destruct (group_eqb g h) eqn:Eg.
      * apply group_eqb_eq in Eg as <-. rewrite elem_of_cons. split.
        -- intros [-> | Hin]; [| by apply Htail].
           exists a. split; [apply list_elem_of_here | done].
        -- intros [[-> _] | Hin]%Hinv; [by left | by right].
      * split; [apply Htail |].
        intros [[-> [= ->]] | Hin]%Hinv; [| done].
        assert (group_eqb g g = true) by by apply group_eqb_eq. congruence.
    + split; [apply Htail |]. by intros [[_ [=]] | Hin]%Hinv.
Qed.

Lemma NoDup_fst_functional {A} (l : list (string * A)) (c : string) (a b : A) :
  NoDup (map fst l) -> (c, a) ∈ l -> (c, b) ∈ l -> a = b.
Proof.
  induction l as [|[c' x] l IH]; simpl; intros Hnd Ha Hb.
  - by apply elem_of_nil in Ha.
  - apply NoDup_cons in Hnd as [Hnotin Hnd].
    assert (forall y, (c', y) ∈ l -> False) as Hfresh.
    { intros y Hy. apply Hnotin. apply list_elem_of_In, in_map_iff.
      exists (c', y). split; [done | by apply list_elem_of_In]. }
    apply elem_of_cons in Ha as [Ha | Ha];
      apply elem_of_cons in Hb as [Hb | Hb]; simplify_eq.
    + done.
    + by destruct (Hfresh b).
    + by destruct (Hfresh a).
    + by apply IH.
Qed.

(** Where a profiled column ends up. *)
Lemma identify_metrics_members (d : json_data) (g : group) (c : string) (a : analysis_t) :
  (c, a) ∈ _analyze_columns d ->
  c ∈ members g (_identify_metrics d) <-> placed (len_json d) c a = Some g.
Proof.
  intros Hin. unfold _identify_metrics. rewrite members_fold.
  assert (members g empty_metrics = []) as -> by by destruct g.
  simpl. rewrite elem_of_placed_in. split.
  - intros [b [Hb Hp]].
    by rewrite (NoDup_fst_functional _ c a b (analyze_columns_NoDup d) Hin Hb).
  - intros Hp. by exists a.
Qed.

Lemma identify_metrics_profiled (d : json_data) (g : group) (c : string) :
  c ∈ members g (_identify_metrics d) ->
  exists a, (c, a) ∈ _analyze_columns d /\ placed (len_json d) c a = Some g.
Proof.
  unfold _identify_metrics. rewrite members_fold.
  assert (members g empty_metrics = []) as -> by by destruct g.
  simpl. by rewrite elem_of_placed_in.
Qed.

End Columns.

Section Metrics.
Context `{Library}.

Lemma lt_half_below_half (u n : nat) : lt_half u n = true <-> below_half u n.
Proof.
  unfold lt_half, below_half, Qlt. simpl. rewrite Nat.ltb_lt. lia.
Qed.

Lemma members_exclusive (d : json_data) (g h : group) (c : string) :
  c ∈ members g (_identify_metrics d) -> c ∈ members h (_identify_metrics d) -> g = h.
Proof.
  intros [a [Hin Hg]]%identify_metrics_profiled Hh.
  apply (identify_metrics_members d h c a Hin) in Hh. congruence.
Qed.

(** C5.  For every dataset no column name is in two of
    [revenue_columns], [date_columns], [percentage_columns] and
    [id_columns], and [categorical_columns] only holds names that are in
    none of those four. *)
Theorem metric_groups_exclusive (d : json_data) :
  let m := _identify_metrics d in
  disjoint (revenue_columns m) (date_columns m)
  /\ disjoint (revenue_columns m) (percentage_columns m)
  /\ disjoint (revenue_columns m) (id_columns m)
  /\ disjoint (date_columns m) (percentage_columns m)
  /\ disjoint (date_columns m) (id_columns m)
  /\ disjoint (percentage_columns m) (id_columns m)
  /\ (forall c, c ∈ categorical_columns m ->
        (c ∉ revenue_columns m) /\ (c ∉ date_columns m)
        /\ (c ∉ percentage_columns m) /\ (c ∉ id_columns m)).
Proof.
  intros m.
  assert (forall g h, g <> h -> disjoint (members g m) (members h m)) as Hdis.
  { intros g h Hne c Hg Hh. apply Hne. by apply (members_exclusive d g h c). }
  repeat split;
    first [ by apply (Hdis Revenue Date) | by apply (Hdis Revenue Percentage)
          | by apply (Hdis Revenue Id) | by apply (Hdis Date Percentage)
          | by apply (Hdis Date Id) | by apply (Hdis Percentage Id)
          | by apply (Hdis Categorical Revenue) | by apply (Hdis Categorical Date)
          | by apply (Hdis Categorical Percentage) | by apply (Hdis Categorical Id) ].
Qed.

(** C6, as the code has it.  A profiled column goes to the first group
    whose tokens occur in its lower-cased name, in the order revenue,
    date, percentage, id; a name with a revenue token is in
    [revenue_columns] exactly when the column is numeric (and is in no
    later group either way); a column without any token is in
    [categorical_columns] exactly when it is not numeric and its
    [unique_count] is below half the number of records. *)
Theorem identify_metrics_classification (d : json_data) (col : string) (a : analysis_t) :
  (col, a) ∈ _analyze_columns d ->
  let m := _identify_metrics d in
  (col ∈ revenue_columns m <-> has_token Revenue col = true /\ is_numeric a = true)
  /\ (col ∈ date_columns m <->
        has_token Revenue col = false /\ has_token Date col = true)
  /\ (col ∈ percentage_columns m <->
        has_token Revenue col = false /\ has_token Date col = false
        /\ has_token Percentage col = true)
  /\ (col ∈ id_columns m <->
        has_token Revenue col = false /\ has_token Date col = false
        /\ has_token Percentage col = false /\ has_token Id col = true)
  /\ (col ∈ categorical_columns m <->
        has_token Revenue col = false /\ has_token Date col = false
        /\ has_token Percentage col = false /\ has_token Id col = false
        /\ is_numeric a = false /\ below_half (unique_count a) (len_json d)).
Proof.
  intros Hin m.
  pose proof (fun g => identify_metrics_members d g col a Hin) as Hm.
  pose proof (Hm Revenue) as Hr. pose proof (Hm Date) as Hd.
  pose proof (Hm Percentage) as Hp. pose proof (Hm Id) as Hi.
  pose proof (Hm Categorical) as Hc. clear Hm.
  simpl in Hr, Hd, Hp, Hi, Hc. fold m in Hr, Hd, Hp, Hi, Hc.
  rewrite Hr, Hd, Hp, Hi, Hc, <- lt_half_below_half. clear Hr Hd Hp Hi Hc.
  unfold placed.
  destruct (has_token Revenue col), (has_token Date col), (has_token Percentage col),
    (has_token Id col), (is_numeric a), (lt_half (unique_count a) (len_json d));
    simpl; intuition congruence.
Qed.

End Metrics.

Lemma identify_metrics_classification_witness :
  "Segment" ∈ categorical_columns (_identify_metrics Examples.sales)
  <-> has_token Revenue "Segment" = false /\ has_token Date "Segment" = false
      /\ has_token Percentage "Segment" = false /\ has_token Id "Segment" = false
      /\ is_numeric Examples.segment_analysis = false
      /\ below_half (unique_count Examples.segment_analysis) (len_json Examples.sales).
Proof.
  apply (identify_metrics_classification Examples.sales "Segment" Examples.segment_analysis).
  vm_compute. set_solver.
Defined.

Lemma revenue_token_not_placed :
  "Revenue" ∈ map fst (_analyze_columns Examples.text_revenue)
  /\ has_token Revenue "Revenue" = true
  /\ ("Revenue" ∉ revenue_columns (_identify_metrics Examples.text_revenue))
  /\ forall g, "Revenue" ∉ members g (_identify_metrics Examples.text_revenue).
Proof.
  split; [vm_compute; set_solver |]. split; [reflexivity |].
  split; [intros Hin; apply list_elem_of_In in Hin; vm_compute in Hin; tauto |].
  intros g Hin. apply list_elem_of_In in Hin.
  destruct g; vm_compute in Hin; intuition discriminate.
Qed.

(** ** Confidence score *)

Section Confidence.
Context `{Library}.





End Confidence.

(** ** The TTL cache *)

Section CacheStore.
Context {A : Type}.
Implicit Types (c : gmap string (cached_item A)) (k : string) (v : option A).

Local Open Scope Z_scope.

Lemma lookup_fresh_absent c ttl k now :
  c !! k = None -> Cache.lookup_fresh c ttl k now = (None, c).
Proof. intros Hk. unfold Cache.lookup_fresh. by rewrite Hk. Qed.

Lemma lookup_fresh_hit c ttl k v t0 t :
  t - t0 < ttl * 1000000 ->
  Cache.lookup_fresh (<[k := {| data := v; timestamp := t0 |}]> c) ttl k t
  = (v, <[k := {| data := v; timestamp := t0 |}]> c).
Proof.
  intros Hlt. unfold Cache.lookup_fresh, total_seconds_lt.
  rewrite lookup_insert_eq. simpl.
  by destruct (Z.ltb_spec (t - t0) (ttl * 1000000)); [| lia].
Qed.

Lemma lookup_fresh_expired c ttl k v t0 t :
  ttl * 1000000 <= t - t0 ->
  Cache.lookup_fresh (<[k := {| data := v; timestamp := t0 |}]> c) ttl k t
  = (None, delete k c).
Proof.
  intros Hge. unfold Cache.lookup_fresh, total_seconds_lt.
  rewrite lookup_insert_eq. simpl.
  destruct (Z.ltb_spec (t - t0) (ttl * 1000000)); [lia |].
  by rewrite delete_insert_eq.
Qed.

End CacheStore.

Section CacheManagerTTL.
Local Open Scope Z_scope.

Lemma with_analysis_id (cm : CacheManager) : Cache.with_analysis cm (analysis_cache cm) = cm.
Proof. by destruct cm. Qed.

Lemma with_schema_id (cm : CacheManager) : Cache.with_schema cm (schema_cache cm) = cm.
Proof. by destruct cm. Qed.

(** C2.  After [set(key, v)] at time [t0], a [get(key)] at time [t]
    returns [v] and leaves the store alone while [t - t0] is below the
    TTL; from the TTL on it returns [None] and deletes the entry, so
    that any later [get(key)] returns [None] as well.  This holds of the
    analysis cache and of the schema cache. *)
Theorem cache_ttl_correct (cm : CacheManager) (key : string) (t0 t : Z) :
  (forall v : option json_data,
     let cm1 := Cache.set_analysis_cache cm key v t0 in
     (t - t0 < cache_ttl cm * 1000000 -> Cache.get_analysis_cache cm1 key t = (v, cm1))
     /\ (cache_ttl cm * 1000000 <= t - t0 ->
         let cm2 := snd (Cache.get_analysis_cache cm1 key t) in
         fst (Cache.get_analysis_cache cm1 key t) = None
         /\ analysis_cache cm2 !! key = None
         /\ forall t', Cache.get_analysis_cache cm2 key t' = (None, cm2)))
  /\ (forall v : option schema_t,
     let cm1 := Cache.set_schema_cache cm key v t0 in
     (t - t0 < cache_ttl cm * 1000000 -> Cache.get_schema_cache cm1 key t = (v, cm1))
     /\ (cache_ttl cm * 1000000 <= t - t0 ->
         let cm2 := snd (Cache.get_schema_cache cm1 key t) in
         fst (Cache.get_schema_cache cm1 key t) = None
         /\ schema_cache cm2 !! key = None
         /\ forall t', Cache.get_schema_cache cm2 key t' = (None, cm2))).
Proof.
  split; intros v cm1; split.
  - intros Hlt. unfold Cache.get_analysis_cache, cm1, Cache.set_analysis_cache.
    cbn [analysis_cache cache_ttl Cache.with_analysis].
    rewrite lookup_fresh_hit by done. by destruct cm.
  - intros Hge cm2.
    assert (Cache.get_analysis_cache cm1 key t
            = (None, Cache.with_analysis cm (delete key (analysis_cache cm)))) as Hget.
    { unfold Cache.get_analysis_cache, cm1, Cache.set_analysis_cache.
      cbn [analysis_cache cache_ttl Cache.with_analysis].
      rewrite lookup_fresh_expired by done. by destruct cm. }
    unfold cm2. rewrite Hget. cbn [fst snd].
    assert (analysis_cache (Cache.with_analysis cm (delete key (analysis_cache cm))) !! key
            = None) as Hgone by (cbn; apply lookup_delete_eq).
    split; [done |]. split; [done |].
    intros t'. unfold Cache.get_analysis_cache.
    rewrite lookup_fresh_absent by done. by rewrite with_analysis_id.
  - intros Hlt. unfold Cache.get_schema_cache, cm1, Cache.set_schema_cache.
    cbn [schema_cache cache_ttl Cache.with_schema].
    rewrite lookup_fresh_hit by done. by destruct cm.
  - intros Hge cm2.
    assert (Cache.get_schema_cache cm1 key t
            = (None, Cache.with_schema cm (delete key (schema_cache cm)))) as Hget.
    { unfold Cache.get_schema_cache, cm1, Cache.set_schema_cache.
      cbn [schema_cache cache_ttl Cache.with_schema].
      rewrite lookup_fresh_expired by done. by destruct cm. }
    unfold cm2. rewrite Hget. cbn [fst snd].
    assert (schema_cache (Cache.with_schema cm (delete key (schema_cache cm))) !! key
            = None) as Hgone by (cbn; apply lookup_delete_eq).
    split; [done |]. split; [done |].
    intros t'. unfold Cache.get_schema_cache.
    rewrite lookup_fresh_absent by done. by rewrite with_schema_id.
Qed.

End CacheManagerTTL.

Lemma cache_ttl_correct_witness :
  let cm1 := Cache.set_schema_cache Cache.init "k" None 0 in
  Cache.get_schema_cache cm1 "k" 299999999 = (None, cm1)
  /\ (let cm1 := Cache.set_analysis_cache Cache.init "k" (Some (JInt 7)) 0 in
      Cache.get_analysis_cache cm1 "k" 299999999 = (Some (JInt 7), cm1))
  /\ (let cm1 := Cache.set_analysis_cache Cache.init "k" (Some (JInt 7)) 0 in
      fst (Cache.get_analysis_cache cm1 "k" 300000000) = None
      /\ forall t',
           Cache.get_analysis_cache (snd (Cache.get_analysis_cache cm1 "k" 300000000)) "k" t'
           = (None, snd (Cache.get_analysis_cache cm1 "k" 300000000))).
Proof.
  split; [| split].
  - destruct (cache_ttl_correct Cache.init "k" 0 299999999) as [_ Hs].
    destruct (Hs None) as [Hfresh _]. apply Hfresh. reflexivity.
  - destruct (cache_ttl_correct Cache.init "k" 0 299999999) as [Ha _].
    destruct (Ha (Some (JInt 7))) as [Hfresh _]. apply Hfresh. reflexivity.
  - destruct (cache_ttl_correct Cache.init "k" 0 300000000) as [Ha _].
    destruct (Ha (Some (JInt 7))) as [_ Hold].
    destruct Hold as (Hnone & _ & Hdurable); [discriminate |]. by split.
Defined.

(** ** Cache keys *)

(** With the reference MD5 the two fragments are eight hexadecimal digits each. *)
Section HexDigest.

Lemma hex_digit_is_hex (x : Z) : is_hex (MD5.hex_digit x) = true.
Proof.
  unfold MD5.hex_digit.
  destruct (Z.to_nat x) as [|[|[|[|[|[|[|[|[|[|[|[|[|[|[|[|n]]]]]]]]]]]]]]]]; try reflexivity.
  by destruct n.
Qed.

Lemma hex_bytes_is_hex (bs : list Z) : forallb is_hex (chars (MD5.hex_bytes bs)) = true.
Proof.
  induction bs as [|b bs IH]; [done |].
  cbn [MD5.hex_bytes chars forallb]. by rewrite !hex_digit_is_hex, IH.
Qed.

Lemma hex_bytes_length (bs : list Z) :
  String.length (MD5.hex_bytes bs) = 2 * length bs.
Proof. induction bs as [|b bs IH]; [done |]. cbn [MD5.hex_bytes String.length length]. lia. Qed.

Lemma le_bytes_length (n : nat) (x : Z) : length (MD5.le_bytes n x) = n.
Proof. revert x. induction n as [|n IH]; intros x; [done |]. simpl. by rewrite IH. Qed.

Lemma hexdigest_shape (m : string) :
  String.length (MD5.hexdigest m) = 32
  /\ forallb is_hex (chars (MD5.hexdigest m)) = true.
Proof.
  unfold MD5.hexdigest.
  destruct (MD5.chunks _ _ _) as [[[a0 b0] c0] d0].
  split; [| apply hex_bytes_is_hex].
  rewrite hex_bytes_length, !length_app, !le_bytes_length. reflexivity.
Qed.

End HexDigest.

Section Fragments.

Lemma substring_prefix_length (n : nat) (t : string) :
  n <= String.length t -> String.length (String.substring 0 n t) = n.
Proof.
  revert t. induction n as [|n IH]; intros t Hle.
  - by destruct t.
  - destruct t as [|c t]; simpl in *; [lia |]. rewrite IH; [done | lia].
Qed.

Lemma substring_prefix_forallb (P : ascii -> bool) (n : nat) (t : string) :
  forallb P (chars t) = true -> forallb P (chars (String.substring 0 n t)) = true.
Proof.
  revert t. induction n as [|n IH]; intros t Hall.
  - by destruct t.
  - destruct t as [|c t]; simpl in *; [done |].
    apply andb_true_iff in Hall as [Hc Hall]. by rewrite Hc, IH.
Qed.

Lemma hex_fragment_prefix (t : string) :
  hex_fragment 32 t -> hex_fragment 8 (String.substring 0 8 t).
Proof.
  intros [Hlen Hhex]. split.
  - apply substring_prefix_length. lia.
  - by apply substring_prefix_forallb.
Qed.

Context `{Library}.

Lemma get_cache_key_shape (d : json_data) (args : list value) :
  md5_contract ->
  exists a b, Cache.get_cache_key d args = a +:+ "_" +:+ b
              /\ hex_fragment 8 a /\ hex_fragment 8 b.
Proof.
  intros Hmd5. unfold Cache.get_cache_key.
  eexists _, _. split; [reflexivity |].
  split; [| apply hex_fragment_prefix, Hmd5].
  destruct d as [[|first rest] | | | | | |]; apply hex_fragment_prefix, Hmd5.
Qed.

End Fragments.

Lemma reference_md5_contract : md5_contract (H := Reference.lib).
Proof. intros m. apply hexdigest_shape. Qed.

Section CacheKey.
Context `{Library}.

(** C3, as the code has it.  For a non-empty array, [get_cache_key] is
    a function of the array's length, the text [str] gives of its first
    element and the context arguments only: two arrays of equal length
    whose first elements print alike, the same first element in
    particular, get the same key under the same arguments; the key is
    [deriveKey_array] of the length, the first element and the
    arguments, which sees the first element through its text only
    ([deriveKey_text]); and (the digests being hexadecimal) it consists
    of two fragments of eight hexadecimal digits joined by an
    underscore. *)
Theorem get_cache_key_fingerprint (d1 d2 : list record) (f1 f2 : record)
    (args : list value) :
  head d1 = Some f1 -> head d2 = Some f2 ->
  length d1 = length d2 ->
  py_str (VDict f1) = py_str (VDict f2) ->
  Cache.get_cache_key (JArray d1) args = Cache.get_cache_key (JArray d2) args
  /\ Cache.get_cache_key (JArray d1) args = deriveKey_array (length d1) f1 args
  /\ deriveKey_array (length d1) f1 args
     = deriveKey_text (length d1) (py_str (VDict f1)) args
  /\ (md5_contract ->
      exists a b, Cache.get_cache_key (JArray d1) args = a +:+ "_" +:+ b
                  /\ hex_fragment 8 a /\ hex_fragment 8 b).
Proof.
  intros Hf1 Hf2 Hlen Hstr.
  destruct d1 as [|g1 r1]; [discriminate |]. destruct d2 as [|g2 r2]; [discriminate |].
  simpl in Hf1, Hf2. injection Hf1 as ->. injection Hf2 as ->.
  split; [| split; [| split]].
  - unfold Cache.get_cache_key. by rewrite Hlen, Hstr.
  - reflexivity.
  - reflexivity.
  - apply get_cache_key_shape.
Qed.

End CacheKey.

Lemma get_cache_key_fingerprint_witness :
  Cache.get_cache_key (JArray [Examples.acme; Examples.beta]) [VStr "customers"]
  = Cache.get_cache_key (JArray [Examples.acme; Examples.gamma]) [VStr "customers"]
  /\ exists a b,
       Cache.get_cache_key (JArray [Examples.acme; Examples.beta]) [VStr "customers"]
       = a +:+ "_" +:+ b
       /\ hex_fragment 8 a /\ hex_fragment 8 b.
Proof.
  destruct (get_cache_key_fingerprint (H := Reference.lib)
              [Examples.acme; Examples.beta] [Examples.acme; Examples.gamma]
              Examples.acme Examples.acme [VStr "customers"]) as (Hsame & _ & _ & Hshape);
    [reflexivity | reflexivity | reflexivity | reflexivity |].
  split; [exact Hsame | exact (Hshape reference_md5_contract)].
Defined.

(** First elements that are equal in Python need not print alike, and
    then the keys differ: the same record with its keys in another
    order, and a record holding [1] against one holding [1.0].  So
    equality of the first elements and of the lengths does not make the
    keys equal. *)
Lemma equal_first_elements_different_keys :
  py_equal (VDict [("a", VInt 1); ("b", VInt 2)]) (VDict [("b", VInt 2); ("a", VInt 1)]) = true
  /\ Cache.get_cache_key (JArray [[("a", VInt 1); ("b", VInt 2)]]) [VStr "tab"]
     = "155ff8f8_1ac4bd63"
  /\ Cache.get_cache_key (JArray [[("b", VInt 2); ("a", VInt 1)]]) [VStr "tab"]
     = "cb8a2b4f_1ac4bd63"
  /\ py_equal (VDict [("a", VInt 1)]) (VDict [("a", VFloat 1)]) = true
  /\ Cache.get_cache_key (JArray [[("a", VInt 1)]]) [VStr "tab"] = "659d8452_1ac4bd63"
  /\ Cache.get_cache_key (JArray [[("a", VFloat 1)]]) [VStr "tab"] = "d1deb663_1ac4bd63"
  /\ ~ (forall (d1 d2 : list record) (f1 f2 : record) (args : list value),
          head d1 = Some f1 -> head d2 = Some f2 -> length d1 = length d2 ->
          py_equal (VDict f1) (VDict f2) = true ->
          Cache.get_cache_key (JArray d1) args = Cache.get_cache_key (JArray d2) args).
Proof.
  do 6 (split; [vm_compute; reflexivity |]).
  intros Hall.
  specialize (Hall [[("a", VInt 1); ("b", VInt 2)]] [[("b", VInt 2); ("a", VInt 1)]]
                [("a", VInt 1); ("b", VInt 2)] [("b", VInt 2); ("a", VInt 1)]
                [VStr "tab"] eq_refl eq_refl eq_refl).
  vm_compute in Hall. specialize (Hall eq_refl). discriminate Hall.
Qed.

(** ** analyze_json_schema *)

Section AnalyzeResult.
Context `{Library}.


Lemma analyze_truthy (cm : CacheManager) (d : json_data) (k : value) (t1 t2 : Z) :
  truthy d = true ->
  let key := Cache.get_cache_key d [k] in
  analyze_json_schema cm d k t1 t2 =
    match Cache.get_schema_cache cm key t1 with
    | (Some cached, cm1) => (Some cached, cm1)
    | (None, cm1) =>
        (Some (assemble d), Cache.set_schema_cache cm1 key (Some (assemble d)) t2)
    end.
Proof.
  intros Hd key. unfold analyze_json_schema. rewrite Hd. simpl negb. cbv iota.
  fold key. destruct (Cache.get_schema_cache cm key t1) as [[cached|] cm1]; reflexivity.
Qed.


End AnalyzeResult.



(** The schema assembled for the quarterly scenario. *)
Example assemble_sales :
  let schema := assemble Examples.sales in
  data_type schema = "quarterly"
  /\ map fst (columns schema)
     = ["Customer Name"; "Quarter 3 Revenue"; "Quarter 4 Revenue"; "Segment"]
  /\ revenue_columns (metrics schema) = ["Quarter 3 Revenue"; "Quarter 4 Revenue"]
  /\ id_columns (metrics schema) = ["Customer Name"]
  /\ categorical_columns (metrics schema) = ["Segment"]
  /\ suggested_visualizations schema
     = ["bar_chart"; "line_chart"; "metric_cards";
        "treemap"; "pareto_chart"; "concentration_analysis"]
  /\ confidence_score schema = 78%Z.
Proof. vm_compute. repeat split. Qed.

(** A non-empty object is assembled into a schema of type [unknown]
    without columns, of confidence 20. *)
Example assemble_object :
  let schema := assemble (JObject [("total", VInt 5)]) in
  data_type schema = "unknown" /\ columns schema = []
  /\ suggested_visualizations schema = ["table"; "bar_chart"; "summary_metrics"]
  /\ confidence_score schema = 20%Z.
Proof. vm_compute. repeat split. Qed.

(** Profiling fails as a whole on an unhashable cell: the columns
    mapping is empty and the schema is still assembled. *)
Example assemble_nested_cell :
  let schema := assemble Examples.tagged in
  data_type schema = "general" /\ columns schema = []
  /\ metrics schema = empty_metrics
  /\ suggested_visualizations schema = ["table"; "bar_chart"; "summary_metrics"]
  /\ confidence_score schema = 50%Z.
Proof. vm_compute. repeat split. Qed.

(** * Further properties of the code *)

(** ** More on the cache store *)

Section CacheMore.
Local Open Scope Z_scope.

Lemma lookup_fresh_other {A} (c : gmap string (cached_item A)) (ttl : Z)
    (k k' : string) (now : Z) :
  k <> k' -> snd (Cache.lookup_fresh c ttl k now) !! k' = c !! k'.
Proof.
  intros Hne. unfold Cache.lookup_fresh.
  destruct (c !! k) as [item|]; [| done].
  destruct (total_seconds_lt _ _ _); [done |]. simpl. by apply lookup_delete_ne.
Qed.

Lemma lookup_fresh_insert_other {A} (c : gmap string (cached_item A)) (ttl : Z)
    (k k' : string) (item : cached_item A) (now : Z) :
  k <> k' ->
  fst (Cache.lookup_fresh (<[k := item]> c) ttl k' now)
  = fst (Cache.lookup_fresh c ttl k' now).
Proof.
  intros Hne. unfold Cache.lookup_fresh. rewrite lookup_insert_ne by done.
  destruct (c !! k') as [it|]; [| done]. by destruct (total_seconds_lt _ _ _).
Qed.

Lemma get_schema_cache_eq (cm : CacheManager) (k : string) (t : Z) :
  Cache.get_schema_cache cm k t
  = (fst (Cache.lookup_fresh (schema_cache cm) (cache_ttl cm) k t),
     Cache.with_schema cm (snd (Cache.lookup_fresh (schema_cache cm) (cache_ttl cm) k t))).
Proof. unfold Cache.get_schema_cache. by destruct (Cache.lookup_fresh _ _ _ _). Qed.

Lemma get_analysis_cache_eq (cm : CacheManager) (k : string) (t : Z) :
  Cache.get_analysis_cache cm k t
  = (fst (Cache.lookup_fresh (analysis_cache cm) (cache_ttl cm) k t),
     Cache.with_analysis cm
       (snd (Cache.lookup_fresh (analysis_cache cm) (cache_ttl cm) k t))).
Proof. unfold Cache.get_analysis_cache. by destruct (Cache.lookup_fresh _ _ _ _). Qed.

(** X1.  The last write wins: after two [set_schema_cache] calls on the
    same key, a read within the TTL of the second write returns the
    second value and leaves the manager as it is, and the manager is the
    one a single write of the second value gives: the first entry and
    its timestamp leave no trace. *)
Theorem cache_last_write_wins (cm : CacheManager) (key : string)
    (v1 v2 : option schema_t) (t0 t1 t : Z) :
  t - t1 < cache_ttl cm * 1000000 ->
  let cm2 := Cache.set_schema_cache (Cache.set_schema_cache cm key v1 t0) key v2 t1 in
  Cache.get_schema_cache cm2 key t = (v2, cm2)
  /\ cm2 = Cache.set_schema_cache cm key v2 t1.
Proof.
  intros Hlt cm2.
  assert (cm2 = Cache.set_schema_cache cm key v2 t1) as Heq.
  { unfold cm2, Cache.set_schema_cache, Cache.with_schema. simpl.
    by rewrite insert_insert_eq. }
  split; [| done]. rewrite Heq, get_schema_cache_eq.
  unfold Cache.set_schema_cache. cbn [schema_cache cache_ttl Cache.with_schema].
  rewrite lookup_fresh_hit by done. by destruct cm.
Qed.

(** X2.  The cache entries are independent.  Writing one schema key
    does not change what a read of another key returns; reading one key,
    which may delete it when expired, leaves every other key's entry in
    place; and neither operation on the schema cache touches the
    analysis cache. *)
Theorem cache_other_keys_untouched (cm : CacheManager) (key key' : string)
    (v : option schema_t) (t0 t : Z) :
  key <> key' ->
  fst (Cache.get_schema_cache (Cache.set_schema_cache cm key v t0) key' t)
    = fst (Cache.get_schema_cache cm key' t)
  /\ schema_cache (snd (Cache.get_schema_cache cm key t)) !! key' = schema_cache cm !! key'
  /\ analysis_cache (Cache.set_schema_cache cm key v t0) = analysis_cache cm
  /\ analysis_cache (snd (Cache.get_schema_cache cm key t)) = analysis_cache cm.
Proof.
  intros Hne. rewrite !get_schema_cache_eq. cbn [fst snd].
  unfold Cache.set_schema_cache. cbn [schema_cache cache_ttl analysis_cache Cache.with_schema].
  split; [by apply lookup_fresh_insert_other |].
  split; [by apply lookup_fresh_other | done].
Qed.

End CacheMore.

(** ** analyze_json_schema and the cache *)

Section AnalyzeCache.
Context `{Library}.
Local Open Scope Z_scope.

(** The manager after a cache miss of [analyze_json_schema]: the entry
    is (re)written, whether it was absent, expired or holding [None]. *)
Lemma snd_lookup_fresh_insert {A} (c : gmap string (cached_item A)) (ttl : Z)
    (k : string) (now : Z) (item : cached_item A) :
  <[k := item]> (snd (Cache.lookup_fresh c ttl k now)) = <[k := item]> c.
Proof.
  unfold Cache.lookup_fresh. destruct (c !! k) as [it|]; [| done].
  destruct (total_seconds_lt _ _ _); [done |]. simpl. apply insert_delete_eq.
Qed.

Lemma analyze_miss (cm : CacheManager) (d : json_data) (k : value) (t1 t2 : Z) :
  truthy d = true ->
  fst (Cache.get_schema_cache cm (Cache.get_cache_key d [k]) t1) = None ->
  analyze_json_schema cm d k t1 t2
  = (Some (assemble d),
     Cache.set_schema_cache cm (Cache.get_cache_key d [k]) (Some (assemble d)) t2).
Proof.
  intros Hd Hmiss. rewrite analyze_truthy by done.
  rewrite get_schema_cache_eq in *. cbn [fst] in Hmiss. rewrite Hmiss.
  unfold Cache.set_schema_cache.
  cbn [schema_cache Cache.with_schema analysis_cache visualization_cache cache_ttl].
  by rewrite snd_lookup_fresh_insert.
Qed.

Lemma analyze_hit (cm : CacheManager) (d : json_data) (k : value) (t1 t2 : Z)
    (s : schema_t) (ts : Z) :
  truthy d = true ->
  schema_cache cm !! Cache.get_cache_key d [k] = Some {| data := Some s; timestamp := ts |} ->
  t1 - ts < cache_ttl cm * 1000000 ->
  analyze_json_schema cm d k t1 t2 = (Some s, cm).
Proof.
  intros Hd Hk Hlt. rewrite analyze_truthy by done.
  rewrite get_schema_cache_eq. unfold Cache.lookup_fresh, total_seconds_lt.
  rewrite Hk. cbn [timestamp data].
  destruct (Z.ltb_spec (t1 - ts) (cache_ttl cm * 1000000)); [| lia].
  cbn [fst snd]. by rewrite with_schema_id.
Qed.

(** X4.  Analysing a non-empty document twice: when the first call
    misses the cache it returns the assembled schema and stores it, and a
    second call on the resulting manager, made within the TTL of that
    store, returns the same schema from the cache and leaves the manager
    unchanged. *)
Theorem analyze_twice_within_ttl (cm : CacheManager) (d : json_data) (k : value)
    (t1 t2 t3 t4 : Z) :
  truthy d = true ->
  fst (Cache.get_schema_cache cm (Cache.get_cache_key d [k]) t1) = None ->
  t3 - t2 < cache_ttl cm * 1000000 ->
  let cm1 := snd (analyze_json_schema cm d k t1 t2) in
  fst (analyze_json_schema cm d k t1 t2) = Some (assemble d)
  /\ analyze_json_schema cm1 d k t3 t4 = (Some (assemble d), cm1).
Proof.
  intros Hd Hmiss Hlt cm1. unfold cm1.
  rewrite (analyze_miss cm d k t1 t2 Hd Hmiss). cbn [fst snd].
  split; [done |].
  apply analyze_hit with t2; [done | | done].
  unfold Cache.set_schema_cache. cbn [schema_cache Cache.with_schema].
  apply lookup_insert_eq.
Qed.

Lemma truthy_cons (r : record) (rs : list record) : truthy (JArray (r :: rs)) = true.
Proof. reflexivity. Qed.

(** X5.  The cache key of an array depends on its length and first
    record only.  So after an array has been analysed under a data key, a
    different array with the same first record and the same length,
    analysed under that data key within the TTL, gets the schema of the
    first array, not its own. *)
Theorem analyze_fingerprint_collision (cm : CacheManager) (first : record)
    (rest1 rest2 : list record) (k : value) (t1 t2 t3 t4 : Z) :
  length rest1 = length rest2 ->
  fst (Cache.get_schema_cache cm (Cache.get_cache_key (JArray (first :: rest1)) [k]) t1)
    = None ->
  t3 - t2 < cache_ttl cm * 1000000 ->
  let cm1 := snd (analyze_json_schema cm (JArray (first :: rest1)) k t1 t2) in
  analyze_json_schema cm1 (JArray (first :: rest2)) k t3 t4
  = (Some (assemble (JArray (first :: rest1))), cm1).
Proof.
  intros Hlen Hmiss Hlt cm1. unfold cm1.
  rewrite (analyze_miss cm (JArray (first :: rest1)) k t1 t2 (truthy_cons _ _) Hmiss).
  cbn [snd].
  apply analyze_hit with t2; [apply truthy_cons | | done].
  unfold Cache.set_schema_cache. cbn [schema_cache Cache.with_schema].
  assert (Cache.get_cache_key (JArray (first :: rest2)) [k]
          = Cache.get_cache_key (JArray (first :: rest1)) [k]) as ->.
  { unfold Cache.get_cache_key. simpl length. by rewrite Hlen. }
  apply lookup_insert_eq.
Qed.

(** X6.  An expired entry is not served: when the schema stored for a
    non-empty document is [cache_ttl] seconds old or older, the schema is
    assembled again and stored under the same key with the new
    timestamp. *)
Theorem analyze_after_expiry (cm : CacheManager) (d : json_data) (k : value)
    (s : schema_t) (ts t1 t2 : Z) :
  truthy d = true ->
  schema_cache cm !! Cache.get_cache_key d [k] = Some {| data := Some s; timestamp := ts |} ->
  cache_ttl cm * 1000000 <= t1 - ts ->
  analyze_json_schema cm d k t1 t2
  = (Some (assemble d),
     Cache.set_schema_cache cm (Cache.get_cache_key d [k]) (Some (assemble d)) t2).
Proof.
  intros Hd Hk Hge. apply analyze_miss; [done |].
  rewrite get_schema_cache_eq. unfold Cache.lookup_fresh, total_seconds_lt.
  rewrite Hk. cbn [timestamp data fst].
  by destruct (Z.ltb_spec (t1 - ts) (cache_ttl cm * 1000000)); [lia |].
Qed.

(** X3.  After [clear_cache] nothing is served from the cache: the next
    analysis of a non-empty document assembles its schema afresh, its
    entry is then the only one in the schema cache, and the configured
    TTL has survived the clearing. *)
Theorem analyze_after_clear_cache (cm : CacheManager) (d : json_data) (k : value)
    (t1 t2 : Z) :
  truthy d = true ->
  let r := analyze_json_schema (Cache.clear_cache cm) d k t1 t2 in
  fst r = Some (assemble d)
  /\ schema_cache (snd r)
     = {[ Cache.get_cache_key d [k] := {| data := Some (assemble d); timestamp := t2 |} ]}
  /\ analysis_cache (snd r) = ∅
  /\ cache_ttl (snd r) = cache_ttl cm.
Proof.
  intros Hd r. unfold r. rewrite (analyze_miss (Cache.clear_cache cm) d k t1 t2 Hd); [| done].
  done.
Qed.

End AnalyzeCache.

Lemma cache_last_write_wins_witness :
  let cm2 :=
    Cache.set_schema_cache
      (Cache.set_schema_cache Cache.init "k" None 0)
      "k" (Some (assemble Examples.sales)) 1000000 in
  Cache.get_schema_cache cm2 "k" 2000000 = (Some (assemble Examples.sales), cm2)
  /\ cm2 = Cache.set_schema_cache Cache.init "k" (Some (assemble Examples.sales)) 1000000.
Proof.
  apply (cache_last_write_wins Cache.init "k" None (Some (assemble Examples.sales))
           0 1000000 2000000).
  simpl. lia.
Defined.

Lemma cache_other_keys_untouched_witness :
  fst (Cache.get_schema_cache
         (Cache.set_schema_cache Cache.init "a" (Some (assemble Examples.sales)) 0) "b" 5)
  = fst (Cache.get_schema_cache Cache.init "b" 5).
Proof.
  apply (cache_other_keys_untouched Cache.init "a" "b" (Some (assemble Examples.sales)) 0 5).
  discriminate.
Defined.

Lemma analyze_twice_within_ttl_witness :
  let cm1 := snd (analyze_json_schema Cache.init Examples.sales (VStr "tab") 0 10) in
  fst (analyze_json_schema Cache.init Examples.sales (VStr "tab") 0 10)
  = Some (assemble Examples.sales)
  /\ analyze_json_schema cm1 Examples.sales (VStr "tab") 299000000 299000005
     = (Some (assemble Examples.sales), cm1).
Proof.
  apply (analyze_twice_within_ttl Cache.init Examples.sales (VStr "tab") 0 10
           299000000 299000005); [reflexivity | reflexivity | simpl; lia].
Defined.

Lemma analyze_fingerprint_collision_witness :
  let first_array := JArray [Examples.acme; Examples.beta] in
  let second_array := JArray [Examples.acme; Scenarios.gamma_region] in
  let cm1 := snd (analyze_json_schema Cache.init first_array (VStr "tab") 0 10) in
  analyze_json_schema cm1 second_array (VStr "tab") 20 30
  = (Some (assemble first_array), cm1).
Proof.
  apply (analyze_fingerprint_collision Cache.init Examples.acme
           [Examples.beta] [Scenarios.gamma_region] (VStr "tab") 0 10 20 30);
    [reflexivity | reflexivity | simpl; lia].
Defined.

(** The two arrays of the scenario have different schemas: the second
    one has a [region] column. *)
Example fingerprint_collision_schemas_differ :
  map fst (columns (assemble (JArray [Examples.acme; Examples.beta])))
  = ["customer"; "revenue"]
  /\ map fst (columns (assemble (JArray [Examples.acme; Scenarios.gamma_region])))
     = ["customer"; "revenue"; "region"].
Proof. vm_compute. split; reflexivity. Qed.

Lemma analyze_after_expiry_witness :
  let cm :=
    Cache.set_schema_cache Cache.init
      (Cache.get_cache_key Examples.sales [VStr "tab"])
      (Some (assemble Examples.text_revenue)) 0 in
  analyze_json_schema cm Examples.sales (VStr "tab") 300000000 300000001
  = (Some (assemble Examples.sales),
     Cache.set_schema_cache cm (Cache.get_cache_key Examples.sales [VStr "tab"])
       (Some (assemble Examples.sales)) 300000001).
Proof.
  apply (analyze_after_expiry
           (Cache.set_schema_cache Cache.init
              (Cache.get_cache_key Examples.sales [VStr "tab"])
              (Some (assemble Examples.text_revenue)) 0)
           Examples.sales (VStr "tab") (assemble Examples.text_revenue) 0
           300000000 300000001);
    [reflexivity | apply lookup_insert_eq | simpl; lia].
Defined.

Lemma analyze_after_clear_cache_witness :
  fst (analyze_json_schema (Cache.clear_cache Cache.init) Examples.sales (VStr "tab") 0 1)
  = Some (assemble Examples.sales).
Proof.
  apply (analyze_after_clear_cache Cache.init Examples.sales (VStr "tab") 0 1).
  reflexivity.
Defined.

Ltac case_if' :=
  match goal with |- context [if ?b then _ else _] => destruct b eqn:? end.

(** ** Column profiles *)

Section Profiles.
Context `{Library}.

Lemma analyze_columns_loop_entries (df : pd.DataFrame) (cols : list string)
    (acc res : list (string * analysis_t)) (e : string * analysis_t) :
  analyze_columns_loop df cols acc = Some res ->
  e ∈ res ->
  e ∈ acc \/ exists col, col ∈ cols /\ analyze_column df col = Some (Some e).
Proof.
  revert acc. induction cols as [|col cols IH]; intros acc; simpl.
  - intros [= <-] He. by left.
  - destruct (analyze_column df col) as [[entry|]|] eqn:E; [| | discriminate].
    + intros Hres He. destruct (IH _ Hres He) as [Hacc | [c [Hc Hcol]]].
      * apply elem_of_app in Hacc as [Hacc | Hnew]; [by left |].
        apply list_elem_of_singleton in Hnew as ->. right. exists col.
        split; [apply list_elem_of_here | done].
      * right. exists c. split; [by apply list_elem_of_further | done].
    + intros Hres He. destruct (IH _ Hres He) as [Hacc | [c [Hc Hcol]]]; [by left |].
      right. exists c. split; [by apply list_elem_of_further | done].
Qed.

Lemma analyze_columns_entry (d : json_data) (col : string) (a : analysis_t) :
  (col, a) ∈ _analyze_columns d ->
  exists r rs, d = JArray (r :: rs)
    /\ col ∈ pd.union_keys (r :: rs)
    /\ analyze_column (pd.mk (r :: rs)) col = Some (Some (col, a)).
Proof.
  destruct d as [[|r rs] | | | | | |]; simpl; try by intros ?%elem_of_nil.
  destruct (analyze_columns_loop _ _ _) as [res|] eqn:E; [| by intros ?%elem_of_nil].
  intros Hin. exists r, rs. split; [done |].
  destruct (analyze_columns_loop_entries _ _ _ _ _ E Hin) as [Hnil | [c [Hc Hcol]]];
    [by apply elem_of_nil in Hnil |].
  pose proof (analyze_column_name _ _ _ Hcol) as Hname. simpl in Hname. subst c.
  done.
Qed.

Lemma filter_null_split (cells : list value) :
  length (pd.dropna cells) + length (filter (fun v => is_null v = true) cells)
  = length cells.
Proof.
  unfold pd.dropna. induction cells as [|v cells IH]; [done |].
  rewrite !filter_cons. destruct (is_null v) eqn:E.
  - rewrite decide_False by done. rewrite decide_True by done. simpl. lia.
  - rewrite decide_True by done. rewrite decide_False by done. simpl. lia.
Qed.

(** X7.  Every profile that [_analyze_columns] returns is consistent
    with the data: it is filed under its own column name, that column
    occurs in some record, it has at least one value that is not null,
    its null and non-null counts add up to the number of records, and
    its numeric flag and unique count are those the library reports for
    the column. *)
Theorem profile_entry_invariants (d : json_data) (col : string) (a : analysis_t) :
  (col, a) ∈ _analyze_columns d ->
  name a = col
  /\ 0 < non_null_count a
  /\ non_null_count a + null_count a = len_json d
  /\ (forall rs, d = JArray rs ->
        col ∈ pd.union_keys rs
        /\ non_null_count a = length (pd.dropna (pd.col (pd.mk rs) col))
        /\ is_numeric a = is_numeric_dtype (pd.col (pd.mk rs) col)
        /\ nunique (pd.col (pd.mk rs) col) = Some (unique_count a)).
Proof.
  intros Hin. destruct (analyze_columns_entry d col a Hin) as (r & rs & -> & Hkey & Hcol).
  unfold analyze_column in Hcol.
  case_bool_decide as Hempty; [discriminate |].
  destruct (nunique _) as [u|] eqn:Hu; [| discriminate].
  injection Hcol as <-. cbn [name non_null_count null_count is_numeric unique_count].
  split; [done |]. split.
  { destruct (pd.dropna _); [done | simpl; lia]. }
  split.
  { rewrite filter_null_split. unfold pd.col. rewrite length_map. reflexivity. }
  intros rs' [= <-]. by rewrite Hu.
Qed.

Lemma dropna_all_null (cells : list value) :
  Forall (fun v => is_null v = true) cells -> pd.dropna cells = [].
Proof.
  unfold pd.dropna. induction 1 as [|v cells Hv _ IH]; [done |].
  rewrite filter_cons, decide_False; [done | congruence].
Qed.

(** X8.  A column whose cell is null (None or NaN, or absent) in every
    record gets no profile: [_analyze_columns] skips it, so it is in no
    metric group either. *)
Theorem all_null_column_dropped (rs : list record) (col : string) :
  (forall r, r ∈ rs -> is_null (pd.cell col r) = true) ->
  col ∉ map fst (_analyze_columns (JArray rs)).
Proof.
  intros Hnull Hin. apply list_elem_of_In, in_map_iff in Hin as [[c a] [Hc Hin]].
  simpl in Hc. subst c. apply list_elem_of_In in Hin.
  destruct (analyze_columns_entry _ col a Hin) as (r & rs' & [= ->] & _ & Hcol).
  unfold analyze_column in Hcol.
  rewrite dropna_all_null in Hcol.
  - by rewrite bool_decide_eq_true_2 in Hcol.
  - unfold pd.col. simpl pd.rows. apply Forall_forall. intros v Hv.
    apply list_elem_of_In, in_map_iff in Hv as [r0 [<- Hr0]].
    apply Hnull. by apply list_elem_of_In.
Qed.

Lemma analyze_columns_loop_total (df : pd.DataFrame) (cols : list string)
    (acc : list (string * analysis_t)) :
  (forall c, c ∈ cols -> nunique (pd.col df c) <> None) ->
  exists res, analyze_columns_loop df cols acc = Some res
    /\ map fst res
       = map fst acc ++ filter (fun c => pd.dropna (pd.col df c) <> []) cols.
Proof.
  revert acc. induction cols as [|col cols IH]; intros acc Hok; simpl.
  - exists acc. by rewrite app_nil_r.
  - assert (forall c, c ∈ cols -> nunique (pd.col df c) <> None) as Hok'.
    { intros c Hc. apply Hok. by apply list_elem_of_further. }
    unfold analyze_column. rewrite filter_cons.
    case_bool_decide as Hempty.
    + rewrite decide_False by (by intros ?). apply IH, Hok'.
    + rewrite decide_True by done.
      destruct (nunique (pd.col df col)) as [u|] eqn:Hu.
      * match goal with
        | |- context [analyze_columns_loop df cols (acc ++ [?e])] =>
            destruct (IH (acc ++ [e]) Hok') as [res [Hres Hnames]]
        end.
        exists res. split; [exact Hres |].
        rewrite Hnames, map_app. simpl. by rewrite <- app_assoc.
      * exfalso. apply (Hok col); [apply list_elem_of_here | done].
Qed.

(** X9.  When counting unique values fails for no column, the profiled
    columns of a non-empty array are exactly the data frame's columns
    that have a value which is not null, in column order. *)
Theorem profiled_columns_exact (r : record) (rs : list record) :
  let df := pd.mk (r :: rs) in
  (forall c, c ∈ pd.columns df -> nunique (pd.col df c) <> None) ->
  map fst (_analyze_columns (JArray (r :: rs)))
  = filter (fun c => pd.dropna (pd.col df c) <> []) (pd.columns df).
Proof.
  intros df Hok. unfold _analyze_columns. fold df.
  destruct (analyze_columns_loop_total df (pd.columns df) [] Hok) as [res [-> Hnames]].
  exact Hnames.
Qed.

End Profiles.

Lemma profile_entry_invariants_witness :
  name Examples.segment_analysis = "Segment"
  /\ 0 < non_null_count Examples.segment_analysis
  /\ non_null_count Examples.segment_analysis + null_count Examples.segment_analysis
     = len_json Examples.sales.
Proof.
  destruct (profile_entry_invariants (H := Reference.lib) Examples.sales "Segment"
              Examples.segment_analysis) as (Hn & Hpos & Hsum & _).
  - apply list_elem_of_In. vm_compute. tauto.
  - exact (conj Hn (conj Hpos Hsum)).
Defined.

Lemma all_null_column_dropped_witness :
  "note" ∉ map fst (_analyze_columns Scenarios.with_empty_column).
Proof.
  apply (all_null_column_dropped (H := Reference.lib)
           [[("item", VInt 1); ("note", VNone)]; [("item", VInt 2)]] "note").
  intros r Hr. apply list_elem_of_In in Hr. simpl in Hr.
  destruct Hr as [<- | [<- | []]]; reflexivity.
Defined.

Lemma profiled_columns_exact_witness :
  map fst (_analyze_columns Scenarios.with_empty_column) = ["item"].
Proof.
  apply (profiled_columns_exact (H := Reference.lib)
           [("item", VInt 1); ("note", VNone)] [[("item", VInt 2)]]).
  intros c Hc. apply list_elem_of_In in Hc. vm_compute in Hc.
  destruct Hc as [<- | [<- | []]]; vm_compute; discriminate.
Defined.

Section MetricsMore.
Context `{Library}.

Lemma placed_in_sublist (n : nat) (g : group) (cols : list (string * analysis_t)) :
  sublist (placed_in n g cols) (map fst cols).
Proof.
  induction cols as [|[c a] cols IH]; simpl; [constructor |].
  destruct (placed n c a) as [h|]; [destruct (group_eqb g h) |]; by constructor.
Qed.

Lemma placed_in_total (n : nat) (cols : list (string * analysis_t)) :
  length (placed_in n Revenue cols) + length (placed_in n Date cols)
  + length (placed_in n Categorical cols) + length (placed_in n Percentage cols)
  + length (placed_in n Id cols) <= length cols.
Proof.
  induction cols as [|[c a] cols IH]; simpl; [lia |].
  destruct (placed n c a) as [[] |]; simpl; lia.
Qed.

Lemma identify_metrics_placed_in (d : json_data) (g : group) :
  members g (_identify_metrics d) = placed_in (len_json d) g (_analyze_columns d).
Proof.
  unfold _identify_metrics. rewrite members_fold. by destruct g.
Qed.

(** X10.  The metric groups are well formed: no group lists a column
    twice, every listed column has a profile, and the groups together
    hold at most as many columns as there are profiles. *)
Theorem metric_groups_wellformed (d : json_data) :
  let m := _identify_metrics d in
  (forall g, NoDup (members g m)
             /\ forall c, c ∈ members g m -> c ∈ map fst (_analyze_columns d))
  /\ (total_metrics m <= Z.of_nat (length (_analyze_columns d)))%Z.
Proof.
  intros m. split.
  - intros g. unfold m. rewrite identify_metrics_placed_in.
    pose proof (placed_in_sublist (len_json d) g (_analyze_columns d)) as Hsub.
    split.
    + eapply sublist_NoDup; [| exact Hsub]. apply analyze_columns_NoDup.
    + intros c Hc. by apply (elem_of_sublist _ _ _ Hc Hsub).
  - unfold total_metrics, m.
    pose proof (identify_metrics_placed_in d Revenue) as Hr.
    pose proof (identify_metrics_placed_in d Date) as Hd.
    pose proof (identify_metrics_placed_in d Categorical) as Hc.
    pose proof (identify_metrics_placed_in d Percentage) as Hp.
    pose proof (identify_metrics_placed_in d Id) as Hi.
    simpl in Hr, Hd, Hc, Hp, Hi. rewrite Hr, Hd, Hc, Hp, Hi.
    pose proof (placed_in_total (len_json d) (_analyze_columns d)). lia.
Qed.

End MetricsMore.

(** ** Visualization suggestions *)

Section Suggestions.

Lemma nonempty_false {A} (l : list A) : nonempty l = false <-> l = [].
Proof. by destruct l. Qed.

(** X11.  [_suggest_visualizations] never returns an empty list, and it
    returns the fallback list table, bar_chart, summary_metrics exactly
    when no rule fires: no revenue, date or id column, and a data type
    other than geographic, customer and bridge. *)
Theorem suggest_visualizations_fallback (s : schema_t) :
  _suggest_visualizations s <> []
  /\ (_suggest_visualizations s = fallback_suggestions <-> no_rule_fires s).
Proof.
  unfold _suggest_visualizations, no_rule_fires, fallback_suggestions.
  destruct (nonempty (revenue_columns (metrics s))) eqn:Er,
           (nonempty (date_columns (metrics s))) eqn:Ed,
           (nonempty (id_columns (metrics s))) eqn:Ei,
           (String.eqb_spec (data_type s) "geographic") as [Eg|Eg],
           (String.eqb_spec (data_type s) "customer") as [Ec|Ec],
           (String.eqb_spec (data_type s) "bridge") as [Eb|Eb];
    try apply nonempty_false in Er; try apply nonempty_false in Ed;
    try apply nonempty_false in Ei; simpl;
    (split; [discriminate |]); split;
    try discriminate;
    try (intros (Hr & Hd & Hi & ? & ? & ?);
         try rewrite Hr in Er; try rewrite Hd in Ed; try rewrite Hi in Ei;
         try discriminate; congruence);
    try done.
Qed.

End Suggestions.

(** ** Suffixes, splitting and replacing *)

Example endswith_ex :
  endswith "data/Q3.JSON" ".json" = false /\ endswith (lower "data/Q3.JSON") ".json" = true
  /\ endswith "abc" "" = true /\ endswith "" "a" = false.
Proof. repeat split. Qed.

Example split_ex :
  split "/" "a/b/c.json" = ["a"; "b"; "c.json"] /\ split "/" "c.json" = ["c.json"]
  /\ split "/" "" = [""] /\ split "_" "_acme__corp_" = [""; "acme"; ""; "corp"; ""].
Proof. repeat split. Qed.

Example replace_ex :
  replace ".json" "" "report.json.json" = "report"
  /\ replace " " "_" "Q3 report (v 2)" = "Q3_report_(v_2)"
  /\ replace "aa" "b" "aaa" = "ba" /\ replace "(" "" "(a)((b" = "a)b".
Proof. repeat split. Qed.

Example strip_ex :
  strip "/" "//data/acme/" = "data/acme" /\ strip "/" "///" = "" /\ strip "/" "a/b" = "a/b".
Proof. repeat split. Qed.

Section StrOps.

Lemma lower_app (a b : string) : lower (a +:+ b) = lower a +:+ lower b.
Proof.
  induction a as [|c a IH]; [by rewrite !app_nil_s |].
  simpl. rewrite !app_cons_s. simpl. by rewrite IH.
Qed.

Lemma endswith_spec (s t : string) : endswith s t = true <-> exists p, s = p +:+ t.
Proof.
  induction s as [|c s IH]; cbn [endswith].
  - rewrite orb_false_r. split.
    + intros Heq%String.eqb_eq. exists "". by rewrite app_nil_s.
    + intros [[|d p] Hp].
      * rewrite app_nil_s in Hp. subst. reflexivity.
      * rewrite app_cons_s in Hp. discriminate.
  - rewrite orb_true_iff, IH. split.
    + intros [Heq%String.eqb_eq | [p ->]].
      * exists "". by rewrite app_nil_s.
      * exists (String c p). by rewrite app_cons_s.
    + intros [[|d p] Hp].
      * left. rewrite app_nil_s in Hp. subst. apply String.eqb_refl.
      * right. rewrite app_cons_s in Hp. injection Hp as -> ->. by exists p.
Qed.

Lemma last_char_app (p t : string) : t <> "" -> last_char (p +:+ t) = last_char t.
Proof.
  intros Ht. induction p as [|c p IH]; [by rewrite app_nil_s |].
  rewrite app_cons_s. simpl. rewrite IH.
  destruct (p +:+ t) as [|d r] eqn:E; [| done].
  destruct p; [rewrite app_nil_s in E; by subst | rewrite app_cons_s in E; discriminate].
Qed.

Lemma str_in_char (c d : ascii) (s : string) :
  str_in (String c "") (String d s) = Ascii.eqb c d || str_in (String c "") s.
Proof. simpl. by rewrite andb_true_r. Qed.

Lemma split_not_nil (sep : ascii) (s : string) : split sep s <> [].
Proof.
  destruct s as [|c s]; simpl; [done |].
  destruct (Ascii.eqb c sep); [done |]. by destruct (split sep s).
Qed.

Lemma join_head (sep : string) (c : ascii) (w : string) (ws : list string) :
  join sep (String c w :: ws) = String c (join sep (w :: ws)).
Proof. destruct ws as [|w' ws]; [done |]. by rewrite !join_cons, app_cons_s. Qed.

(** Joining the parts gives the string back. *)
Lemma join_split (sep : ascii) (s : string) : join (String sep "") (split sep s) = s.
Proof.
  induction s as [|c s IH]; [done |]. simpl.
  pose proof (split_not_nil sep s) as Hne.
  destruct (split sep s) as [|w ws] eqn:E; [done |].
  destruct (Ascii.eqb_spec c sep) as [-> | Hc].
  - rewrite join_cons, IH, app_nil_s, app_cons_s. by rewrite app_nil_s.
  - by rewrite join_head, IH.
Qed.

(** No part contains the separator. *)
Lemma split_parts (sep : ascii) (s : string) :
  Forall (fun w => str_in (String sep "") w = false) (split sep s).
Proof.
  induction s as [|c s IH]; simpl; [by repeat constructor |].
  pose proof (split_not_nil sep s) as Hne.
  destruct (split sep s) as [|w ws] eqn:E; [done |].
  apply Forall_cons in IH as [Hw Hws].
  destruct (Ascii.eqb_spec c sep) as [-> | Hc].
  - by repeat constructor.
  - constructor; [| done]. rewrite str_in_char, Hw, orb_false_r.
    apply Ascii.eqb_neq. congruence.
Qed.

Lemma split_no_sep (sep : ascii) (s : string) :
  str_in (String sep "") s = false -> split sep s = [s].
Proof.
  induction s as [|c s IH]; [done |].
  rewrite str_in_char. intros [Hc Hs]%orb_false_iff. simpl.
  rewrite Ascii.eqb_sym, Hc. by rewrite IH.
Qed.

Lemma join_snoc (sep : string) (l : list string) (x : string) :
  l <> [] -> join sep (l ++ [x]) = join sep l +:+ sep +:+ x.
Proof.
  induction l as [|a l IH]; [done |]. intros _.
  destruct l as [|b l]; [done |].
  change ((a :: b :: l) ++ [x]) with (a :: b :: (l ++ [x])).
  rewrite !join_cons. change (b :: l ++ [x]) with ((b :: l) ++ [x]).
  rewrite IH by done. by rewrite !app_assoc_s.
Qed.

Lemma split_last (sep : ascii) (s : string) :
  split sep s = but_last (split sep s) ++ [last_part (split sep s)].
Proof. apply app_removelast_last, split_not_nil. Qed.

Lemma last_part_no_sep (sep : ascii) (s : string) :
  str_in (String sep "") (last_part (split sep s)) = false.
Proof.
  pose proof (split_parts sep s) as Hall. rewrite (split_last sep s) in Hall.
  apply Forall_app in Hall as [_ Hlast]. by apply Forall_cons in Hlast as [? _].
Qed.

(** A string that contains the separator is its leading parts, the
    separator and the last part. *)
Lemma split_decompose (sep : ascii) (s : string) :
  str_in (String sep "") s = true ->
  s = join (String sep "") (but_last (split sep s))
      +:+ String sep "" +:+ last_part (split sep s).
Proof.
  intros Hin. rewrite <- join_snoc.
  - by rewrite <- split_last, join_split.
  - intros Hnil. pose proof (join_split sep s) as Hjoin.
    rewrite (split_last sep s), Hnil in Hjoin. simpl in Hjoin.
    pose proof (last_part_no_sep sep s) as Hno. rewrite Hjoin in Hno. congruence.
Qed.

(** A suffix without the separator lies within the last part. *)
Lemma endswith_after_sep (sep : ascii) (x y t : string) :
  str_in (String sep "") t = false ->
  endswith (x +:+ String sep "" +:+ y) t = true -> endswith y t = true.
Proof.
  intros Ht. induction x as [|c x IH].
  - rewrite app_nil_s, app_cons_s, app_nil_s. cbn [endswith].
    intros [Heq%String.eqb_eq | Hy]%orb_true_iff; [| done].
    subst t. rewrite str_in_char, Ascii.eqb_refl in Ht. done.
  - rewrite app_cons_s. cbn [endswith].
    intros [Heq%String.eqb_eq | Hy]%orb_true_iff; [| by apply IH].
    subst t. rewrite <- app_cons_s in Ht.
    assert (str_in (String sep "") (String c x +:+ String sep "" +:+ y) = true) as Hin.
    { apply str_in_app_r, str_in_app_l. simpl. by rewrite Ascii.eqb_refl. }
    congruence.
Qed.

Lemma replace_char_cons (c : ascii) (new : string) (d : ascii) (s : string) :
  replace (String c "") new (String d s)
  = if Ascii.eqb c d then new +:+ replace (String c "") new s
    else String d (replace (String c "") new s).
Proof. unfold replace. simpl. by rewrite andb_true_r. Qed.

Lemma replace_char_app (c : ascii) (new a b : string) :
  replace (String c "") new (a +:+ b)
  = replace (String c "") new a +:+ replace (String c "") new b.
Proof.
  induction a as [|d a IH]; [by rewrite !app_nil_s |].
  rewrite app_cons_s, !replace_char_cons, IH.
  destruct (Ascii.eqb c d); [by rewrite app_assoc_s | by rewrite app_cons_s].
Qed.

(** After replacing a character by a text without it, the character is
    gone. *)
Lemma replace_char_gone (c : ascii) (new s : string) :
  str_in (String c "") new = false ->
  str_in (String c "") (replace (String c "") new s) = false.
Proof.
  intros Hnew. induction s as [|d s IH]; [done |].
  rewrite replace_char_cons. destruct (Ascii.eqb c d) eqn:E.
  - destruct (str_in (String c "") (new +:+ replace (String c "") new s)) eqn:Hin; [| done].
    apply str_in_spec in Hin as (a & b & Hab).
    exfalso. revert a Hab Hnew IH. generalize (replace (String c "") new s) as r.
    induction new as [|e new IHn]; intros r a Hab Hnew IH.
    + rewrite app_nil_s in Hab. subst r.
      assert (str_in (String c "") (a +:+ String c "" +:+ b) = true) as Hin.
      { apply str_in_app_r, str_in_app_l. simpl. by rewrite Ascii.eqb_refl. }
      congruence.
    + rewrite str_in_char in Hnew. apply orb_false_iff in Hnew as [Hce Hnew].
      rewrite app_cons_s in Hab. destruct a as [|x a].
      * rewrite app_nil_s, app_cons_s in Hab. injection Hab as Hx _.
        subst. by rewrite Ascii.eqb_refl in Hce.
      * rewrite app_cons_s in Hab. injection Hab as _ Hab. by apply (IHn r a).
  - by rewrite str_in_char, E, IH.
Qed.

(** A text without the character is left as it is. *)
Lemma replace_char_id (c : ascii) (new s : string) :
  str_in (String c "") s = false -> replace (String c "") new s = s.
Proof.
  induction s as [|d s IH]; [done |].
  rewrite str_in_char. intros [Hc Hs]%orb_false_iff.
  by rewrite replace_char_cons, Hc, IH.
Qed.

End StrOps.

(** ** Dicts in insertion order *)

Section Dicts.
Context {V : Type}.
Implicit Types (d : list (string * V)) (k : string) (v : V).

Lemma dict_set_fresh d k v : k ∉ PyDict.keys d -> PyDict.set d k v = d ++ [(k, v)].
Proof.
  induction d as [|[k' v'] d IH]; [done |]. simpl. intros Hk.
  apply not_elem_of_cons in Hk as [Hne Hk].
  destruct (String.eqb_spec k k'); [done |]. by rewrite IH.
Qed.

Lemma dict_keys_set_present d k v :
  k ∈ PyDict.keys d -> PyDict.keys (PyDict.set d k v) = PyDict.keys d.
Proof.
  induction d as [|[k' v'] d IH]; simpl; [by intros ?%elem_of_nil |].
  intros Hk. destruct (String.eqb_spec k k') as [-> | Hne]; [done |].
  apply elem_of_cons in Hk as [? | Hk]; [done |]. simpl. f_equal. by apply IH.
Qed.

Lemma dict_set_NoDup d k v : NoDup (PyDict.keys d) -> NoDup (PyDict.keys (PyDict.set d k v)).
Proof.
  intros Hnd. destruct (decide (k ∈ PyDict.keys d)) as [Hin | Hout].
  - by rewrite dict_keys_set_present.
  - rewrite dict_set_fresh by done. unfold PyDict.keys. rewrite map_app. simpl.
    apply NoDup_app. split; [done |]. split; [| apply NoDup_singleton].
    intros x Hx Hx'. apply list_elem_of_singleton in Hx'. by subst.
Qed.

Lemma dict_get_set_eq d k v : PyDict.get (PyDict.set d k v) k = Some v.
Proof.
  induction d as [|[k' v'] d IH]; simpl; [by rewrite String.eqb_refl |].
  destruct (String.eqb_spec k k') as [-> | Hne]; simpl.
  - by rewrite String.eqb_refl.
  - by destruct (String.eqb_spec k k').
Qed.

Lemma dict_get_set_ne d k k' v :
  k <> k' -> PyDict.get (PyDict.set d k v) k' = PyDict.get d k'.
Proof.
  intros Hne. induction d as [|[k0 v0] d IH]; simpl.
  - by destruct (String.eqb_spec k' k).
  - destruct (String.eqb_spec k k0) as [-> | Hk]; simpl.
    + by destruct (String.eqb_spec k' k0).
    + by rewrite IH.
Qed.

Lemma dict_get_elem d k v : PyDict.get d k = Some v -> (k, v) ∈ d.
Proof.
  induction d as [|[k' v'] d IH]; simpl; [done |].
  destruct (String.eqb_spec k k') as [-> | Hne].
  - intros [= ->]. apply list_elem_of_here.
  - intros Hget. by apply list_elem_of_further, IH.
Qed.

Lemma dict_get_None d k : PyDict.get d k = None -> k ∉ PyDict.keys d.
Proof.
  induction d as [|[k' v'] d IH]; simpl; [intros _; apply not_elem_of_nil |].
  destruct (String.eqb_spec k k') as [-> | Hne]; [done |].
  intros Hget. apply not_elem_of_cons. split; [done | by apply IH].
Qed.

Lemma dict_get_is_Some d k : k ∈ PyDict.keys d -> is_Some (PyDict.get d k).
Proof.
  intros Hk. destruct (PyDict.get d k) eqn:E; [done |].
  by apply dict_get_None in E.
Qed.

Lemma dict_elem_set d k v k' v' :
  (k', v') ∈ PyDict.set d k v -> (k' = k /\ v' = v) \/ (k', v') ∈ d.
Proof.
  induction d as [|[k0 v0] d IH]; simpl.
  - intros Hin%list_elem_of_singleton. left. by simplify_eq.
  - destruct (String.eqb_spec k k0) as [-> | Hne].
    + intros [Hin | Hin]%elem_of_cons; [left; by simplify_eq |].
      right. by apply list_elem_of_further.
    + intros [Hin | Hin]%elem_of_cons.
      * right. rewrite Hin. apply list_elem_of_here.
      * destruct (IH Hin) as [? | ?]; [by left | right; by apply list_elem_of_further].
Qed.

Lemma dict_key_elem d k v : (k, v) ∈ d -> k ∈ PyDict.keys d.
Proof.
  intros Hin. apply list_elem_of_In. apply list_elem_of_In in Hin.
  change k with (fst (k, v)). by apply in_map.
Qed.

End Dicts.

(** ** S3 discovery *)

Section Discovery.
Import S3DataDiscovery.

Lemma slash_string : String slash "" = "/".
Proof. reflexivity. Qed.

(** A key that ends in [.json], in whatever case, does not end in a
    slash. *)
Lemma json_key_no_trailing_slash (k : string) :
  endswith (lower k) ".json" = true -> endswith k "/" = false.
Proof.
  intros [q Hq]%endswith_spec. destruct (endswith k "/") eqn:E; [| done].
  apply endswith_spec in E as [p ->].
  rewrite lower_app in Hq. apply (f_equal last_char) in Hq.
  rewrite !last_char_app in Hq by done. discriminate.
Qed.

(** X12.  The file information built for a listed key takes the key
    apart without loss: the file name has no slash; a key with a slash
    is the folder path, a slash and the file name, and a key without one
    is the file name, with an empty folder path; and when the key ends
    in [.json], in whatever case, so does the file name and the key is
    accepted: the second test of the filter, that the key does not end
    in a slash, never rejects anything. *)
Theorem file_info_decomposes_key (obj : s3_object) :
  let fi := mk_file_info obj in
  str_in "/" (file_name fi) = false
  /\ Key obj = (if str_in "/" (Key obj)
                then folder_path fi +:+ "/" +:+ file_name fi
                else file_name fi)
  /\ (if str_in "/" (Key obj) then True else folder_path fi = "")
  /\ is_json_key (Key obj) = endswith (lower (Key obj)) ".json"
  /\ is_json_key (Key obj) = endswith (lower (file_name fi)) ".json".
Proof.
  intros fi. unfold fi, mk_file_info. cbn [file_name folder_path].
  assert (is_json_key (Key obj) = endswith (lower (Key obj)) ".json") as Hjson.
  { unfold is_json_key. destruct (endswith (lower (Key obj)) ".json") eqn:E; [| done].
    by rewrite json_key_no_trailing_slash. }
  split; [apply (last_part_no_sep slash) |].
  destruct (str_in "/" (Key obj)) eqn:Hin.
  - pose proof (split_decompose slash (Key obj) Hin) as Hkey.
    split; [exact Hkey |]. split; [done |]. split; [done |].
    rewrite Hjson. rewrite Hkey at 1. rewrite !lower_app.
    destruct (endswith (lower (last_part (split slash (Key obj)))) ".json") eqn:E.
    + apply endswith_spec in E as [p Hp]. apply endswith_spec.
      exists (lower (join "/" (but_last (split slash (Key obj)))) +:+ lower "/" +:+ p).
      rewrite Hp. by rewrite !app_assoc_s.
    + match goal with
      | |- endswith ?x ".json" = false => destruct (endswith x ".json") eqn:E'; [| done]
      end.
      apply (endswith_after_sep slash) in E'; [congruence | done].
  - rewrite (split_no_sep slash) by done. by cbn.
Qed.

Lemma scan_contents_app (files : list (string * file_info)) (xs ys : list s3_object) :
  scan_contents files (xs ++ ys) = scan_contents (scan_contents files xs) ys.
Proof. unfold scan_contents. apply fold_left_app. Qed.

Lemma scan_pages_from (files : list (string * file_info))
    (pages : list (option (list s3_object))) :
  fold_left
    (fun files page =>
       match page with
       | None => files
       | Some contents => scan_contents files contents
       end) pages files
  = scan_contents files (listed pages).
Proof.
  revert files. induction pages as [|[contents|] pages IH]; intros files; simpl.
  - done.
  - unfold listed. simpl. rewrite scan_contents_app. apply IH.
  - apply IH.
Qed.

Lemma scan_pages_listed (pages : list (option (list s3_object))) :
  scan_pages pages = scan_contents [] (listed pages).
Proof. apply scan_pages_from. Qed.

Lemma scan_contents_sound (objs seen : list s3_object) (files : list (string * file_info)) :
  scanned_from seen files ->
  (forall obj, obj ∈ objs -> obj ∈ seen) ->
  scanned_from seen (scan_contents files objs).
Proof.
  revert files. induction objs as [|obj objs IH]; intros files Hinv Hsub; [done |].
  unfold scan_contents. simpl. apply IH.
  - destruct (is_json_key (Key obj)) eqn:Hjson; [| done].
    destruct Hinv as [Hnd Hall]. split; [by apply dict_set_NoDup |].
    intros k fi [[-> ->] | Hin]%dict_elem_set; [| by apply Hall].
    split; [done |]. exists obj. split; [apply Hsub, list_elem_of_here | done].
  - intros o Ho. by apply Hsub, list_elem_of_further.
Qed.

Lemma scan_contents_keeps (objs : list s3_object) (files : list (string * file_info))
    (k : string) :
  k ∈ PyDict.keys files -> k ∈ PyDict.keys (scan_contents files objs).
Proof.
  revert files. induction objs as [|obj objs IH]; intros files Hk; [done |].
  unfold scan_contents. simpl. apply IH.
  destruct (is_json_key (Key obj)); [| done].
  destruct (decide (Key obj ∈ PyDict.keys files)) as [Hin | Hout].
  - by rewrite dict_keys_set_present.
  - rewrite dict_set_fresh by done. unfold PyDict.keys. rewrite map_app.
    apply elem_of_app. by left.
Qed.

Lemma scan_contents_complete (objs : list s3_object) (files : list (string * file_info))
    (obj : s3_object) :
  obj ∈ objs -> is_json_key (Key obj) = true ->
  Key obj ∈ PyDict.keys (scan_contents files objs).
Proof.
  revert files. induction objs as [|o objs IH]; intros files Hin Hjson;
    [by apply elem_of_nil in Hin |].
  apply elem_of_cons in Hin as [<- | Hin].
  - unfold scan_contents. simpl. rewrite Hjson. apply scan_contents_keeps.
    apply (dict_key_elem _ _ (mk_file_info obj)), dict_get_elem, dict_get_set_eq.
  - unfold scan_contents. simpl. by apply IH.
Qed.

(** X13.  What a scan of the bucket listing returns is a well-formed
    dict of the JSON files: no key occurs twice; every entry is filed
    under the key of a listed object that passes the JSON test and
    carries the file information of such an object; and every listed
    object that passes the test has an entry.  Pages without contents
    contribute nothing. *)
Theorem scan_pages_wellformed (pages : list (option (list s3_object))) :
  let files := scan_pages pages in
  NoDup (PyDict.keys files)
  /\ (forall k fi, (k, fi) ∈ files ->
        is_json_key k = true /\ key fi = k
        /\ exists obj, obj ∈ listed pages /\ Key obj = k /\ fi = mk_file_info obj)
  /\ (forall obj, obj ∈ listed pages -> is_json_key (Key obj) = true ->
        is_Some (PyDict.get files (Key obj))).
Proof.
  intros files. unfold files. rewrite scan_pages_listed.
  destruct (scan_contents_sound (listed pages) (listed pages) []) as [Hnd Hall].
  { split; [constructor | by intros k fi ?%elem_of_nil]. }
  { done. }
  split; [done |]. split.
  - intros k fi Hin. destruct (Hall k fi Hin) as (Hjson & obj & Hobj & Hk & ->).
    split; [done |]. split; [done |]. by exists obj.
  - intros obj Hobj Hjson. by apply dict_get_is_Some, scan_contents_complete.
Qed.

End Discovery.

(** ** File categories *)

Section Categories.
Import S3DataDiscovery.

Lemma concat_set_append {A} (d : list (string * list A)) (k : string) (v : list A) (f : A) :
  PyDict.get d k = Some v ->
  concat (map snd (PyDict.set d k (v ++ [f]))) ≡ₚ f :: concat (map snd d).
Proof.
  induction d as [|[k' v'] d IH]; simpl; [done |].
  destruct (String.eqb_spec k k') as [-> | Hne].
  - intros [= ->]. simpl. rewrite <- app_assoc. simpl.
    by rewrite <- Permutation_middle.
  - intros Hget. simpl. rewrite IH by done. by rewrite <- Permutation_middle.
Qed.

Lemma concat_append_to (categories : list (string * list categorized_file))
    (c : string) (f : categorized_file) :
  concat (map snd (append_to categories c f)) ≡ₚ f :: concat (map snd categories).
Proof.
  unfold append_to. destruct (PyDict.get categories c) as [files|] eqn:E.
  - by apply concat_set_append.
  - rewrite dict_set_fresh by (by apply dict_get_None).
    rewrite map_app, concat_app. simpl. by rewrite <- Permutation_cons_append.
Qed.

Lemma append_to_filed (categories : list (string * list categorized_file))
    (f : categorized_file) :
  filed categories -> filed (append_to categories (category_of (info f)) f).
Proof.
  intros [Hnd Hall]. unfold append_to.
  destruct (PyDict.get categories (category_of (info f))) as [files|] eqn:E.
  - split; [by apply dict_set_NoDup |].
    intros c fs [[-> ->] | Hin]%dict_elem_set; [| by apply Hall].
    split; [by destruct files |].
    intros g [Hg | ->%list_elem_of_singleton]%elem_of_app; [| done].
    apply dict_get_elem in E. by apply (Hall _ _ E).
  - split; [by apply dict_set_NoDup |].
    intros c fs [[-> ->] | Hin]%dict_elem_set; [| by apply Hall].
    split; [done |]. by intros g ->%list_elem_of_singleton.
Qed.

Lemma get_file_categories_from (files : list (string * file_info))
    (categories : list (string * list categorized_file)) :
  filed categories ->
  let result :=
    fold_left
      (fun categories '(key, file_info) =>
         append_to categories (category_of file_info)
           {| info := file_info; original_key := key |})
      files categories in
  filed result
  /\ concat (map snd result) ≡ₚ map categorized files ++ concat (map snd categories).
Proof.
  revert categories. induction files as [|[k fi] files IH]; intros categories Hf; [done |].
  simpl.
  destruct (IH (append_to categories (category_of fi) {| info := fi; original_key := k |}))
    as [Hfiled Hperm].
  { by apply (append_to_filed categories {| info := fi; original_key := k |}). }
  split; [done |]. rewrite Hperm, concat_append_to.
  by rewrite <- Permutation_middle.
Qed.

(** X14.  [get_file_categories] partitions the discovered files: the
    categories have distinct names and none is empty, every file listed
    under a category is one whose name or folder selects that category,
    and the category lists taken together are the discovered files, each
    with its key, no file lost and none filed twice. *)
Theorem file_categories_partition (files : list (string * file_info)) :
  let categories := get_file_categories files in
  NoDup (PyDict.keys categories)
  /\ (forall c fs, (c, fs) ∈ categories ->
        fs <> [] /\ forall f, f ∈ fs -> category_of (info f) = c)
  /\ concat (map snd categories) ≡ₚ map categorized files.
Proof.
  intros categories. unfold categories, get_file_categories.
  destruct (get_file_categories_from files []) as [[Hnd Hall] Hperm].
  { split; [constructor | by intros c fs ?%elem_of_nil]. }
  split; [done |]. split; [done |]. by rewrite Hperm, app_nil_r.
Qed.

End Categories.

(** ** The S3 reader *)

Section Reader.
Import S3DataDiscovery S3JSONReader.

Lemma filter_fold_fresh (P : file_info -> bool) (files acc : list (string * file_info)) :
  NoDup (PyDict.keys (acc ++ files)) ->
  fold_left
    (fun company_files '(file_key, file_info) =>
       if P file_info then PyDict.set company_files file_key file_info
       else company_files)
    files acc
  = acc ++ filter (fun p => P (snd p) = true) files.
Proof.
  revert acc. induction files as [|[k fi] files IH]; intros acc Hnd; simpl.
  - by rewrite app_nil_r.
  - rewrite filter_cons. simpl.
    assert (k ∉ PyDict.keys acc) as Hfresh.
    { unfold PyDict.keys in *. rewrite map_app in Hnd. simpl in Hnd.
      apply NoDup_app in Hnd as (_ & Hdisj & _). intros Hk.
      apply (Hdisj k Hk). apply list_elem_of_here. }
    destruct (P fi) eqn:E.
    + rewrite decide_True by done. rewrite dict_set_fresh by done.
      rewrite IH; [by rewrite <- app_assoc |].
      by rewrite <- app_assoc.
    + rewrite decide_False by congruence. apply IH.
      unfold PyDict.keys in *. rewrite map_app in *. simpl in Hnd.
      apply NoDup_app in Hnd as (Hacc & Hdisj & Hrest).
      apply NoDup_app. split; [done |]. split.
      * intros x Hx Hx'. apply (Hdisj x Hx). by apply list_elem_of_further.
      * by apply NoDup_cons in Hrest as [_ ?].
Qed.

Lemma filter_company_files_filter (files : list (string * file_info)) (company_name : string) :
  NoDup (PyDict.keys files) ->
  _filter_company_files files company_name
  = filter
      (fun p => belongs (replace "-" "_" (replace " " "_" (lower company_name))) (snd p) = true)
      files.
Proof.
  intros Hnd. unfold _filter_company_files.
  by rewrite (filter_fold_fresh (belongs _) files []).
Qed.

Lemma filter_all {A} (P : A -> Prop) `{!forall x, Decision (P x)} (l : list A) :
  (forall x, x ∈ l -> P x) -> filter P l = l.
Proof.
  induction l as [|x l IH]; [done |]. intros Hall.
  rewrite filter_cons, decide_True by (apply Hall, list_elem_of_here).
  f_equal. apply IH. intros y Hy. by apply Hall, list_elem_of_further.
Qed.

(** X15.  On a dict of discovered files, [_filter_company_files] keeps
    exactly the files that pass its test, in their order and under their
    keys; and a file whose folder path mentions neither company nor
    client passes for every company name, so such files are handed to
    each company. *)
Theorem filter_company_files_spec (files : list (string * file_info))
    (company_name : string) :
  NoDup (PyDict.keys files) ->
  _filter_company_files files company_name
  = filter
      (fun p => belongs (replace "-" "_" (replace " " "_" (lower company_name))) (snd p) = true)
      files
  /\ forall k fi, (k, fi) ∈ files ->
       str_in "company" (lower (folder_path fi)) = false ->
       str_in "client" (lower (folder_path fi)) = false ->
       (k, fi) ∈ _filter_company_files files company_name.
Proof.
  intros Hnd. split; [by apply filter_company_files_filter |].
  intros k fi Hin Hco Hcl. rewrite filter_company_files_filter by done.
  apply list_elem_of_filter. split; [| done].
  unfold belongs. simpl. rewrite Hco, Hcl. simpl. by rewrite !orb_true_r.
Qed.

Lemma str_in_empty (s : string) : str_in "" s = true.
Proof. by destruct s. Qed.

Lemma split_trailing (sep : ascii) (x : string) :
  exists l, l <> [] /\ split sep (x +:+ String sep "") = l ++ [""].
Proof.
  induction x as [|c x (l & Hl & IH)].
  - exists [""]. split; [done |]. rewrite app_nil_s. simpl. by rewrite Ascii.eqb_refl.
  - rewrite app_cons_s. simpl. rewrite IH. destruct (Ascii.eqb c sep).
    + exists ("" :: l). by split.
    + destruct l as [|w l]; [done |]. exists (String c w :: l). by split.
Qed.

Lemma empty_part_selects_all (n : string) (fi : file_info) :
  "" ∈ split underscore n -> belongs n fi = true.
Proof.
  intros Hin. unfold belongs.
  assert (existsb (fun part => str_in part (lower (folder_path fi))) (split underscore n) = true)
    as ->.
  { apply existsb_exists. exists "". split; [by apply list_elem_of_In | apply str_in_empty]. }
  by rewrite !orb_true_r.
Qed.

Lemma normalise_trailing (name sep : string) :
  sep ∈ [" "; "-"; "_"] ->
  replace "-" "_" (replace " " "_" (lower (name +:+ sep)))
  = replace "-" "_" (replace " " "_" (lower name)) +:+ "_".
Proof.
  intros Hsep. rewrite lower_app, !replace_char_app.
  f_equal. apply list_elem_of_In in Hsep. simpl in Hsep.
  destruct Hsep as [<- | [<- | [<- | []]]]; reflexivity.
Qed.

Lemma normalise_leading (name sep : string) :
  sep ∈ [" "; "-"; "_"] ->
  replace "-" "_" (replace " " "_" (lower (sep +:+ name)))
  = "_" +:+ replace "-" "_" (replace " " "_" (lower name)).
Proof.
  intros Hsep. rewrite lower_app, !replace_char_app.
  f_equal. apply list_elem_of_In in Hsep. simpl in Hsep.
  destruct Hsep as [<- | [<- | [<- | []]]]; reflexivity.
Qed.

(** X16.  A company name that ends or starts with a blank, a hyphen or
    an underscore, and the empty name, select every discovered file:
    splitting the normalised name at the underscores gives an empty
    part, and the empty string occurs in every folder path. *)
Theorem filter_company_files_separator_edge (files : list (string * file_info))
    (name sep : string) :
  NoDup (PyDict.keys files) ->
  sep ∈ [" "; "-"; "_"] ->
  _filter_company_files files (name +:+ sep) = files
  /\ _filter_company_files files (sep +:+ name) = files
  /\ _filter_company_files files "" = files.
Proof.
  intros Hnd Hsep. rewrite !filter_company_files_filter by done.
  rewrite normalise_trailing, normalise_leading by done.
  repeat split; apply filter_all; intros [k fi] _; apply empty_part_selects_all.
  - match goal with
    | |- _ ∈ split underscore (?x +:+ _) =>
        destruct (split_trailing underscore x) as (l & _ & Hl);
        assert (split underscore (x +:+ "_") = l ++ [""]) as -> by exact Hl
    end.
    apply elem_of_app. right. apply list_elem_of_here.
  - match goal with
    | |- _ ∈ split underscore (_ +:+ ?x) =>
        change ("" ∈ split underscore (String underscore x))
    end.
    cbn [split]. rewrite Ascii.eqb_refl. apply list_elem_of_here.
  - apply list_elem_of_here.
Qed.

(** *** The company cache *)

Lemma company_key_inj (a b : string) : "company_" +:+ a = "company_" +:+ b -> a = b.
Proof. intros Heq. by injection Heq. Qed.

Lemma get_company_data_miss (self : t) (interval : Z) (name : string)
    (files : list (string * file_info)) (load : string -> json_data) (t1 t2 : Z) :
  _is_cache_valid self interval ("company_" +:+ name) t1 = false ->
  get_company_data_from_s3 self true interval name files load t1 t2
  = (read_files load (_filter_company_files files name),
     {| _data_cache :=
          PyDict.set (_data_cache self) ("company_" +:+ name)
            (read_files load (_filter_company_files files name));
        _last_cache_time := Some t2 |}).
Proof. intros Hmiss. unfold get_company_data_from_s3. simpl. by rewrite Hmiss. Qed.

(** X17.  The reader keeps one timestamp for all companies, so loading
    one company makes every cached company look fresh.  Company [a] is
    loaded and cached at [t0']; when company [b] is requested at [t1]
    that cache is older than the refresh interval, so [b] is loaded and
    stored at [t1']; a request for [a] within the interval after [t1'] is
    then answered with the data cached for [a] at [t0'], whatever the
    bucket holds by now. *)
Theorem company_cache_stale_entry_revived (self : t) (interval : Z) (a b : string)
    (files_a files_b files_now : list (string * file_info))
    (load_a load_b load_now : string -> json_data) (t0 t0' t1 t1' t2 t2' : Z) :
  _is_cache_valid self interval ("company_" +:+ a) t0 = false ->
  a <> b ->
  (interval * 60 * 1000000 < t1 - t0')%Z ->
  (t2 - t1' <= interval * 60 * 1000000)%Z ->
  let r1 := get_company_data_from_s3 self true interval a files_a load_a t0 t0' in
  let r2 := get_company_data_from_s3 (snd r1) true interval b files_b load_b t1 t1' in
  fst r1 = read_files load_a (_filter_company_files files_a a)
  /\ fst r2 = read_files load_b (_filter_company_files files_b b)
  /\ get_company_data_from_s3 (snd r2) true interval a files_now load_now t2 t2'
     = (fst r1, snd r2).
Proof.
  intros Hmiss Hab Hold Hnew r1 r2. unfold r2, r1.
  rewrite (get_company_data_miss self interval a files_a load_a t0 t0' Hmiss).
  cbn [fst snd]. rewrite get_company_data_miss.
  2:{ unfold _is_cache_valid. cbn [_data_cache _last_cache_time].
      destruct (PyDict.get _ _); [| done]. unfold minutes_gt.
      by destruct (Z.ltb_spec (interval * 60 * 1000000) (t1 - t0')); [| lia]. }
  cbn [fst snd]. split; [done |]. split; [done |].
  unfold get_company_data_from_s3. cbn [negb].
  unfold _is_cache_valid. cbn [_data_cache _last_cache_time].
  rewrite dict_get_set_ne by (intros Heq; apply company_key_inj in Heq; congruence).
  rewrite dict_get_set_eq. unfold minutes_gt.
  by destruct (Z.ltb_spec (interval * 60 * 1000000) (t2 - t1')); [lia |].
Qed.

Lemma read_files_from (load : string -> json_data)
    (files : list (string * file_info)) (acc : list (string * json_data)) (ty : string) :
  (forall k fi, (k, fi) ∈ files -> truthy (load k) = true -> _determine_data_type fi <> ty) ->
  PyDict.get
    (fold_left
       (fun company_data '(file_key, file_info) =>
          let data := load file_key in
          if truthy data
          then PyDict.set company_data (_determine_data_type file_info) data
          else company_data)
       files acc) ty
  = PyDict.get acc ty.
Proof.
  revert acc. induction files as [|[k fi] files IH]; intros acc Hno; [done |].
  simpl. rewrite IH.
  - destruct (truthy (load k)) eqn:E; [| done].
    apply dict_get_set_ne. by apply (Hno k fi); [apply list_elem_of_here |].
  - intros k' fi' Hin. apply Hno. by apply list_elem_of_further.
Qed.

(** X18.  A company's data holds one document per data type, and the
    last file wins: when a file with a non-empty document is followed
    only by files of other data types (or with empty documents), its
    document is the one kept for its data type, and whatever the files
    before it held for that type is gone. *)
Theorem read_files_last_wins (load : string -> json_data)
    (before after : list (string * file_info)) (k : string) (fi : file_info) :
  truthy (load k) = true ->
  (forall k' fi', (k', fi') ∈ after -> truthy (load k') = true ->
     _determine_data_type fi' <> _determine_data_type fi) ->
  PyDict.get (read_files load (before ++ (k, fi) :: after)) (_determine_data_type fi)
  = Some (load k).
Proof.
  intros Hk Hafter. unfold read_files. rewrite fold_left_app. simpl. rewrite Hk.
  rewrite read_files_from by done. apply dict_get_set_eq.
Qed.

End Reader.

Lemma filter_company_files_spec_witness :
  ("shared/countries.json", Bucket.shared)
  ∈ S3JSONReader._filter_company_files Bucket.files "Acme Corp".
Proof.
  destruct (filter_company_files_spec Bucket.files "Acme Corp") as [_ Hgeneric].
  - apply NoDup_ListNoDup. vm_compute.
    repeat (constructor; [intros Hin; simpl in Hin; intuition discriminate |]). constructor.
  - apply Hgeneric; [| reflexivity | reflexivity].
    apply list_elem_of_In. simpl. tauto.
Defined.

Lemma filter_company_files_separator_edge_witness :
  S3JSONReader._filter_company_files Bucket.files "Zeta " = Bucket.files.
Proof.
  apply (filter_company_files_separator_edge Bucket.files "Zeta" " ").
  - apply NoDup_ListNoDup. vm_compute.
    repeat (constructor; [intros Hin; simpl in Hin; intuition discriminate |]). constructor.
  - apply list_elem_of_here.
Defined.

(** Without the trailing blank the file in the [client_beta] folder is
    left out. *)
Example filter_company_files_zeta :
  map fst (S3JSONReader._filter_company_files Bucket.files "Zeta")
  = ["data/acme/quarterly_q3.json"; "data/acme/quarterly_q4.json"; "shared/countries.json"].
Proof. vm_compute. reflexivity. Qed.

Lemma company_cache_stale_entry_revived_witness :
  let start := {| S3JSONReader._data_cache := []; S3JSONReader._last_cache_time := None |} in
  let r1 :=
    S3JSONReader.get_company_data_from_s3 start true 60 "acme" Bucket.files Bucket.load
      0 1 in
  let r2 :=
    S3JSONReader.get_company_data_from_s3 (snd r1) true 60 "beta" Bucket.files Bucket.load
      7200000000 7200000001 in
  S3JSONReader.get_company_data_from_s3 (snd r2) true 60 "acme" [] Bucket.load
    7200000002 7200000003
  = (fst r1, snd r2).
Proof.
  apply (company_cache_stale_entry_revived
           {| S3JSONReader._data_cache := []; S3JSONReader._last_cache_time := None |}
           60 "acme" "beta" Bucket.files Bucket.files [] Bucket.load Bucket.load Bucket.load
           0 1 7200000000 7200000001 7200000002 7200000003);
    [reflexivity | discriminate | lia | lia].
Defined.

Lemma read_files_last_wins_witness :
  PyDict.get (S3JSONReader.read_files Bucket.load Bucket.files) "quarterly_revenue"
  = Some (JArray [Examples.beta]).
Proof.
  apply (read_files_last_wins Bucket.load
           [("data/acme/quarterly_q3.json", Bucket.acme_q3)]
           [("client_beta/bridge.json", Bucket.client_beta);
            ("shared/countries.json", Bucket.shared)]
           "data/acme/quarterly_q4.json" Bucket.acme_q4).
  - reflexivity.
  - intros k' fi' Hin _. apply list_elem_of_In in Hin. simpl in Hin.
    destruct Hin as [[= <- <-] | [[= <- <-] | []]]; vm_compute; discriminate.
Defined.

(** ** Loading a file through the cache *)

Section Loader.
Context `{Library}.
Import S3DataDiscovery.
Local Open Scope Z_scope.

Lemma load_json_eq (cm : CacheManager) (file_key : string) (read : option json_data)
    (t1 t2 : Z) :
  let cache_key := Cache.get_cache_key (JStr file_key) [VStr "s3_data"] in
  let looked := Cache.lookup_fresh (analysis_cache cm) (cache_ttl cm) cache_key t1 in
  load_json_from_s3 true cm file_key read t1 t2
  = if truthy (default JNone (fst looked))
    then (default JNone (fst looked), Cache.with_analysis cm (snd looked))
    else match read with
         | Some data =>
             (data,
              Cache.with_analysis cm
                (<[cache_key := {| data := Some data; timestamp := t2 |}]>
                   (analysis_cache cm)))
         | None => (JNone, Cache.with_analysis cm (snd looked))
         end.
Proof.
  intros cache_key looked. unfold load_json_from_s3. cbn [negb].
  fold cache_key. rewrite get_analysis_cache_eq. fold looked.
  destruct (truthy _); [done |]. destruct read as [data|]; [| done].
  unfold Cache.set_analysis_cache.
  cbn [analysis_cache Cache.with_analysis visualization_cache schema_cache cache_ttl].
  unfold looked. by rewrite snd_lookup_fresh_insert.
Qed.

(** X19.  A document that Python counts as true is read from S3 once:
    when the first load misses the cache and reads the document, every
    load of the same file within the cache TTL of that read returns the
    document from the cache and leaves the cache unchanged, whatever S3
    would deliver by then, a failing read included. *)
Theorem load_json_cached_when_truthy (cm : CacheManager) (file_key : string)
    (data : json_data) (read_again : option json_data) (t1 t2 t3 t4 : Z) :
  truthy data = true ->
  truthy (default JNone
            (fst (Cache.get_analysis_cache cm
                    (Cache.get_cache_key (JStr file_key) [VStr "s3_data"]) t1))) = false ->
  t3 - t2 < cache_ttl cm * 1000000 ->
  let r1 := load_json_from_s3 true cm file_key (Some data) t1 t2 in
  fst r1 = data
  /\ load_json_from_s3 true (snd r1) file_key read_again t3 t4 = (data, snd r1).
Proof.
  intros Hdata Hmiss Hlt r1. unfold r1. rewrite get_analysis_cache_eq in Hmiss.
  cbn [fst] in Hmiss. rewrite (load_json_eq cm file_key (Some data) t1 t2). cbv zeta.
  rewrite Hmiss. cbn [fst snd]. split; [done |].
  rewrite load_json_eq. cbv zeta.
  cbn [analysis_cache Cache.with_analysis cache_ttl].
  rewrite lookup_fresh_hit by done. cbn [fst snd from_option id]. rewrite Hdata.
  by rewrite <- (with_analysis_id (Cache.with_analysis cm _)) at 2.
Qed.

(** X20.  A document that Python counts as false (an empty array or
    object, null, zero, the empty string, false) is stored in the cache
    but never served from it: after the load that read it, every later
    load of the file returns what S3 delivers at that moment, and
    [None] when that read fails, however short the time since the
    store. *)
Theorem load_json_falsy_never_served (cm : CacheManager) (file_key : string)
    (data : json_data) (read_again : option json_data) (t1 t2 t3 t4 : Z) :
  truthy data = false ->
  truthy (default JNone
            (fst (Cache.get_analysis_cache cm
                    (Cache.get_cache_key (JStr file_key) [VStr "s3_data"]) t1))) = false ->
  let r1 := load_json_from_s3 true cm file_key (Some data) t1 t2 in
  fst r1 = data
  /\ analysis_cache (snd r1) !! Cache.get_cache_key (JStr file_key) [VStr "s3_data"]
     = Some {| data := Some data; timestamp := t2 |}
  /\ fst (load_json_from_s3 true (snd r1) file_key read_again t3 t4)
     = default JNone read_again.
Proof.
  intros Hdata Hmiss r1. unfold r1. rewrite get_analysis_cache_eq in Hmiss.
  cbn [fst] in Hmiss. rewrite (load_json_eq cm file_key (Some data) t1 t2). cbv zeta.
  rewrite Hmiss. cbn [fst snd]. split; [done |].
  cbn [analysis_cache Cache.with_analysis]. split; [apply lookup_insert_eq |].
  rewrite load_json_eq. cbv zeta.
  cbn [analysis_cache Cache.with_analysis cache_ttl].
  destruct (Z.lt_ge_cases (t3 - t2) (cache_ttl cm * 1000000)) as [Hlt | Hge].
  - rewrite lookup_fresh_hit by done. cbn [fst snd from_option id]. rewrite Hdata.
    by destruct read_again.
  - rewrite lookup_fresh_expired by done. cbn [fst snd from_option id truthy].
    by destruct read_again.
Qed.

End Loader.

Lemma load_json_cached_when_truthy_witness :
  let r1 :=
    S3DataDiscovery.load_json_from_s3 true Cache.init "data/sales.json"
      (Some Examples.sales) 0 10 in
  fst r1 = Examples.sales
  /\ S3DataDiscovery.load_json_from_s3 true (snd r1) "data/sales.json" None 20 30
     = (Examples.sales, snd r1).
Proof.
  apply (load_json_cached_when_truthy Cache.init "data/sales.json" Examples.sales None
           0 10 20 30); [reflexivity | reflexivity | simpl; lia].
Defined.

Lemma load_json_falsy_never_served_witness :
  let r1 :=
    S3DataDiscovery.load_json_from_s3 true Cache.init "data/empty.json"
      (Some (JArray [])) 0 10 in
  fst (S3DataDiscovery.load_json_from_s3 true (snd r1) "data/empty.json" None 20 30)
  = JNone.
Proof.
  destruct (load_json_falsy_never_served Cache.init "data/empty.json" (JArray []) None
              0 10 20 30) as (_ & _ & Hagain); [reflexivity | reflexivity |].
  exact Hagain.
Defined.

(** ** Configuration check *)

Section Validation.
Import ConfigValidator.

(** X21.  The result of [validate_s3_config] is consistent: the
    configuration is valid exactly when nothing is missing and the
    bucket was reached; a valid result has no warning and no
    recommendation; an invalid one has exactly one recommendation;
    warnings come from the connection test only, which is not made
    while something is missing; and a setting is reported missing
    exactly when it is empty. *)
Theorem validate_s3_config_consistent (cfg : s3_config) (test : connection) :
  let r := validate_s3_config cfg test in
  (is_valid r = true <-> missing_configs r = [] /\ test = BucketReached)
  /\ (is_valid r = true -> warnings r = [] /\ recommendations r = [])
  /\ (is_valid r = false -> length (recommendations r) = 1%nat)
  /\ (missing_configs r <> [] -> warnings r = [])
  /\ ("AWS_ACCESS_KEY_ID" ∈ missing_configs r <-> aws_access_key cfg = "")
  /\ ("AWS_SECRET_ACCESS_KEY" ∈ missing_configs r <-> aws_secret_key cfg = "")
  /\ ("S3_BUCKET_NAME" ∈ missing_configs r <-> bucket_name cfg = "").
Proof.
  intros r. unfold r, validate_s3_config.
  destruct (String.eqb_spec (aws_access_key cfg) "") as [Ha | Ha],
           (String.eqb_spec (aws_secret_key cfg) "") as [Hs | Hs],
           (String.eqb_spec (bucket_name cfg) "") as [Hb | Hb];
    destruct test; simpl;
    repeat split; intros; try done; try congruence;
    repeat match goal with
    | H : _ /\ _ |- _ => destruct H
    | H : _ ∈ _ |- _ =>
        apply list_elem_of_In in H; simpl in H; intuition discriminate
    | |- _ ∈ _ => apply list_elem_of_In; simpl; tauto
    end; try done; try congruence.
Qed.

End Validation.

(** ** Upload keys *)

Section FileKeys.
Import S3DataDiscovery S3FileStorageManager.

Lemma str_in_char_app (c : ascii) (a b : string) :
  str_in (String c "") (a +:+ b) = str_in (String c "") a || str_in (String c "") b.
Proof.
  induction a as [|d a IH]; [by rewrite app_nil_s |].
  by rewrite app_cons_s, !str_in_char, IH, orb_assoc.
Qed.

(** Replacing another character does not bring a character in. *)
Lemma replace_char_keeps_out (c d : ascii) (new s : string) :
  str_in (String c "") new = false -> str_in (String c "") s = false ->
  str_in (String c "") (replace (String d "") new s) = false.
Proof.
  intros Hnew. induction s as [|e s IH]; [done |].
  rewrite str_in_char. intros [Hce Hs]%orb_false_iff.
  rewrite replace_char_cons. destruct (Ascii.eqb d e).
  - by rewrite str_in_char_app, Hnew, IH.
  - by rewrite str_in_char, Hce, IH.
Qed.

Lemma split_app_sep (sep : ascii) (x y : string) :
  split sep (x +:+ String sep "" +:+ y) = split sep x ++ split sep y.
Proof.
  induction x as [|c x IH].
  - rewrite app_nil_s, app_cons_s, app_nil_s. cbn [split]. by rewrite Ascii.eqb_refl.
  - rewrite app_cons_s. cbn [split]. rewrite IH.
    destruct (Ascii.eqb c sep); [done |].
    pose proof (split_not_nil sep x). by destruct (split sep x).
Qed.

Lemma last_part_snoc (l : list string) (y : string) : last_part (l ++ [y]) = y.
Proof. unfold last_part. apply last_last. Qed.

Lemma but_last_snoc (l : list string) (y : string) : but_last (l ++ [y]) = l.
Proof. unfold but_last. apply removelast_last. Qed.

Lemma clean_filename_chars (filename : string) :
  str_in " " (clean_filename filename) = false
  /\ str_in "(" (clean_filename filename) = false
  /\ str_in ")" (clean_filename filename) = false.
Proof.
  unfold clean_filename. split; [| split].
  - apply (replace_char_keeps_out " " ")"); [done |].
    apply (replace_char_keeps_out " " "("); [done |].
    by apply (replace_char_gone " " "_").
  - apply (replace_char_keeps_out "(" ")"); [done |].
    by apply (replace_char_gone "(" "").
  - by apply (replace_char_gone ")" "").
Qed.

Lemma mk_file_info_path (obj : s3_object) (folder file : string) :
  Key obj = folder +:+ "/" +:+ file -> str_in "/" file = false ->
  file_name (mk_file_info obj) = file /\ folder_path (mk_file_info obj) = folder.
Proof.
  intros Hkey Hfile. unfold mk_file_info. cbn [file_name folder_path]. rewrite Hkey.
  assert (str_in "/" (folder +:+ "/" +:+ file) = true) as ->.
  { apply str_in_app_r, str_in_app_l. reflexivity. }
  change (folder +:+ "/" +:+ file) with (folder +:+ String slash "" +:+ file).
  rewrite split_app_sep, (split_no_sep slash file) by done.
  rewrite last_part_snoc, but_last_snoc. split; [done |].
  apply (join_split slash).
Qed.

(** X22.  Upload keys and discovery fit together.  When a file name
    without a slash is uploaded, discovery takes the generated key apart
    into the cleaned file name and the folder made of the prefix, the
    company and the date; the cleaned name contains no blank and no
    parenthesis, and a name that had none is kept as it is. *)
Theorem generate_file_key_discovered (prefix company_id timestamp filename : string)
    (obj : s3_object) :
  str_in "/" filename = false ->
  Key obj = generate_file_key prefix company_id timestamp filename ->
  let fi := mk_file_info obj in
  file_name fi = clean_filename filename
  /\ folder_path fi
     = (if String.eqb prefix "" then "" else prefix +:+ "/")
       +:+ "company_" +:+ company_id +:+ "/" +:+ timestamp
  /\ str_in " " (file_name fi) = false
  /\ str_in "(" (file_name fi) = false
  /\ str_in ")" (file_name fi) = false
  /\ (str_in " " filename = false -> str_in "(" filename = false ->
      str_in ")" filename = false -> file_name fi = filename).
Proof.
  intros Hslash Hkey fi.
  assert (str_in "/" (clean_filename filename) = false) as Hclean.
  { unfold clean_filename.
    apply (replace_char_keeps_out "/" ")"); [done |].
    apply (replace_char_keeps_out "/" "("); [done |].
    by apply (replace_char_keeps_out "/" " "). }
  destruct (mk_file_info_path obj
              ((if String.eqb prefix "" then "" else prefix +:+ "/")
               +:+ "company_" +:+ company_id +:+ "/" +:+ timestamp)
              (clean_filename filename)) as [Hname Hfolder]; [| done |].
  { rewrite Hkey. unfold generate_file_key.
    destruct (String.eqb prefix ""); cbn [negb]; by rewrite ?app_nil_s, !app_assoc_s. }
  fold fi in Hname, Hfolder. rewrite Hname.
  destruct (clean_filename_chars filename) as (Hb & Ho & Hc).
  repeat split; try done.
  intros Hb' Ho' Hc'. unfold clean_filename.
  rewrite (replace_char_id " " "_" filename) by done.
  rewrite (replace_char_id "(" "" filename) by done.
  by rewrite (replace_char_id ")" "" filename).
Qed.

End FileKeys.

Lemma generate_file_key_discovered_witness :
  S3DataDiscovery.file_name
    (S3DataDiscovery.mk_file_info
       (Bucket.obj (S3FileStorageManager.generate_file_key "uploads" "7" "2024-05-01"
                      "Q3 report (final).json")))
  = "Q3_report_final.json".
Proof.
  destruct (generate_file_key_discovered "uploads" "7" "2024-05-01" "Q3 report (final).json"
              (Bucket.obj (S3FileStorageManager.generate_file_key "uploads" "7" "2024-05-01"
                             "Q3 report (final).json")))
    as (Hname & _); [reflexivity | reflexivity |].
  exact Hname.
Defined.

(** ** Question suggestions *)

Section Suggestions2.

(** X23.  [generate_schema_based_suggestions] returns two or four
    questions: two exactly when one of the revenue, categorical and date
    groups has columns and the other two have none.  With revenue and
    categorical columns both present the four questions are the two on
    revenue and the two on the first categorical column, so the
    questions on dates are cut off.  The analysis type plays no part. *)
Theorem schema_based_suggestions_shape (m : metrics_t) (analysis_type : string) :
  let s := generate_schema_based_suggestions m analysis_type in
  (length s = 2 \/ length s = 4)
  /\ (length s = 2 <->
      Nat.b2n (nonempty (revenue_columns m)) + Nat.b2n (nonempty (categorical_columns m))
      + Nat.b2n (nonempty (date_columns m)) = 1)
  /\ (forall c cs, revenue_columns m <> [] -> categorical_columns m = c :: cs ->
        s = ["What's the total revenue across all segments?";
             "Which entities have the highest revenue?";
             "Break down performance by " +:+ c;
             "What are the key segment differences?"])
  /\ forall other, generate_schema_based_suggestions m other = s.
Proof.
  intros s. unfold s, generate_schema_based_suggestions.
  destruct (revenue_columns m) as [|r rs], (categorical_columns m) as [|c cs],
           (date_columns m) as [|d ds]; simpl;
    (split; [auto |]); (split; [split; intros; simplify_eq; lia |]);
    (split; [| done]); intros c' cs' Hr Hc; by simplify_eq.
Qed.

End Suggestions2.

(** ** Columns of a sample and of the whole dataset *)

Ltac in_list :=
  intros;
  match goal with
  | H : _ ∈ _ |- _ ∈ _ =>
      apply list_elem_of_In in H; apply list_elem_of_In; simpl in H |- *; tauto
  end.

Section SampleColumns.

Lemma elem_of_add_keys (seen ks : list string) (c : string) :
  c ∈ pd.add_keys seen ks <-> c ∈ seen \/ c ∈ ks.
Proof.
  revert seen. induction ks as [|k ks IH]; intros seen; simpl.
  - split; [by left | intros [? | ?%elem_of_nil]; done].
  - rewrite IH, elem_of_cons. case_bool_decide as Hin.
    + split; [intros [? | ?]; auto | intros [? | [-> | ?]]; auto].
    + rewrite elem_of_app, list_elem_of_singleton. tauto.
Qed.

Lemma elem_of_union_keys_from (rs : list record) (seen : list string) (c : string) :
  c ∈ fold_left (fun seen r => pd.add_keys seen (map fst r)) rs seen
  <-> c ∈ seen \/ exists r, r ∈ rs /\ c ∈ map fst r.
Proof.
  revert seen. induction rs as [|r rs IH]; intros seen; simpl.
  - split; [by left | intros [? | (r & ?%elem_of_nil & _)]; done].
  - rewrite IH, elem_of_add_keys. split.
    + intros [[? | ?] | (r' & ? & ?)]; [by left | right; exists r | right; exists r'].
      * split; [apply list_elem_of_here | done].
      * split; [by apply list_elem_of_further | done].
    + intros [? | (r' & [-> | ?]%elem_of_cons & ?)]; [by left; left | by left; right |].
      right. by exists r'.
Qed.

Lemma union_keys_take (n : nat) (rs : list record) (c : string) :
  c ∈ pd.union_keys (take n rs) -> c ∈ pd.union_keys rs.
Proof.
  unfold pd.union_keys. rewrite !elem_of_union_keys_from.
  intros [? | (r & Hr & Hc)]; [by left |]. right. exists r. split; [| done].
  rewrite <- (take_drop n rs). apply elem_of_app. by left.
Qed.

Lemma mentions_spec (terms cols : list string) :
  Spec.mentions terms cols = true
  <-> exists col term, col ∈ cols /\ term ∈ terms /\ str_in term (lower col) = true.
Proof.
  unfold Spec.mentions, any_in. rewrite existsb_exists. split.
  - intros (col & Hcol & (term & Hterm & Hin)%existsb_exists).
    exists col, term. by rewrite <- !list_elem_of_In in *.
  - intros (col & term & Hcol & Hterm & Hin). exists col.
    split; [by apply list_elem_of_In |]. apply existsb_exists. exists term.
    split; [by apply list_elem_of_In | done].
Qed.

Lemma mentions_mono (terms terms' cols cols' : list string) :
  (forall t, t ∈ terms -> t ∈ terms') -> (forall c, c ∈ cols -> c ∈ cols') ->
  Spec.mentions terms cols = true -> Spec.mentions terms' cols' = true.
Proof.
  intros Ht Hc. rewrite !mentions_spec. intros (col & term & ? & ? & ?).
  exists col, term. auto.
Qed.

End SampleColumns.

(** ** The router and the analyzer *)

Section RouterMore.

Lemma router_bridge_mentions (df : pd.DataFrame) (analysis_type : string) :
  Spec.mentions bridge_terms (pd.columns df) = true ->
  _detect_data_pattern df analysis_type = "revenue_bridge".
Proof.
  intros Hm. unfold _detect_data_pattern.
  rewrite (any_in_joined_mentions bridge_terms (pd.columns df))
    by (unfold bridge_terms; keywords).
  by rewrite Hm.
Qed.

(** X24.  The router answers [revenue_bridge] exactly when some column
    name contains, in whatever case, one of the bridge terms expansion,
    contraction, churn, new, bridge, starting, ending: a match never
    comes from two neighbouring names, and every other rule gives
    another answer. *)
Theorem detect_data_pattern_bridge_iff (df : pd.DataFrame) (analysis_type : string) :
  _detect_data_pattern df analysis_type = "revenue_bridge"
  <-> exists col term,
        col ∈ pd.columns df /\ term ∈ bridge_terms /\ str_in term (lower col) = true.
Proof.
  rewrite <- mentions_spec. split; [| apply router_bridge_mentions].
  unfold _detect_data_pattern.
  rewrite (any_in_joined_mentions bridge_terms (pd.columns df))
    by (unfold bridge_terms; keywords).
  destruct (Spec.mentions bridge_terms (pd.columns df)); [done |].
  repeat case_if; discriminate.
Qed.

(** A renewal date routes the dataset to the bridge charts. *)
Example renewal_date_is_bridge :
  _detect_data_pattern
    (pd.mk [[("Customer", VStr "Acme"); ("Renewal Date", VStr "2024-01-01")]]) "customer"
  = "revenue_bridge".
Proof. reflexivity. Qed.

(** X25.  The analyzer and the router on bridge data.  When the
    analyzer types a dataset as [bridge], the router sends it to
    [revenue_bridge].  The two differ in priority, though: when the
    sampled column names contain a quarter term as well as churn,
    expansion or bridge, the analyzer answers [quarterly] while the
    router still answers [revenue_bridge]. *)
Theorem analyzer_and_router_on_bridge (r : record) (rs : list record)
    (analysis_type : string) :
  (_detect_data_type (JArray (r :: rs)) = "bridge" ->
   _detect_data_pattern (pd.mk (r :: rs)) analysis_type = "revenue_bridge")
  /\ (Spec.mentions ["quarter"; "q3"; "q4"; "qoq"] (pd.union_keys (take 5 (r :: rs))) = true ->
      Spec.mentions ["churn"; "expansion"; "bridge"] (pd.union_keys (take 5 (r :: rs))) = true ->
      _detect_data_type (JArray (r :: rs)) = "quarterly"
      /\ _detect_data_pattern (pd.mk (r :: rs)) analysis_type = "revenue_bridge").
Proof.
  assert (Spec.mentions ["churn"; "expansion"; "bridge"] (pd.union_keys (take 5 (r :: rs))) = true ->
          _detect_data_pattern (pd.mk (r :: rs)) analysis_type = "revenue_bridge") as Hrouter.
  { intros Hm. apply router_bridge_mentions.
    apply (mentions_mono ["churn"; "expansion"; "bridge"] bridge_terms
             (pd.union_keys (take 5 (r :: rs))) (pd.union_keys (r :: rs)));
      [unfold bridge_terms; in_list | apply union_keys_take | done]. }
  rewrite detect_data_type_cons. unfold Spec.detectDataType.
  split.
  - destruct (Spec.mentions ["quarter"; "q3"; "q4"; "qoq"] _); [discriminate |].
    destruct (Spec.mentions ["churn"; "expansion"; "bridge"] _); [by intros _; apply Hrouter |].
    repeat case_if; discriminate.
  - intros -> Hb. split; [done | by apply Hrouter].
Qed.

Example analyzer_and_router_disagree :
  let rows := [[("Quarter", VStr "Q3"); ("Churn", VInt 5)]] in
  _detect_data_type (JArray rows) = "quarterly"
  /\ _detect_data_pattern (pd.mk rows) "quarterly" = "revenue_bridge".
Proof. split; reflexivity. Qed.

End RouterMore.

(** ** Patterns for the executive summary *)

Section BusinessPatterns.

Lemma str_in_joined (term col : string) (cols : list string) :
  has_no_space term = true -> term <> "" -> col ∈ cols ->
  str_in term (lower col) = true ->
  str_in term (join " " (map lower cols)) = true.
Proof.
  intros Hns Hne Hcol Hin. rewrite str_in_join by done.
  apply existsb_exists. exists (lower col).
  split; [apply in_map; by apply list_elem_of_In | done].
Qed.

(** X26.  [detect_business_patterns] names at most one pattern, and
    none for an empty or non-array document.  For a non-empty array a
    tab name containing bridge decides for [revenue_bridge] whatever the
    data is; and when a column name contains expansion, churn or
    contraction, the summary detector and the chart router agree on
    [revenue_bridge]. *)
Theorem business_patterns_single (d : json_data) (schema : option schema_t)
    (tab_name : string) :
  (length (detect_business_patterns d schema tab_name) <= 1)%nat
  /\ (truthy d = false \/ is_array d = false ->
      detect_business_patterns d schema tab_name = [])
  /\ (forall r rs, d = JArray (r :: rs) ->
        (str_in "bridge" (lower tab_name) = true ->
         detect_business_patterns d schema tab_name = ["revenue_bridge"])
        /\ (Spec.mentions ["expansion"; "churn"; "contraction"]
              (pd.columns (pd.mk (r :: rs))) = true ->
            detect_business_patterns d schema tab_name = ["revenue_bridge"]
            /\ forall analysis_type,
                 _detect_data_pattern (pd.mk (r :: rs)) analysis_type = "revenue_bridge")).
Proof.
  split; [| split].
  - unfold detect_business_patterns. destruct d as [[|r rs] | | | | | |]; simpl; try lia.
    repeat case_if; simpl; lia.
  - intros [Hd | Hd]; destruct d as [[|r rs] | | | | | |]; try done.
  - intros r rs ->. split.
    + intros Htab. unfold detect_business_patterns. rewrite Htab.
      by rewrite orb_true_r.
    + intros Hm. split.
      * apply mentions_spec in Hm as (col & term & Hcol & Hterm & Hin).
        unfold detect_business_patterns.
        assert (any_in ["new revenue"; "expansion"; "churn"; "contraction"]
                  (join " " (map lower (pd.columns (pd.mk (r :: rs))))) = true) as ->; [| done].
        apply any_in_true with term; [in_list |].
        apply str_in_joined with col; try done;
          apply list_elem_of_In in Hterm; simpl in Hterm;
          destruct Hterm as [<- | [<- | [<- | []]]]; done.
      * intros analysis_type. apply router_bridge_mentions.
        apply (mentions_mono ["expansion"; "churn"; "contraction"] bridge_terms
                 (pd.columns (pd.mk (r :: rs))) (pd.columns (pd.mk (r :: rs))));
          [unfold bridge_terms; in_list | done | done].
Qed.

Lemma app_empty_s (s : string) : s +:+ "" = s.
Proof. induction s as [|x s IH]; [done |]. by rewrite app_cons_s, IH. Qed.

Lemma join_starts (sep c : string) (cols : list string) :
  exists b, join sep (c :: cols) = c +:+ b.
Proof.
  destruct cols as [|c' cols].
  - exists "". by rewrite app_empty_s.
  - exists (sep +:+ join sep (c' :: cols)). apply join_cons.
Qed.

Lemma joined_adjacent (before after : list string) (c1 c2 : string) :
  exists a b, join " " (before ++ c1 :: c2 :: after) = a +:+ c1 +:+ " " +:+ c2 +:+ b.
Proof.
  induction before as [|x before (a & b & IH)].
  - destruct (join_starts " " c2 after) as [b Hb]. exists "", b.
    change ([] ++ c1 :: c2 :: after) with (c1 :: c2 :: after).
    by rewrite join_cons, Hb, app_nil_s.
  - exists (x +:+ " " +:+ a), b.
    destruct before as [|y before].
    + change ([x] ++ c1 :: c2 :: after) with (x :: c1 :: c2 :: after).
      change ([] ++ c1 :: c2 :: after) with (c1 :: c2 :: after) in IH.
      rewrite join_cons, IH. by rewrite !app_assoc_s.
    + change ((x :: y :: before) ++ c1 :: c2 :: after)
        with (x :: y :: (before ++ c1 :: c2 :: after)).
      change ((y :: before) ++ c1 :: c2 :: after)
        with (y :: (before ++ c1 :: c2 :: after)) in IH.
      rewrite join_cons, IH. by rewrite !app_assoc_s.
Qed.

(** X27.  The term new revenue contains a blank, and the column names
    are joined with blanks before the search: so two neighbouring
    columns, one whose name ends in new and the next whose name starts
    with revenue, make a dataset a revenue bridge for the summary,
    although no column name contains the term. *)
Theorem business_patterns_term_across_columns (r : record) (rs : list record)
    (schema : option schema_t) (tab_name : string)
    (before after : list string) (c1 c2 : string) :
  pd.columns (pd.mk (r :: rs)) = before ++ c1 :: c2 :: after ->
  endswith (lower c1) "new" = true ->
  startswith (lower c2) "revenue" = true ->
  detect_business_patterns (JArray (r :: rs)) schema tab_name = ["revenue_bridge"].
Proof.
  intros Hcols [p Hp]%endswith_spec [q Hq]%startswith_spec.
  unfold detect_business_patterns. rewrite Hcols.
  assert (any_in ["new revenue"; "expansion"; "churn"; "contraction"]
            (join " " (map lower (before ++ c1 :: c2 :: after))) = true) as ->; [| done].
  apply any_in_true with "new revenue"; [apply list_elem_of_here |].
  rewrite map_app. simpl map.
  destruct (joined_adjacent (map lower before) (map lower after) (lower c1) (lower c2))
    as (a & b & ->).
  rewrite Hp, Hq. apply str_in_spec. exists (a +:+ p), (q +:+ b).
  rewrite !app_assoc_s. reflexivity.
Qed.

End BusinessPatterns.

Lemma business_patterns_term_across_columns_witness :
  detect_business_patterns
    (JArray [[("Plan", VStr "Pro"); ("Seats New", VInt 3); ("Revenue EUR", VInt 10)]])
    None "Overview"
  = ["revenue_bridge"].
Proof.
  apply (business_patterns_term_across_columns
           [("Plan", VStr "Pro"); ("Seats New", VInt 3); ("Revenue EUR", VInt 10)] []
           None "Overview" ["Plan"] [] "Seats New" "Revenue EUR"); reflexivity.
Defined.

(** ** Confidence of an assembled schema *)

Section ConfidenceFloor.
Context `{Library}.
Local Open Scope Z_scope.




End ConfidenceFloor.

(** ** The discovery cache *)

Section DiscoveryCache.
Import S3DataDiscovery.
Local Open Scope Z_scope.

(** X29.  A forced scan stores its result and the time.  A later call
    that is not forced returns a non-empty result from the cache,
    without listing the bucket, while less than the refresh interval has
    passed; an empty result is never reused, the bucket is listed again
    on every call; and a listing that fails returns the empty dict but
    leaves the stored result in place. *)
Theorem discover_cache_reuse (self : t) (interval : Z)
    (pages : list (option (list s3_object)))
    (listing : option (list (option (list s3_object)))) (t1 t2 t3 t4 : Z) :
  let r1 := discover_json_files self true interval true (Some pages) t1 t2 in
  fst r1 = scan_pages pages
  /\ (scan_pages pages <> [] -> t3 - t2 < interval * 60 * 1000000 ->
      discover_json_files (snd r1) true interval false listing t3 t4
      = (scan_pages pages, snd r1))
  /\ (scan_pages pages = [] ->
      fst (discover_json_files (snd r1) true interval false listing t3 t4)
      = match listing with Some pages' => scan_pages pages' | None => [] end)
  /\ discover_json_files (snd r1) true interval true None t3 t4 = ([], snd r1).
Proof.
  intros r1. unfold r1, discover_json_files. cbn [negb].
  destruct (_last_scan self); cbn [andb fst snd _file_cache _last_scan negb];
    (split; [done |]); (split; [| split; [| done]]).
  all: try (intros Hne Hlt; unfold minutes_lt;
            destruct (Z.ltb_spec (t3 - t2) (interval * 60 * 1000000)); [| lia];
            by destruct (scan_pages pages)).
  all: intros ->; cbn [nonempty andb]; by destruct listing.
Qed.

End DiscoveryCache.
